(** * gdigrab: the threaded GDI frame grabber of libavdevice

    A shallow embedding of [libavdevice/gdigrab.c]: the device demuxer that
    grabs a desktop or window region from a worker thread into one of two
    DIB sections and hands every grabbed frame to [gdigrab_read_packet]
    through the single pointer [frame_in_stock].

    - Machine integers are [Z] with the wrap-around written out.
    - The Win32 calls are an oracle record; every call the code makes and
      every message it logs is recorded as an event.
    - The three threads (the caller of [gdigrab_worker_start], the worker,
      the reader) are a labelled transition system.  Everything the code
      does between [pthread_mutex_lock] and the next [pthread_cond_wait] or
      [pthread_mutex_unlock] is one transition.

    The profiler of [libavutil/uprofiler.c] and [uprofiler.h] and the calls
    of [paint_mouse_pointer] follow the transition system. *)

From Stdlib Require Import ZArith List Bool String Ascii Lia.
Import ListNotations.
Open Scope Z_scope.

(** ** Machine integers *)

(** Two's-complement wrap-around of a [w]-bit signed integer. *)
Definition wrap (w : Z) (x : Z) : Z :=
  (x + 2 ^ (w - 1)) mod 2 ^ w - 2 ^ (w - 1).

(** [int], [LONG]: 32 bits.  [int64_t]: 64 bits. *)
Definition int32 (x : Z) : Z := wrap 32 x.
Definition int64 (x : Z) : Z := wrap 64 x.

Definition in_int32 (x : Z) : Prop := - 2 ^ 31 <= x < 2 ^ 31.
Definition in_int64 (x : Z) : Prop := - 2 ^ 63 <= x < 2 ^ 63.

(** errno values of the Windows C runtime and FFmpeg's [AVERROR]. *)
Definition EIO : Z := 5.
Definition EAGAIN : Z := 11.
Definition ENOMEM : Z := 12.
Definition AVERROR (e : Z) : Z := - e.

(** ** Frame pacing (gdigrab_worker, "sleep based on the frame rate") *)

(** What one pass through the pacing block computes.  [p_usleep] is the
    value of [time_request_sleep] with which [av_usleep] is called, [None]
    when the call is skipped; [av_usleep] takes an [unsigned], so what it
    receives is that value modulo 2^32. *)
Record pacing := mk_pacing {
  p_time_sleep : Z;
  p_time_request_sleep : Z;
  p_usleep : option Z;
  p_time_actual_sleep : Z;
  p_sleep_balance : Z
}.

(** [time_sleep_start] and [time_end] are the two [av_gettime] readings
    taken before and after the (possibly skipped) sleep. *)
Definition pace (time_base time_start sleep_balance : Z)
                (time_sleep_start time_end : Z) : pacing :=
  let time_sleep := int64 (time_base - int64 (time_sleep_start - time_start)) in
  let time_request_sleep := int64 (time_sleep + sleep_balance) in
  let slept := if 0 <? time_request_sleep then Some time_request_sleep else None in
  let time_actual_sleep := int64 (time_end - time_sleep_start) in
  let balance := int64 (sleep_balance + int64 (time_sleep - time_actual_sleep)) in
  let balance := if balance <? int64 (- time_base) then int64 (- time_base) else balance in
  mk_pacing time_sleep time_request_sleep slept time_actual_sleep balance.

(** Magnitudes for which none of the 64-bit operations of [pace] wraps:
    microsecond clocks stay far below 2^60. *)
Definition small (x : Z) : Prop := - 2 ^ 60 <= x <= 2 ^ 60.


(** ** Win32 data and the Win32 oracle *)

(** Handles ([HWND], [HDC], [HBITMAP]) are integers, [NULL] is 0. *)
Definition HANDLE := Z.
Definition NULL : HANDLE := 0.

(** A pointer to pixel memory: [None] is the null pointer, [Some i] the
    bits of the DIB section created for [buffer[i]]. *)
Definition ptr := option nat.

Record RECT := mk_RECT { left : Z; top : Z; right : Z; bottom : Z }.

Record BITMAP := mk_BITMAP { bmWidthBytes : Z; bmHeight : Z; bmPlanes : Z }.

Record BITMAPINFOHEADER := mk_BITMAPINFOHEADER {
  biSize : Z; biWidth : Z; biHeight : Z; biPlanes : Z; biBitCount : Z;
  biCompression : Z; biSizeImage : Z; biXPelsPerMeter : Z;
  biYPelsPerMeter : Z; biClrUsed : Z; biClrImportant : Z
}.

Definition BI_RGB : Z := 0.

Record AVRational := mk_AVRational { num : Z; den : Z }.

Inductive devcap := BITSPIXEL | HORZRES | VERTRES | DESKTOPHORZRES | DESKTOPVERTRES.

Inductive sysmetric :=
  SM_XVIRTUALSCREEN | SM_YVIRTUALSCREEN | SM_CXVIRTUALSCREEN | SM_CYVIRTUALSCREEN.

(** Everything the code takes from outside at start-up: the sizes of the
    Windows structures, the answers of the Win32 calls of
    [gdigrab_dc_init] and [gdigrab_region_wnd_init], and the value of the
    double-precision expression [(int64_t)(1000000.0 / av_q2d(framerate))]. *)
Record win32 := mk_win32 {
  sizeof_BITMAPFILEHEADER : Z;
  sizeof_BITMAPINFOHEADER : Z;
  sizeof_RGBQUAD : Z;
  FindWindow : string -> HANDLE;
  GetDC : HANDLE -> HANDLE;
  GetDeviceCaps : HANDLE -> devcap -> Z;
  GetClientRect : HANDLE -> RECT;
  GetSystemMetrics : sysmetric -> Z;
  CreateCompatibleDC : HANDLE -> HANDLE;
  CreateDIBSection : HANDLE -> BITMAPINFOHEADER -> nat -> HANDLE;
  GetObject : HANDLE -> BITMAP;
  CreateWindowEx : RECT -> HANDLE;
  SetWindowRgn : HANDLE -> bool;
  frame_period : AVRational -> Z
}.

(** The Win32 calls that create, use or release a resource. *)
Inductive call :=
| CallFindWindow
| CallGetDC
| CallReleaseDC
| CallDeleteDC (h : HANDLE)
| CallCreateCompatibleDC
| CallCreateDIBSection (i : nat)
| CallGetObject
| CallDeleteObject (i : nat)
| CallCreateWindowEx
| CallSetWindowRgn
| CallShowWindow
| CallDestroyWindow
| CallPeekMessage
| CallSelectObject (i : nat)
| CallBitBlt (i : nat)
| CallGetCursorInfo
| CallGetDIBColorTable.

(** The messages of [av_log] at error, warning and info level. *)
Inductive message :=
| MsgCantFindWindow
| MsgCantShowRegion
| MsgBadTarget
| MsgNoDeviceContext
| MsgOutsideArea
| MsgFoundWindow
| MsgCapturingDesktop
| MsgInvalidProperties
| MsgCreateCompatibleDC
| MsgCreateDIBSection
| MsgRegionWindow
| MsgRegionShape
| MsgSelectObject
| MsgCaptureFailed
| MsgCursor
| MsgNoCapturedImage.

Inductive event := Call (c : call) | Log (m : message).

(** ** struct gdigrab *)

(** The fields of [struct gdigrab] but the thread, mutex and condition
    variable, which live in the transition system below.  [hbmp] and
    [buffer] are arrays of two. *)
Record gdigrab := mk_gdigrab {
  frame_size : Z;
  header_size : Z;
  time_base : Z;
  time_frame : Z;
  draw_mouse : Z;
  show_region : Z;
  framerate : AVRational;
  width : Z;
  height : Z;
  offset_x : Z;
  offset_y : Z;
  hwnd : HANDLE;
  source_hdc : HANDLE;
  dest_hdc : HANDLE;
  bmi : BITMAPINFOHEADER;
  hbmp0 : HANDLE;
  hbmp1 : HANDLE;
  buffer0 : ptr;
  buffer1 : ptr;
  clip_rect : RECT;
  region_hwnd : HANDLE;
  cursor_error_printed : Z;
  grab_worker_quit : bool;
  frame_in_stock : ptr;
  error_code : Z
}.

Definition set_frame_size (v : Z) (g : gdigrab) : gdigrab :=
  mk_gdigrab v (header_size g) (time_base g) (time_frame g) (draw_mouse g)
    (show_region g) (framerate g) (width g) (height g) (offset_x g)
    (offset_y g) (hwnd g) (source_hdc g) (dest_hdc g) (bmi g) (hbmp0 g)
    (hbmp1 g) (buffer0 g) (buffer1 g) (clip_rect g) (region_hwnd g)
    (cursor_error_printed g) (grab_worker_quit g) (frame_in_stock g)
    (error_code g).

Definition set_header_size (v : Z) (g : gdigrab) : gdigrab :=
  mk_gdigrab (frame_size g) v (time_base g) (time_frame g) (draw_mouse g)
    (show_region g) (framerate g) (width g) (height g) (offset_x g)
    (offset_y g) (hwnd g) (source_hdc g) (dest_hdc g) (bmi g) (hbmp0 g)
    (hbmp1 g) (buffer0 g) (buffer1 g) (clip_rect g) (region_hwnd g)
    (cursor_error_printed g) (grab_worker_quit g) (frame_in_stock g)
    (error_code g).

Definition set_time_base (v : Z) (g : gdigrab) : gdigrab :=
  mk_gdigrab (frame_size g) (header_size g) v (time_frame g) (draw_mouse g)
    (show_region g) (framerate g) (width g) (height g) (offset_x g)
    (offset_y g) (hwnd g) (source_hdc g) (dest_hdc g) (bmi g) (hbmp0 g)
    (hbmp1 g) (buffer0 g) (buffer1 g) (clip_rect g) (region_hwnd g)
    (cursor_error_printed g) (grab_worker_quit g) (frame_in_stock g)
    (error_code g).

Definition set_time_frame (v : Z) (g : gdigrab) : gdigrab :=
  mk_gdigrab (frame_size g) (header_size g) (time_base g) v (draw_mouse g)
    (show_region g) (framerate g) (width g) (height g) (offset_x g)
    (offset_y g) (hwnd g) (source_hdc g) (dest_hdc g) (bmi g) (hbmp0 g)
    (hbmp1 g) (buffer0 g) (buffer1 g) (clip_rect g) (region_hwnd g)
    (cursor_error_printed g) (grab_worker_quit g) (frame_in_stock g)
    (error_code g).

Definition set_show_region (v : Z) (g : gdigrab) : gdigrab :=
  mk_gdigrab (frame_size g) (header_size g) (time_base g) (time_frame g)
    (draw_mouse g) v (framerate g) (width g) (height g) (offset_x g)
    (offset_y g) (hwnd g) (source_hdc g) (dest_hdc g) (bmi g) (hbmp0 g)
    (hbmp1 g) (buffer0 g) (buffer1 g) (clip_rect g) (region_hwnd g)
    (cursor_error_printed g) (grab_worker_quit g) (frame_in_stock g)
    (error_code g).

Definition set_hwnd (v : HANDLE) (g : gdigrab) : gdigrab :=
  mk_gdigrab (frame_size g) (header_size g) (time_base g) (time_frame g)
    (draw_mouse g) (show_region g) (framerate g) (width g) (height g)
    (offset_x g) (offset_y g) v (source_hdc g) (dest_hdc g) (bmi g) (hbmp0
    g) (hbmp1 g) (buffer0 g) (buffer1 g) (clip_rect g) (region_hwnd g)
    (cursor_error_printed g) (grab_worker_quit g) (frame_in_stock g)
    (error_code g).

Definition set_source_hdc (v : HANDLE) (g : gdigrab) : gdigrab :=
  mk_gdigrab (frame_size g) (header_size g) (time_base g) (time_frame g)
    (draw_mouse g) (show_region g) (framerate g) (width g) (height g)
    (offset_x g) (offset_y g) (hwnd g) v (dest_hdc g) (bmi g) (hbmp0 g)
    (hbmp1 g) (buffer0 g) (buffer1 g) (clip_rect g) (region_hwnd g)
    (cursor_error_printed g) (grab_worker_quit g) (frame_in_stock g)
    (error_code g).

Definition set_dest_hdc (v : HANDLE) (g : gdigrab) : gdigrab :=
  mk_gdigrab (frame_size g) (header_size g) (time_base g) (time_frame g)
    (draw_mouse g) (show_region g) (framerate g) (width g) (height g)
    (offset_x g) (offset_y g) (hwnd g) (source_hdc g) v (bmi g) (hbmp0 g)
    (hbmp1 g) (buffer0 g) (buffer1 g) (clip_rect g) (region_hwnd g)
    (cursor_error_printed g) (grab_worker_quit g) (frame_in_stock g)
    (error_code g).

Definition set_bmi (v : BITMAPINFOHEADER) (g : gdigrab) : gdigrab :=
  mk_gdigrab (frame_size g) (header_size g) (time_base g) (time_frame g)
    (draw_mouse g) (show_region g) (framerate g) (width g) (height g)
    (offset_x g) (offset_y g) (hwnd g) (source_hdc g) (dest_hdc g) v (hbmp0
    g) (hbmp1 g) (buffer0 g) (buffer1 g) (clip_rect g) (region_hwnd g)
    (cursor_error_printed g) (grab_worker_quit g) (frame_in_stock g)
    (error_code g).

Definition set_hbmp0 (v : HANDLE) (g : gdigrab) : gdigrab :=
  mk_gdigrab (frame_size g) (header_size g) (time_base g) (time_frame g)
    (draw_mouse g) (show_region g) (framerate g) (width g) (height g)
    (offset_x g) (offset_y g) (hwnd g) (source_hdc g) (dest_hdc g) (bmi g) v
    (hbmp1 g) (buffer0 g) (buffer1 g) (clip_rect g) (region_hwnd g)
    (cursor_error_printed g) (grab_worker_quit g) (frame_in_stock g)
    (error_code g).

Definition set_hbmp1 (v : HANDLE) (g : gdigrab) : gdigrab :=
  mk_gdigrab (frame_size g) (header_size g) (time_base g) (time_frame g)
    (draw_mouse g) (show_region g) (framerate g) (width g) (height g)
    (offset_x g) (offset_y g) (hwnd g) (source_hdc g) (dest_hdc g) (bmi g)
    (hbmp0 g) v (buffer0 g) (buffer1 g) (clip_rect g) (region_hwnd g)
    (cursor_error_printed g) (grab_worker_quit g) (frame_in_stock g)
    (error_code g).

Definition set_buffer0 (v : ptr) (g : gdigrab) : gdigrab :=
  mk_gdigrab (frame_size g) (header_size g) (time_base g) (time_frame g)
    (draw_mouse g) (show_region g) (framerate g) (width g) (height g)
    (offset_x g) (offset_y g) (hwnd g) (source_hdc g) (dest_hdc g) (bmi g)
    (hbmp0 g) (hbmp1 g) v (buffer1 g) (clip_rect g) (region_hwnd g)
    (cursor_error_printed g) (grab_worker_quit g) (frame_in_stock g)
    (error_code g).

Definition set_buffer1 (v : ptr) (g : gdigrab) : gdigrab :=
  mk_gdigrab (frame_size g) (header_size g) (time_base g) (time_frame g)
    (draw_mouse g) (show_region g) (framerate g) (width g) (height g)
    (offset_x g) (offset_y g) (hwnd g) (source_hdc g) (dest_hdc g) (bmi g)
    (hbmp0 g) (hbmp1 g) (buffer0 g) v (clip_rect g) (region_hwnd g)
    (cursor_error_printed g) (grab_worker_quit g) (frame_in_stock g)
    (error_code g).

Definition set_clip_rect (v : RECT) (g : gdigrab) : gdigrab :=
  mk_gdigrab (frame_size g) (header_size g) (time_base g) (time_frame g)
    (draw_mouse g) (show_region g) (framerate g) (width g) (height g)
    (offset_x g) (offset_y g) (hwnd g) (source_hdc g) (dest_hdc g) (bmi g)
    (hbmp0 g) (hbmp1 g) (buffer0 g) (buffer1 g) v (region_hwnd g)
    (cursor_error_printed g) (grab_worker_quit g) (frame_in_stock g)
    (error_code g).

Definition set_region_hwnd (v : HANDLE) (g : gdigrab) : gdigrab :=
  mk_gdigrab (frame_size g) (header_size g) (time_base g) (time_frame g)
    (draw_mouse g) (show_region g) (framerate g) (width g) (height g)
    (offset_x g) (offset_y g) (hwnd g) (source_hdc g) (dest_hdc g) (bmi g)
    (hbmp0 g) (hbmp1 g) (buffer0 g) (buffer1 g) (clip_rect g) v
    (cursor_error_printed g) (grab_worker_quit g) (frame_in_stock g)
    (error_code g).

Definition set_cursor_error_printed (v : Z) (g : gdigrab) : gdigrab :=
  mk_gdigrab (frame_size g) (header_size g) (time_base g) (time_frame g)
    (draw_mouse g) (show_region g) (framerate g) (width g) (height g)
    (offset_x g) (offset_y g) (hwnd g) (source_hdc g) (dest_hdc g) (bmi g)
    (hbmp0 g) (hbmp1 g) (buffer0 g) (buffer1 g) (clip_rect g) (region_hwnd
    g) v (grab_worker_quit g) (frame_in_stock g) (error_code g).

Definition set_grab_worker_quit (v : bool) (g : gdigrab) : gdigrab :=
  mk_gdigrab (frame_size g) (header_size g) (time_base g) (time_frame g)
    (draw_mouse g) (show_region g) (framerate g) (width g) (height g)
    (offset_x g) (offset_y g) (hwnd g) (source_hdc g) (dest_hdc g) (bmi g)
    (hbmp0 g) (hbmp1 g) (buffer0 g) (buffer1 g) (clip_rect g) (region_hwnd
    g) (cursor_error_printed g) v (frame_in_stock g) (error_code g).

Definition set_frame_in_stock (v : ptr) (g : gdigrab) : gdigrab :=
  mk_gdigrab (frame_size g) (header_size g) (time_base g) (time_frame g)
    (draw_mouse g) (show_region g) (framerate g) (width g) (height g)
    (offset_x g) (offset_y g) (hwnd g) (source_hdc g) (dest_hdc g) (bmi g)
    (hbmp0 g) (hbmp1 g) (buffer0 g) (buffer1 g) (clip_rect g) (region_hwnd
    g) (cursor_error_printed g) (grab_worker_quit g) v (error_code g).

Definition set_error_code (v : Z) (g : gdigrab) : gdigrab :=
  mk_gdigrab (frame_size g) (header_size g) (time_base g) (time_frame g)
    (draw_mouse g) (show_region g) (framerate g) (width g) (height g)
    (offset_x g) (offset_y g) (hwnd g) (source_hdc g) (dest_hdc g) (bmi g)
    (hbmp0 g) (hbmp1 g) (buffer0 g) (buffer1 g) (clip_rect g) (region_hwnd
    g) (cursor_error_printed g) (grab_worker_quit g) (frame_in_stock g) v.

Definition hbmp (g : gdigrab) (i : nat) : HANDLE :=
  match i with O => hbmp0 g | _ => hbmp1 g end.

Definition buffer (g : gdigrab) (i : nat) : ptr :=
  match i with O => buffer0 g | _ => buffer1 g end.

Definition set_hbmp (i : nat) (v : HANDLE) (g : gdigrab) : gdigrab :=
  match i with O => set_hbmp0 v g | _ => set_hbmp1 v g end.

Definition set_buffer (i : nat) (v : ptr) (g : gdigrab) : gdigrab :=
  match i with O => set_buffer0 v g | _ => set_buffer1 v g end.

(** ** A monad for the body of gdigrab_dc_init

    The body reads and writes the struct, calls Win32, logs, and leaves
    through [goto end] with a return code. *)
Inductive outcome (A : Type) :=
| Goto_end (ret : Z) (g : gdigrab) (ev : list event)
| Continue (a : A) (g : gdigrab) (ev : list event).
Arguments Goto_end {A} ret g ev.
Arguments Continue {A} a g ev.

Definition M (A : Type) := gdigrab -> outcome A.

Definition ret {A} (a : A) : M A := fun g => Continue a g [].

Definition bind {A B} (m : M A) (k : A -> M B) : M B :=
  fun g =>
    match m g with
    | Goto_end r g' ev => Goto_end r g' ev
    | Continue a g' ev =>
        match k a g' with
        | Goto_end r g'' ev' => Goto_end r g'' (ev ++ ev')
        | Continue b g'' ev' => Continue b g'' (ev ++ ev')
        end
    end.

Definition goto_end {A} (r : Z) : M A := fun g => Goto_end r g [].
Definition emit (e : event) : M unit := fun g => Continue tt g [e].
Definition gets {A} (f : gdigrab -> A) : M A := fun g => Continue (f g) g [].
Definition modify (f : gdigrab -> gdigrab) : M unit := fun g => Continue tt (f g) [].
Definition when (b : bool) (m : M unit) : M unit := if b then m else ret tt.

Notation "x <- m ;; k" := (bind m (fun x => k))
  (at level 61, m at next level, right associativity).
Notation "m ;; k" := (bind m (fun _ => k))
  (at level 61, right associativity).

(** ** gdigrab_region_wnd_destroy, gdigrab_dc_destroy *)

Definition gdigrab_region_wnd_destroy : M unit :=
  h <- gets region_hwnd ;;
  when (negb (h =? NULL)) (emit (Call CallDestroyWindow)) ;;
  modify (set_region_hwnd NULL).

Definition destroy_bitmap (i : nat) : M unit :=
  h <- gets (fun g => hbmp g i) ;;
  when (negb (h =? NULL))
    (emit (Call (CallDeleteObject i)) ;;
     modify (set_hbmp i NULL) ;;
     modify (set_buffer i None)).

Definition dc_destroy : M unit :=
  sr <- gets show_region ;;
  when (negb (sr =? 0)) gdigrab_region_wnd_destroy ;;
  src <- gets source_hdc ;;
  dst <- gets dest_hdc ;;
  when (negb (src =? NULL)) (emit (Call CallReleaseDC)) ;;
  when (negb (dst =? NULL)) (emit (Call (CallDeleteDC dst))) ;;
  when (negb (src =? NULL)) (emit (Call (CallDeleteDC src))) ;;
  destroy_bitmap 0 ;;
  destroy_bitmap 1 ;;
  modify (set_hwnd NULL) ;;
  modify (set_source_hdc NULL) ;;
  modify (set_dest_hdc NULL) ;;
  modify (set_frame_in_stock None).

(** [gdigrab_dc_destroy] has no early exit: it always returns 0. *)
Definition gdigrab_dc_destroy (g : gdigrab) : gdigrab * list event :=
  match dc_destroy g with
  | Continue _ g' ev => (g', ev)
  | Goto_end _ g' ev => (g', ev)
  end.

(** ** gdigrab_region_wnd_init *)

Definition REGION_WND_BORDER : Z := 3.

Definition gdigrab_region_wnd_init (W : win32) : M Z :=
  rect <- gets clip_rect ;;
  let rect := mk_RECT (int32 (left rect - REGION_WND_BORDER))
                      (int32 (top rect - REGION_WND_BORDER))
                      (int32 (right rect + REGION_WND_BORDER))
                      (int32 (bottom rect + REGION_WND_BORDER)) in
  let h := CreateWindowEx W rect in
  emit (Call CallCreateWindowEx) ;;
  if h =? NULL then
    emit (Log MsgRegionWindow) ;; ret 1
  else
    emit (Call CallSetWindowRgn) ;;
    if negb (SetWindowRgn W h) then
      emit (Log MsgRegionShape) ;; emit (Call CallDestroyWindow) ;; ret 1
    else
      emit (Call CallShowWindow) ;;
      modify (set_region_hwnd h) ;;
      ret 0.

(** ** gdigrab_dc_init *)

(** [WORD] fields keep the low 16 bits. *)
Definition word16 (x : Z) : Z := x mod 2 ^ 16.

(** Lines 299-318: the window named after ["title="], or the desktop.
    Returns [name] and the local [hwnd]. *)
Definition resolve_target (W : win32) (url : string) : M (option string * HANDLE) :=
  if prefix "title=" url then
    let name := substring 6 (String.length url - 6) url in
    let h := FindWindow W name in
    emit (Call CallFindWindow) ;;
    modify (set_hwnd h) ;;
    if h =? NULL then
      emit (Log MsgCantFindWindow) ;; goto_end (AVERROR EIO)
    else
      sr <- gets show_region ;;
      when (negb (sr =? 0))
        (emit (Log MsgCantShowRegion) ;; modify (set_show_region 0)) ;;
      ret (Some name, h)
  else if negb (String.eqb url "desktop") then
    emit (Log MsgBadTarget) ;; goto_end (AVERROR EIO)
  else
    ret (None, NULL).

(** Lines 330-342: the bounds of the target.  The desktop bounds are
    scaled in [int] arithmetic; C's [/] truncates ([Z.quot]). *)
Definition virtual_rect_of (W : win32) (hwnd source_hdc : HANDLE) : RECT :=
  if negb (hwnd =? NULL) then GetClientRect W hwnd
  else
    let horzres := GetDeviceCaps W source_hdc HORZRES in
    let vertres := GetDeviceCaps W source_hdc VERTRES in
    let desktophorzres := GetDeviceCaps W source_hdc DESKTOPHORZRES in
    let desktopvertres := GetDeviceCaps W source_hdc DESKTOPVERTRES in
    let l := GetSystemMetrics W SM_XVIRTUALSCREEN in
    let t := GetSystemMetrics W SM_YVIRTUALSCREEN in
    mk_RECT l t
      (int32 (Z.quot (int32 (int32 (l + GetSystemMetrics W SM_CXVIRTUALSCREEN)
                             * desktophorzres)) horzres))
      (int32 (Z.quot (int32 (int32 (t + GetSystemMetrics W SM_CYVIRTUALSCREEN)
                             * desktopvertres)) vertres)).

(** Lines 344-355: "If no width or height set, use full screen/window area". *)
Definition clip_rect_of (g : gdigrab) (virtual_rect : RECT) : RECT :=
  if (width g =? 0) || (height g =? 0) then
    mk_RECT (left virtual_rect) (top virtual_rect)
            (right virtual_rect) (bottom virtual_rect)
  else
    mk_RECT (offset_x g) (offset_y g)
            (int32 (width g + offset_x g)) (int32 (height g + offset_y g)).

(** Lines 357-360. *)
Definition extends_outside (clip virtual_rect : RECT) : bool :=
  (left clip <? left virtual_rect) || (top clip <? top virtual_rect) ||
  (right virtual_rect <? right clip) || (bottom virtual_rect <? bottom clip).

(** Lines 387-388; C's [%] is [Z.rem]. *)
Definition invalid_properties (clip : RECT) (bpp : Z) : bool :=
  (int32 (right clip - left clip) <=? 0) ||
  (int32 (bottom clip - top clip) <=? 0) ||
  negb (Z.rem bpp 8 =? 0).

(** One round of the loop of lines 414-422. *)
Definition create_dib (W : win32) (dest_hdc : HANDLE) (bi : BITMAPINFOHEADER)
    (i : nat) : M unit :=
  let h := CreateDIBSection W dest_hdc bi i in
  emit (Call (CallCreateDIBSection i)) ;;
  modify (set_hbmp i h) ;;
  modify (set_buffer i (if h =? NULL then None else Some i)) ;;
  if h =? NULL then
    emit (Log MsgCreateDIBSection) ;; goto_end (AVERROR EIO)
  else ret tt.

(** The body of [gdigrab_dc_init] between its first [gdigrab_dc_destroy]
    and the label [end]. *)
Definition dc_init_body (W : win32) (url : string) : M unit :=
  t <- resolve_target W url ;;
  let name := fst t in
  let hwnd := snd t in
  let source_hdc := GetDC W hwnd in
  emit (Call CallGetDC) ;;
  modify (set_source_hdc source_hdc) ;;
  if source_hdc =? NULL then
    emit (Log MsgNoDeviceContext) ;; goto_end (AVERROR EIO)
  else
  let bpp := GetDeviceCaps W source_hdc BITSPIXEL in
  let virtual_rect := virtual_rect_of W hwnd source_hdc in
  g <- gets (fun g => g) ;;
  let clip := clip_rect_of g virtual_rect in
  if extends_outside clip virtual_rect then
    emit (Log MsgOutsideArea) ;; goto_end (AVERROR EIO)
  else
  emit (Log (match name with Some _ => MsgFoundWindow | None => MsgCapturingDesktop end)) ;;
  if invalid_properties clip bpp then
    emit (Log MsgInvalidProperties) ;; goto_end (AVERROR EIO)
  else
  let dest_hdc := CreateCompatibleDC W source_hdc in
  emit (Call CallCreateCompatibleDC) ;;
  modify (set_dest_hdc dest_hdc) ;;
  if dest_hdc =? NULL then
    emit (Log MsgCreateCompatibleDC) ;; goto_end (AVERROR EIO)
  else
  let bi := mk_BITMAPINFOHEADER
              (sizeof_BITMAPINFOHEADER W)
              (int32 (right clip - left clip))
              (int32 (- int32 (bottom clip - top clip)))
              1 (word16 bpp) BI_RGB 0 0 0 0 0 in
  create_dib W dest_hdc bi 0 ;;
  create_dib W dest_hdc bi 1 ;;
  h0 <- gets hbmp0 ;;
  let bmp := GetObject W h0 in
  emit (Call CallGetObject) ;;
  modify (set_frame_size
            (int32 (int32 (bmWidthBytes bmp * bmHeight bmp) * bmPlanes bmp))) ;;
  modify (set_header_size
            (int32 (sizeof_BITMAPFILEHEADER W + sizeof_BITMAPINFOHEADER W +
                    (if bpp <=? 8 then Z.shiftl 1 bpp else 0) * sizeof_RGBQUAD W))) ;;
  fr <- gets framerate ;;
  modify (set_time_base (frame_period W fr)) ;;
  modify (set_bmi bi) ;;
  modify (set_clip_rect clip) ;;
  modify (set_cursor_error_printed 0) ;;
  sr <- gets show_region ;;
  if negb (sr =? 0) then
    r <- gdigrab_region_wnd_init W ;;
    if negb (r =? 0) then goto_end (AVERROR EIO) else ret tt
  else ret tt.

(** [gdigrab_dc_init]: destroy what is there, run the body, and at [end]
    destroy again when [ret] is non-zero and store [ret] in [error_code].
    The function runs with [grab_mutex] held and ends with a broadcast. *)
Definition gdigrab_dc_init (W : win32) (url : string) (g : gdigrab)
    : Z * gdigrab * list event :=
  let '(g1, ev1) := gdigrab_dc_destroy g in
  match dc_init_body W url g1 with
  | Continue _ g2 ev2 => (0, set_error_code 0 g2, ev1 ++ ev2)
  | Goto_end r g2 ev2 =>
      let '(g3, ev3) :=
        if r =? 0 then (g2, []) else gdigrab_dc_destroy g2 in
      (r, set_error_code r g3, ev1 ++ ev2 ++ ev3)
  end.

(** ** Pixels, frames and packets *)

(** The pixels of a DIB section: [None] while nothing valid is in it,
    [Some n] the screen as the n-th iteration of the worker loop grabbed it
    (iterations count from 0). *)
Definition image := option nat.

(** What the worker hands over: the value stored in [time_frame] and the
    pixels behind the pointer stored in [frame_in_stock]. *)
Record frame := mk_frame { f_time : Z; f_pixels : image }.

(** A packet filled by [gdigrab_copy_frame]: [pts], the allocated size,
    and the four parts of [data]. *)
Record AVPacket := mk_AVPacket {
  pts : Z;
  size : Z;
  bfType : Z;
  bfSize : Z;
  bfOffBits : Z;
  bmiHeader : BITMAPINFOHEADER;
  palette : bool;
  pixels : image
}.

Definition frame_of_packet (p : AVPacket) : frame := mk_frame (pts p) (pixels p).

(** The outcome of the two Win32 calls of one grab. *)
Inductive grab_result := SelectObjectFailed | BitBltFailed | Grabbed.

Definition grab_ok (r : grab_result) : bool :=
  match r with Grabbed => true | _ => false end.

(** ** The threads *)

(** Where the worker thread stands.
    - [WInit]: at the entry of [gdigrab_worker];
    - [WLoop]: at the test of the [for] loop;
    - [WGrabbed]: after [time_grab_end = av_gettime()], before the lock;
    - [WWaitStock]: inside [pthread_cond_wait] of the [while] loop;
    - [WPace]: after the unlock that follows the hand-over;
    - [WExited]: returned. *)
Inductive wpc := WNotCreated | WInit | WLoop | WGrabbed | WWaitStock | WPace | WExited.

(** The reader is outside [gdigrab_read_packet] or inside its
    [pthread_cond_wait]. *)
Inductive rpc := RIdle | RWait.

(** The caller of [gdigrab_worker_start]: not yet called, thread created,
    inside [pthread_cond_wait], returned. *)
Inductive spc := SNotCalled | SCreated | SWait | SReturned (r : Z).

(** The locals of [gdigrab_worker] that live across iterations.  The local
    copy of [time_base] is taken after [gdigrab_dc_init]. *)
Record worker := mk_worker {
  pc : wpc;
  l_i : nat;
  l_sn : Z;
  l_time_base : Z;
  l_time_start : Z;
  l_time_end : Z;
  l_sleep_balance : Z;
  l_error : Z;
  l_frame_in_stock : ptr
}.

Definition set_pc (v : wpc) (w : worker) : worker :=
  mk_worker v (l_i w) (l_sn w) (l_time_base w) (l_time_start w) (l_time_end
    w) (l_sleep_balance w) (l_error w) (l_frame_in_stock w).
(** The whole system: the format context ([url]), the struct, the pixel
    memory of the two DIB sections, the three threads with their
    condition-variable wake-up flags, and what an observer records:
    - [events]: Win32 calls and log messages, oldest first;
    - [iters]: start time and outcome of every iteration begun, newest first;
    - [offered]: frames stored into [frame_in_stock], newest first;
    - [dropped]: frames wiped from [frame_in_stock] by the worker on exit;
    - [delivered]: packets filled by [gdigrab_copy_frame], newest first;
    - [pulls]: return values of [gdigrab_read_packet], newest first. *)
Record system := mk_system {
  url : string;
  ctx : gdigrab;
  dib0 : image;
  dib1 : image;
  wk : worker;
  woken_w : bool;
  reader : rpc;
  woken_r : bool;
  starter : spc;
  woken_s : bool;
  events : list event;
  iters : list (Z * grab_result);
  offered : list frame;
  dropped : list frame;
  delivered : list AVPacket;
  pulls : list Z
}.

Definition set_ctx (v : gdigrab) (s : system) : system :=
  mk_system (url s) v (dib0 s) (dib1 s) (wk s) (woken_w s) (reader s)
    (woken_r s) (starter s) (woken_s s) (events s) (iters s) (offered s)
    (dropped s) (delivered s) (pulls s).

Definition set_dib0 (v : image) (s : system) : system :=
  mk_system (url s) (ctx s) v (dib1 s) (wk s) (woken_w s) (reader s)
    (woken_r s) (starter s) (woken_s s) (events s) (iters s) (offered s)
    (dropped s) (delivered s) (pulls s).

Definition set_dib1 (v : image) (s : system) : system :=
  mk_system (url s) (ctx s) (dib0 s) v (wk s) (woken_w s) (reader s)
    (woken_r s) (starter s) (woken_s s) (events s) (iters s) (offered s)
    (dropped s) (delivered s) (pulls s).

Definition set_wk (v : worker) (s : system) : system :=
  mk_system (url s) (ctx s) (dib0 s) (dib1 s) v (woken_w s) (reader s)
    (woken_r s) (starter s) (woken_s s) (events s) (iters s) (offered s)
    (dropped s) (delivered s) (pulls s).

Definition set_woken_w (v : bool) (s : system) : system :=
  mk_system (url s) (ctx s) (dib0 s) (dib1 s) (wk s) v (reader s) (woken_r
    s) (starter s) (woken_s s) (events s) (iters s) (offered s) (dropped s)
    (delivered s) (pulls s).

Definition set_reader (v : rpc) (s : system) : system :=
  mk_system (url s) (ctx s) (dib0 s) (dib1 s) (wk s) (woken_w s) v (woken_r
    s) (starter s) (woken_s s) (events s) (iters s) (offered s) (dropped s)
    (delivered s) (pulls s).

Definition set_woken_r (v : bool) (s : system) : system :=
  mk_system (url s) (ctx s) (dib0 s) (dib1 s) (wk s) (woken_w s) (reader s)
    v (starter s) (woken_s s) (events s) (iters s) (offered s) (dropped s)
    (delivered s) (pulls s).

Definition set_starter (v : spc) (s : system) : system :=
  mk_system (url s) (ctx s) (dib0 s) (dib1 s) (wk s) (woken_w s) (reader s)
    (woken_r s) v (woken_s s) (events s) (iters s) (offered s) (dropped s)
    (delivered s) (pulls s).

Definition set_woken_s (v : bool) (s : system) : system :=
  mk_system (url s) (ctx s) (dib0 s) (dib1 s) (wk s) (woken_w s) (reader s)
    (woken_r s) (starter s) v (events s) (iters s) (offered s) (dropped s)
    (delivered s) (pulls s).

Definition set_events (v : list event) (s : system) : system :=
  mk_system (url s) (ctx s) (dib0 s) (dib1 s) (wk s) (woken_w s) (reader s)
    (woken_r s) (starter s) (woken_s s) v (iters s) (offered s) (dropped s)
    (delivered s) (pulls s).

Definition set_iters (v : list (Z * grab_result)) (s : system) : system :=
  mk_system (url s) (ctx s) (dib0 s) (dib1 s) (wk s) (woken_w s) (reader s)
    (woken_r s) (starter s) (woken_s s) (events s) v (offered s) (dropped s)
    (delivered s) (pulls s).

Definition set_offered (v : list frame) (s : system) : system :=
  mk_system (url s) (ctx s) (dib0 s) (dib1 s) (wk s) (woken_w s) (reader s)
    (woken_r s) (starter s) (woken_s s) (events s) (iters s) v (dropped s)
    (delivered s) (pulls s).

Definition set_dropped (v : list frame) (s : system) : system :=
  mk_system (url s) (ctx s) (dib0 s) (dib1 s) (wk s) (woken_w s) (reader s)
    (woken_r s) (starter s) (woken_s s) (events s) (iters s) (offered s) v
    (delivered s) (pulls s).

Definition set_delivered (v : list AVPacket) (s : system) : system :=
  mk_system (url s) (ctx s) (dib0 s) (dib1 s) (wk s) (woken_w s) (reader s)
    (woken_r s) (starter s) (woken_s s) (events s) (iters s) (offered s)
    (dropped s) v (pulls s).

Definition set_pulls (v : list Z) (s : system) : system :=
  mk_system (url s) (ctx s) (dib0 s) (dib1 s) (wk s) (woken_w s) (reader s)
    (woken_r s) (starter s) (woken_s s) (events s) (iters s) (offered s)
    (dropped s) (delivered s) v.
Definition dib (s : system) (i : nat) : image :=
  match i with O => dib0 s | _ => dib1 s end.

Definition set_dib (i : nat) (v : image) (s : system) : system :=
  match i with O => set_dib0 v s | _ => set_dib1 v s end.

Definition deref (s : system) (p : ptr) : image :=
  match p with Some i => dib s i | None => None end.

(** The frame waiting in the slot, if any. *)
Definition pending (s : system) : list frame :=
  match frame_in_stock (ctx s) with
  | Some i => [mk_frame (time_frame (ctx s)) (dib s i)]
  | None => []
  end.

Definition log (ev : list event) (s : system) : system :=
  set_events (events s ++ ev) s.

(** [pthread_cond_broadcast]: whoever waits on [grab_cond] may go on.  A
    thread clears its own flag when it enters [pthread_cond_wait]. *)
Definition broadcast (s : system) : system :=
  set_woken_w true (set_woken_r true (set_woken_s true s)).

(** ** gdigrab_copy_frame, gdigrab_read_packet, gdigrab_read_close *)

Definition dword (x : Z) : Z := x mod 2 ^ 32.

(** [alloc_ok]: whether [av_new_packet] succeeds.  Returns the return
    value and the packet. *)
Definition gdigrab_copy_frame (alloc_ok : bool) (s : system)
    : Z * option AVPacket * system :=
  let g := ctx s in
  let file_size := int32 (header_size g + frame_size g) in
  if negb alloc_ok then (AVERROR ENOMEM, None, s)
  else
    let pal := biBitCount (bmi g) <=? 8 in
    let pkt := mk_AVPacket (time_frame g) file_size 19778 (dword file_size)
                 (dword (header_size g)) (bmi g) pal
                 (deref s (frame_in_stock g)) in
    let s := if pal then log [Call CallGetDIBColorTable] s else s in
    let s := set_delivered (pkt :: delivered s) s in
    let s := set_ctx (set_frame_in_stock None (ctx s)) s in
    (int32 (header_size g + frame_size g), Some pkt, s).

(** The end of [gdigrab_read_packet]: broadcast, unlock, return. *)
Definition read_return (r : Z) (s : system) : system :=
  broadcast (set_reader RIdle (set_pulls (r :: pulls s) s)).

(** [gdigrab_read_packet] from the lock to its return or to the wait. *)
Definition read_packet_enter (nonblock alloc_ok : bool) (s : system) : system :=
  if negb (error_code (ctx s) =? 0) then
    read_return (AVERROR EIO) s
  else
    match frame_in_stock (ctx s) with
    | Some _ =>
        let '(r, _, s') := gdigrab_copy_frame alloc_ok s in read_return r s'
    | None =>
        if nonblock then read_return (AVERROR EAGAIN) s
        else set_woken_r false (set_reader RWait s)
    end.

(** [gdigrab_read_packet] from the wake-up to its return. *)
Definition read_packet_resume (alloc_ok : bool) (s : system) : system :=
  match frame_in_stock (ctx s) with
  | Some _ =>
      let '(r, _, s') := gdigrab_copy_frame alloc_ok s in read_return r s'
  | None =>
      read_return (AVERROR EIO) (log [Log MsgNoCapturedImage] s)
  end.

(** [gdigrab_read_close]: set the flag, broadcast, return 0. *)
Definition gdigrab_read_close (s : system) : Z * system :=
  (0, broadcast (set_ctx (set_grab_worker_quit true (ctx s)) s)).

(** ** gdigrab_worker_start *)

Definition worker_start_create (created : bool) (s : system) : system :=
  let s := set_ctx (set_error_code 0 (ctx s)) s in
  if created then set_starter SCreated (set_wk (set_pc WInit (wk s)) s)
  else set_starter (SReturned (AVERROR EIO)) s.

Definition worker_start_lock (s : system) : system :=
  if negb (error_code (ctx s) =? 0) then
    set_starter (SReturned (error_code (ctx s))) s
  else set_woken_s false (set_starter SWait s).

Definition worker_start_resume (s : system) : system :=
  set_starter (SReturned (error_code (ctx s))) s.

(** ** gdigrab_worker *)

(** The label [end]: destroy, broadcast, unlock, destroy the mutex and the
    condition variable, return.  The two [break]s inside the loop reach it
    with [grab_mutex] held; the exit at the loop test and the [goto end]
    after a failed [gdigrab_dc_init] reach it without, so that there the
    code runs [gdigrab_dc_destroy] and the broadcast unlocked.  The
    transition system takes the way out as one step in either case.
    [gdigrab_cond_destroy] acts on the mutex and the condition variable
    only, which are not part of the state. *)
Definition worker_end (s : system) : system :=
  let '(g, ev) := gdigrab_dc_destroy (ctx s) in
  let s := set_dropped (pending s ++ dropped s) s in
  let s := log ev (set_ctx g s) in
  broadcast (set_wk (set_pc WExited (wk s)) s).

(** Entry: [gdigrab_dc_init], then the locals and [time_end = av_gettime()]. *)
Definition worker_init (W : win32) (now : Z) (s : system) : system :=
  let '(r, g, ev) := gdigrab_dc_init W (url s) (ctx s) in
  let s := broadcast (log ev (set_ctx g s)) in
  if negb (r =? 0) then worker_end s
  else set_wk (mk_worker WLoop 0 0 (time_base g) 0 now 0 0 None) s.

(** [paint_mouse_pointer]: [failed] tells whether one of its Win32 calls
    failed; the failure is logged once per run. *)
Definition paint_mouse_pointer (failed : bool) (s : system) : system :=
  let s := log [Call CallGetCursorInfo] s in
  if failed && (cursor_error_printed (ctx s) =? 0) then
    log [Log MsgCursor] (set_ctx (set_cursor_error_printed 1 (ctx s)) s)
  else s.

(** One pass from the loop test to [time_grab_end = av_gettime()].  The
    message loop of [gdigrab_region_wnd_update] is recorded as one
    [CallPeekMessage], however many messages it dispatches. *)
Definition worker_grab (r : grab_result) (cursor_failed : bool) (s : system)
    : system :=
  if grab_worker_quit (ctx s) then worker_end s
  else
    let w := wk s in
    let i := l_i w in
    let time_start := l_time_end w in
    let s := set_iters ((time_start, r) :: iters s) s in
    let s := if negb (show_region (ctx s) =? 0) then log [Call CallPeekMessage] s else s in
    let s := log [Call (CallSelectObject i)] s in
    let go err fis s :=
      set_wk (mk_worker WGrabbed i (l_sn w) (l_time_base w) time_start
                (l_time_end w) (l_sleep_balance w) err fis) s in
    match r with
    | SelectObjectFailed =>
        go (AVERROR EIO) None (log [Log MsgSelectObject] s)
    | BitBltFailed =>
        let s := log [Call (CallBitBlt i); Log MsgCaptureFailed] s in
        go (AVERROR EIO) None (set_dib i None s)
    | Grabbed =>
        let s := log [Call (CallBitBlt i)] s in
        let s := set_dib i (Some (List.length (iters s) - 1)%nat) s in
        let s := if negb (draw_mouse (ctx s) =? 0)
                 then paint_mouse_pointer cursor_failed s else s in
        go 0 (buffer (ctx s) i) s
    end.

(** The [while] loop on [frame_in_stock] and what follows it: wait, or
    leave on quit, or hand the frame over and broadcast. *)
Definition worker_hand_over (s : system) : system :=
  match frame_in_stock (ctx s) with
  | Some _ => set_woken_w false (set_wk (set_pc WWaitStock (wk s)) s)
  | None =>
      if grab_worker_quit (ctx s) then worker_end s
      else
        let w := wk s in
        let g := set_frame_in_stock (l_frame_in_stock w)
                   (set_time_frame (l_time_start w) (ctx s)) in
        let s := set_ctx g s in
        let s := set_offered (pending s ++ offered s) s in
        broadcast (set_wk (set_pc WPace (wk s)) s)
  end.

(** From [pthread_mutex_lock] on. *)
Definition worker_lock (s : system) : system :=
  let w := wk s in
  if negb (l_error w =? 0) && (l_sn w =? 0) then
    worker_end (set_ctx (set_error_code (l_error w) (ctx s)) s)
  else if grab_worker_quit (ctx s) then worker_end s
  else worker_hand_over s.

(** The pacing block and the loop increment [i = (i + 1) % 2, sn++]. *)
Definition worker_pace (time_sleep_start time_end : Z) (s : system) : system :=
  let w := wk s in
  let p := pace (l_time_base w) (l_time_start w) (l_sleep_balance w)
             time_sleep_start time_end in
  set_wk (mk_worker WLoop ((l_i w + 1) mod 2)%nat (int32 (l_sn w + 1))
            (l_time_base w) (l_time_start w) time_end (p_sleep_balance p)
            (l_error w) (l_frame_in_stock w)) s.

(** ** The transition system *)

(** A label names the thread that moves and carries what the outside
    world contributes to the move. *)
Inductive label :=
| Start (created : bool)
| StartLock
| StartWake
| WorkerInit (W : win32) (now : Z)
| WorkerGrab (r : grab_result) (cursor_failed : bool)
| WorkerLock
| WorkerWake
| WorkerPace (time_sleep_start time_end : Z)
| Pull (nonblock alloc_ok : bool)
| PullWake (alloc_ok : bool)
| Close.

Definition is_wpc (a b : wpc) : bool :=
  match a, b with
  | WNotCreated, WNotCreated | WInit, WInit | WLoop, WLoop
  | WGrabbed, WGrabbed | WWaitStock, WWaitStock | WPace, WPace
  | WExited, WExited => true
  | _, _ => false
  end.

(** [step l s] is [None] when the thread of [l] is not at the place where
    [l] starts, or waits without having been woken. *)
Definition step (l : label) (s : system) : option system :=
  match l with
  | Start created =>
      match starter s with SNotCalled => Some (worker_start_create created s) | _ => None end
  | StartLock =>
      match starter s with SCreated => Some (worker_start_lock s) | _ => None end
  | StartWake =>
      match starter s with
      | SWait => if woken_s s then Some (worker_start_resume s) else None
      | _ => None
      end
  | WorkerInit W now =>
      if is_wpc (pc (wk s)) WInit then Some (worker_init W now s) else None
  | WorkerGrab r cf =>
      if is_wpc (pc (wk s)) WLoop then Some (worker_grab r cf s) else None
  | WorkerLock =>
      if is_wpc (pc (wk s)) WGrabbed then Some (worker_lock s) else None
  | WorkerWake =>
      if is_wpc (pc (wk s)) WWaitStock && woken_w s
      then Some (worker_hand_over s) else None
  | WorkerPace t1 t2 =>
      if is_wpc (pc (wk s)) WPace then Some (worker_pace t1 t2 s) else None
  | Pull nonblock alloc_ok =>
      match reader s with RIdle => Some (read_packet_enter nonblock alloc_ok s) | _ => None end
  | PullWake alloc_ok =>
      match reader s with
      | RWait => if woken_r s then Some (read_packet_resume alloc_ok s) else None
      | _ => None
      end
  | Close => Some (snd (gdigrab_read_close s))
  end.

Fixpoint run (tr : list label) (s : system) : option system :=
  match tr with
  | [] => Some s
  | l :: tr' =>
      match step l s with
      | Some s' => run tr' s'
      | None => None
      end
  end.

(** The state before [gdigrab_read_header]: the struct is zeroed but for
    the private options. *)
Record options := mk_options {
  o_draw_mouse : Z;
  o_show_region : Z;
  o_framerate : AVRational;
  o_width : Z;
  o_height : Z;
  o_offset_x : Z;
  o_offset_y : Z
}.

Definition zero_header : BITMAPINFOHEADER :=
  mk_BITMAPINFOHEADER 0 0 0 0 0 0 0 0 0 0 0.

Definition priv_data (o : options) : gdigrab :=
  mk_gdigrab 0 0 0 0 (o_draw_mouse o) (o_show_region o) (o_framerate o)
    (o_width o) (o_height o) (o_offset_x o) (o_offset_y o)
    NULL NULL NULL zero_header NULL NULL None None (mk_RECT 0 0 0 0)
    NULL 0 false None 0.

Definition init (u : string) (o : options) : system :=
  mk_system u (priv_data o) None None
    (mk_worker WNotCreated 0 0 0 0 0 0 0 None) false
    RIdle false SNotCalled false [] [] [] [] [] [].

Definition reachable (u : string) (o : options) (s : system) : Prop :=
  exists tr, run tr (init u o) = Some s.

(** ** Vocabulary of the statements *)

(** The local [hwnd] after lines 299-318: the window found for
    ["title=<name>"], [NULL] for ["desktop"], nothing else. *)
Definition target (W : win32) (url : string) : option HANDLE :=
  if prefix "title=" url then
    let h := FindWindow W (substring 6 (String.length url - 6) url) in
    if h =? NULL then None else Some h
  else if String.eqb url "desktop" then Some NULL
  else None.

(** The two error messages of the geometry checks. *)
Definition is_region_error (e : event) : bool :=
  match e with
  | Log MsgOutsideArea | Log MsgInvalidProperties => true
  | _ => false
  end.

(** The calls that allocate the destination DC and the frame buffers. *)
Definition is_alloc (e : event) : bool :=
  match e with
  | Call CallCreateCompatibleDC | Call (CallCreateDIBSection _) => true
  | _ => false
  end.

(** The calls that give a resource back. *)
Definition is_release (e : event) : bool :=
  match e with
  | Call CallReleaseDC | Call (CallDeleteDC _) | Call (CallDeleteObject _)
  | Call CallDestroyWindow => true
  | _ => false
  end.

Definition is_call (e : event) : bool :=
  match e with Call _ => true | Log _ => false end.

(** Weakest precondition of a computation in [M]: [Q] for the normal end,
    [E] for [goto end]. *)
Definition wp {A} (m : M A) (Q : A -> gdigrab -> list event -> Prop)
    (E : Z -> gdigrab -> list event -> Prop) (g : gdigrab) : Prop :=
  match m g with
  | Continue a g' ev => Q a g' ev
  | Goto_end r g' ev => E r g' ev
  end.

(** What [gdigrab_dc_destroy] leaves behind: no handle, no pending frame;
    options, flags and format untouched; only releasing calls made. *)
Definition destroyed (g g' : gdigrab) (ev : list event) : Prop :=
  frame_in_stock g' = None /\ error_code g' = error_code g /\
  grab_worker_quit g' = grab_worker_quit g /\ time_frame g' = time_frame g /\
  hbmp0 g' = NULL /\ hbmp1 g' = NULL /\ source_hdc g' = NULL /\
  dest_hdc g' = NULL /\ hwnd g' = NULL /\
  width g' = width g /\ height g' = height g /\
  offset_x g' = offset_x g /\ offset_y g' = offset_y g /\
  show_region g' = show_region g /\ framerate g' = framerate g /\
  draw_mouse g' = draw_mouse g /\
  forallb is_release ev = true.

(** The verdict of the geometry checks of [gdigrab_dc_init] on the
    target with window [hwnd], read off the return code [r] and the events
    [ev]: an error of the geometry checks is logged exactly when the clip
    rectangle leaves the target or has a bad size or depth; then nothing is
    allocated; otherwise the allocation is under way. *)
Definition geometry_verdict (W : win32) (g : gdigrab) (hwnd : HANDLE)
   (r : Z) (ev : list event) : Prop :=
  let src := GetDC W hwnd in
  let v := virtual_rect_of W hwnd src in
  let clip := clip_rect_of g v in
  let bad := extends_outside clip v ||
             invalid_properties clip (GetDeviceCaps W src BITSPIXEL) in
  existsb is_region_error ev = bad /\
  if bad then r = AVERROR EIO /\ existsb is_alloc ev = false
  else In (Call CallCreateCompatibleDC) ev /\
       (CreateCompatibleDC W src <> NULL -> In (Call (CallCreateDIBSection 0)) ev).

(** The format fields after a successful [gdigrab_dc_init], in terms of
    what the probe [GetObject] and [GetDeviceCaps] answered. *)
Definition format_probed (W : win32) (g g' : gdigrab) : Prop :=
  let bpp := GetDeviceCaps W (source_hdc g') BITSPIXEL in
  let bmp := GetObject W (hbmp0 g') in
  let clip := clip_rect g' in
  frame_size g' = int32 (int32 (bmWidthBytes bmp * bmHeight bmp) * bmPlanes bmp) /\
  header_size g' =
    int32 (sizeof_BITMAPFILEHEADER W + sizeof_BITMAPINFOHEADER W +
           (if bpp <=? 8 then Z.shiftl 1 bpp else 0) * sizeof_RGBQUAD W) /\
  time_base g' = frame_period W (framerate g) /\
  bmi g' = mk_BITMAPINFOHEADER (sizeof_BITMAPINFOHEADER W)
             (int32 (right clip - left clip))
             (int32 (- int32 (bottom clip - top clip)))
             1 (word16 bpp) BI_RGB 0 0 0 0 0 /\
  clip = clip_rect_of g (virtual_rect_of W (hwnd g') (source_hdc g')) /\
  invalid_properties clip bpp = false /\
  extends_outside clip (virtual_rect_of W (hwnd g') (source_hdc g')) = false /\
  source_hdc g' <> NULL /\ dest_hdc g' <> NULL /\ hbmp0 g' <> NULL /\ hbmp1 g' <> NULL /\
  cursor_error_printed g' = 0.

(** The frames a list of iterations (newest first) gives rise to: one per
    successful grab, stamped with the start time of its iteration and
    holding the pixels of that iteration. *)
Fixpoint frames_of (l : list (Z * grab_result)) : list frame :=
  match l with
  | [] => []
  | (t, r) :: l' =>
      if grab_ok r then mk_frame t (Some (List.length l')) :: frames_of l'
      else frames_of l'
  end.

(** The oldest entry of a newest-first list: the first iteration. *)
Fixpoint first_iter (l : list (Z * grab_result)) : option (Z * grab_result) :=
  match l with
  | [] => None
  | x :: l' => match l' with [] => Some x | _ => first_iter l' end
  end.

Definition first_ok (l : list (Z * grab_result)) : Prop :=
  match first_iter l with
  | Some (_, r) => grab_ok r = true
  | None => True
  end.

(** Start time and outcome of iteration [n] (counted from 0). *)
Definition iteration (s : system) (n : nat) : option (Z * grab_result) :=
  nth_error (rev (iters s)) n.

Definition slot_free_or (i : nat) (g : gdigrab) : Prop :=
  frame_in_stock g = None \/ frame_in_stock g = Some i.

Definition other (i : nat) : nat := ((i + 1) mod 2)%nat.

Definition buffers_ready (g : gdigrab) : Prop :=
  buffer0 g = Some 0%nat /\ buffer1 g = Some 1%nat.

(** What holds of the worker inside an iteration [(t, r)] that follows
    the iterations [rest]. *)
Definition grabbed_inv (s : system) (t : Z) (r : grab_result)
    (rest : list (Z * grab_result)) : Prop :=
  let w := wk s in
  offered s = frames_of rest /\
  slot_free_or (other (l_i w)) (ctx s) /\
  l_sn w = int32 (Z.of_nat (List.length rest)) /\
  l_time_start w = t /\
  (if grab_ok r
   then l_error w = 0 /\ l_frame_in_stock w = Some (l_i w) /\
        dib s (l_i w) = Some (List.length rest)
   else l_error w = AVERROR EIO /\ l_frame_in_stock w = None).

(** The invariant of the transition system. *)
Definition Inv (s : system) : Prop :=
  let g := ctx s in
  let w := wk s in
  offered s = dropped s ++ pending s ++ map frame_of_packet (delivered s) /\
  (l_i w < 2)%nat /\
  match starter s with
  | SNotCalled => pc w = WNotCreated
  | SReturned r => r = 0 \/ r = AVERROR EIO
  | _ => True
  end /\
  match pc w with
  | WNotCreated | WInit =>
      iters s = [] /\ offered s = [] /\ dropped s = [] /\
      frame_in_stock g = None /\ error_code g = 0
  | WLoop =>
      offered s = frames_of (iters s) /\ dropped s = [] /\
      slot_free_or (other (l_i w)) g /\ buffers_ready g /\
      error_code g = 0 /\ first_ok (iters s) /\
      l_sn w = int32 (Z.of_nat (List.length (iters s)))
  | WGrabbed =>
      exists t r rest, iters s = (t, r) :: rest /\ dropped s = [] /\
        buffers_ready g /\ error_code g = 0 /\ first_ok rest /\
        grabbed_inv s t r rest
  | WWaitStock =>
      exists t r rest, iters s = (t, r) :: rest /\ dropped s = [] /\
        buffers_ready g /\ error_code g = 0 /\ first_ok (iters s) /\
        grabbed_inv s t r rest
  | WPace =>
      exists t r rest, iters s = (t, r) :: rest /\ dropped s = [] /\
        offered s = frames_of (iters s) /\
        slot_free_or (l_i w) g /\ buffers_ready g /\
        error_code g = 0 /\ first_ok (iters s) /\
        l_sn w = int32 (Z.of_nat (List.length rest))
  | WExited =>
      frame_in_stock g = None /\ (List.length (dropped s) <= 1)%nat /\
      (offered s = frames_of (iters s) \/ offered s = frames_of (tl (iters s))) /\
      ((error_code g = 0 /\ grab_worker_quit g = true /\ first_ok (iters s)) \/
       (error_code g = AVERROR EIO /\
        (iters s = [] \/
         exists t r rest, iters s = (t, r) :: rest /\ grab_ok r = false /\
           int32 (Z.of_nat (List.length rest)) = 0 /\ first_ok rest /\
           offered s = frames_of rest)))
  end.

(** ** More vocabulary *)

(** The geometry that [gdigrab_dc_init] refuses: the clip rectangle leaves
    the bounds [v] of the target, or the 32-bit width or height it has is
    not positive, or the depth is not a multiple of 8. *)
Definition bad_geometry (clip v : RECT) (bpp : Z) : Prop :=
  left clip < left v \/ top clip < top v \/
  right v < right clip \/ bottom v < bottom clip \/
  int32 (right clip - left clip) <= 0 \/
  int32 (bottom clip - top clip) <= 0 \/
  ~ (8 | bpp).


(** ** Two desktops to try things on *)

(** A 1920x1080 desktop at 24 bits per pixel; every call succeeds; rows of
    1920 pixels take 5760 bytes. *)
Definition desk : win32 :=
  mk_win32 14 40 4 (fun _ => 0) (fun _ => 77)
    (fun _ c => match c with
                | BITSPIXEL => 24
                | HORZRES | DESKTOPHORZRES => 1920
                | VERTRES | DESKTOPVERTRES => 1080
                end)
    (fun _ => mk_RECT 0 0 0 0)
    (fun m => match m with
              | SM_XVIRTUALSCREEN | SM_YVIRTUALSCREEN => 0
              | SM_CXVIRTUALSCREEN => 1920
              | SM_CYVIRTUALSCREEN => 1080
              end)
    (fun _ => 88)
    (fun _ _ i => 100 + Z.of_nat i)
    (fun _ => mk_BITMAP 5760 1080 1)
    (fun _ => 99) (fun _ => true) (fun _ => 33366).

(** A 1366x768 desktop at 24 bits per pixel.  Windows pads the rows of a
    DIB section to a multiple of four bytes: 1366 pixels take 4098 bytes,
    the stride [bmWidthBytes] is 4100. *)
Definition laptop : win32 :=
  mk_win32 14 40 4 (fun _ => 0) (fun _ => 77)
    (fun _ c => match c with
                | BITSPIXEL => 24
                | HORZRES | DESKTOPHORZRES => 1366
                | VERTRES | DESKTOPVERTRES => 768
                end)
    (fun _ => mk_RECT 0 0 0 0)
    (fun m => match m with
              | SM_XVIRTUALSCREEN | SM_YVIRTUALSCREEN => 0
              | SM_CXVIRTUALSCREEN => 1366
              | SM_CYVIRTUALSCREEN => 768
              end)
    (fun _ => 88)
    (fun _ _ i => 100 + Z.of_nat i)
    (fun _ => mk_BITMAP 4100 768 1)
    (fun _ => 99) (fun _ => true) (fun _ => 33366).

(** The default options: mouse drawn, no region window, ntsc rate, whole
    target. *)
Definition defaults : options :=
  mk_options 1 0 (mk_AVRational 30000 1001) 0 0 0 0.

(** Start-up in the usual order: the caller waits, the worker initialises
    and wakes it. *)
Definition startup (W : win32) : list label :=
  [Start true; StartLock; WorkerInit W 1000; StartWake].

(** One full iteration of the worker with nobody in its way. *)
Definition iteration_of (r : grab_result) (t : Z) : list label :=
  [WorkerGrab r false; WorkerLock; WorkerPace t (t + 10)].

(** The state a trace leads to from the initial state (the initial state
    itself when the trace cannot be run). *)
Definition after (tr : list label) (u : string) (o : options) : system :=
  match run tr (init u o) with
  | Some s => s
  | None => init u o
  end.

(** The labels of [gdigrab_read_packet]. *)
Definition is_reader_step (l : label) : bool :=
  match l with
  | Pull _ _ | PullWake _ => true
  | _ => false
  end.

(** The pixel tags of the frames of a run whose grabs succeeded as the
    booleans say (newest first). *)
Fixpoint tags_of (oks : list bool) : list image :=
  match oks with
  | [] => []
  | ok :: oks' =>
      if ok then Some (List.length oks') :: tags_of oks' else tags_of oks'
  end.

Definition outcomes (s : system) : list bool :=
  map (fun x => grab_ok (snd x)) (iters s).

(** A reader that is waiting when the worker has left with an error has
    been woken. *)
Definition Wakeful (s : system) : Prop :=
  pc (wk s) = WExited -> error_code (ctx s) <> 0 -> reader s = RWait ->
  woken_r s = true.

(** A run of ten iterations of which the fifth fails, with a reader that
    takes every frame as soon as it is there. *)
Definition ten_with_fifth_failing : list label :=
  startup desk ++
  iteration_of Grabbed 2000 ++ [Pull false true] ++
  iteration_of Grabbed 3000 ++ [Pull false true] ++
  iteration_of Grabbed 4000 ++ [Pull false true] ++
  iteration_of Grabbed 5000 ++ [Pull false true] ++
  iteration_of BitBltFailed 6000 ++
  iteration_of Grabbed 7000 ++ [Pull false true] ++
  iteration_of Grabbed 8000 ++ [Pull false true] ++
  iteration_of Grabbed 9000 ++ [Pull false true] ++
  iteration_of Grabbed 10000 ++ [Pull false true] ++
  iteration_of Grabbed 11000 ++ [Pull false true].

(** The same run with a reader that is already waiting for the fifth
    frame when its grab fails. *)
Definition ten_with_reader_waiting : list label :=
  startup desk ++
  iteration_of Grabbed 2000 ++ [Pull false true] ++
  iteration_of Grabbed 3000 ++ [Pull false true] ++
  iteration_of Grabbed 4000 ++ [Pull false true] ++
  iteration_of Grabbed 5000 ++ [Pull false true] ++
  [Pull false true] ++ iteration_of BitBltFailed 6000 ++ [PullWake true] ++
  iteration_of Grabbed 7000 ++ [Pull false true] ++
  iteration_of Grabbed 8000 ++ [Pull false true] ++
  iteration_of Grabbed 9000 ++ [Pull false true] ++
  iteration_of Grabbed 10000 ++ [Pull false true] ++
  iteration_of Grabbed 11000 ++ [Pull false true].

(** Ten iterations, newest first, of which the fifth failed. *)
Definition fifth_of_ten_fails : list bool :=
  [true; true; true; true; true; false; true; true; true; true].

(** The first grab fails while the caller of [gdigrab_worker_start] is
    still waiting to be scheduled after the wake-up of [gdigrab_dc_init]. *)
Definition first_grab_fails_early : list label :=
  [Start true; StartLock; WorkerInit desk 1000;
   WorkerGrab SelectObjectFailed false; WorkerLock; StartWake].

(** The second frame finds the slot still occupied; then the reader
    closes the device without reading again. *)
Definition close_with_frame_in_stock : list label :=
  startup desk ++ iteration_of Grabbed 2000 ++
  [WorkerGrab Grabbed false; WorkerLock].

(** The device is closed while the worker is between its blit and its
    lock. *)
Definition close_during_grab : list label :=
  startup desk ++ [WorkerGrab Grabbed false].

(** The bitmaps, the device contexts, the window handle and the pending
    frame are gone.  [region_hwnd] is not listed: [gdigrab_dc_destroy]
    clears it only when [show_region] is set. *)
Definition released (g : gdigrab) : Prop :=
  hbmp0 g = NULL /\ hbmp1 g = NULL /\ source_hdc g = NULL /\
  dest_hdc g = NULL /\ hwnd g = NULL /\ frame_in_stock g = None.

(** ** The clock readings of a trace *)

(** The iterations a trace lets the worker begin, oldest first, each with
    the value [time_end] has when its grab starts: the last reading
    [time_end = av_gettime()] before it, taken before the loop
    ([WorkerInit]) or at the end of the pacing block of the iteration
    before ([WorkerPace]).  [last] is the reading so far; after [closed] a
    pass through the loop test leaves instead of grabbing. *)
Fixpoint stamps (last : Z) (closed : bool) (tr : list label)
    : list (Z * grab_result) :=
  match tr with
  | [] => []
  | WorkerInit _ now :: tr' => stamps now closed tr'
  | WorkerPace _ time_end :: tr' => stamps time_end closed tr'
  | Close :: tr' => stamps last true tr'
  | WorkerGrab r _ :: tr' =>
      if closed then stamps last closed tr'
      else (last, r) :: stamps last closed tr'
  | _ :: tr' => stamps last closed tr'
  end.

Definition capture_starts (tr : list label) : list (Z * grab_result) :=
  stamps 0 false tr.

(** The last reading [time_end = av_gettime()] of a trace, [last] when it
    has none. *)
Fixpoint time_end_after (last : Z) (tr : list label) : Z :=
  match tr with
  | [] => last
  | WorkerInit _ now :: tr' => time_end_after now tr'
  | WorkerPace _ time_end :: tr' => time_end_after time_end tr'
  | _ :: tr' => time_end_after last tr'
  end.

(** How many iterations a trace begins. *)
Definition grabs_begun (tr : list label) : nat :=
  List.length (capture_starts tr).

(** A frame with pixel tag and time stamp as the trace [tr] dictates: it
    holds the pixels of iteration [n], whose grab is the step
    [WorkerGrab r cf] that follows the prefix [pre] of [tr], the grab
    succeeded, and the stamp is the last reading of [time_end] in [pre] --
    a reading taken before that grab. *)
Definition stamped_at_capture_start (tr : list label) (pix : image) (stamp : Z)
    : Prop :=
  exists n pre r cf post,
    tr = pre ++ WorkerGrab r cf :: post /\
    grabs_begun pre = n /\ pix = Some n /\ grab_ok r = true /\
    stamp = time_end_after 0 pre.

(** Two iterations, each read at once. *)
Definition two_iterations_read : list label :=
  startup desk ++
  iteration_of Grabbed 2000 ++ [Pull false true] ++
  iteration_of Grabbed 3000 ++ [Pull false true].

(** A step that leaves the worker where it is, with [time_end], the quit
    flag and the iterations as they were. *)
Definition same_stamp (s s' : system) : Prop :=
  l_time_end (wk s') = l_time_end (wk s) /\
  grab_worker_quit (ctx s') = grab_worker_quit (ctx s) /\
  iters s' = iters s.


(** ** Vocabulary of the further properties *)

Definition is_cursor_log (e : event) : bool :=
  match e with Log MsgCursor => true | _ => false end.

(** The calls that build the region outline window. *)
Definition is_region_call (e : event) : bool :=
  match e with
  | Call CallCreateWindowEx | Call CallSetWindowRgn | Call CallShowWindow => true
  | _ => false
  end.

Definition is_region_warning (e : event) : bool :=
  match e with Log MsgCantShowRegion => true | _ => false end.

(** The Win32 calls among the events. *)
Definition calls (ev : list event) : list event := filter is_call ev.

(** How often the cursor error was logged. *)
Definition cursor_errors (ev : list event) : nat :=
  List.length (filter is_cursor_log ev).

(** The worker is inside its loop. *)
Definition in_loop (p : wpc) : bool :=
  match p with WLoop | WGrabbed | WWaitStock | WPace => true | _ => false end.

(** The buffer the worker is at, against the number of iterations begun:
    iteration [n] works on [buffer[n % 2]]. *)
Definition Parity (s : system) : Prop :=
  match pc (wk s) with
  | WLoop => l_i (wk s) = (List.length (iters s) mod 2)%nat
  | WGrabbed | WWaitStock | WPace =>
      l_i (wk s) = ((List.length (iters s) - 1) mod 2)%nat
  | _ => True
  end.

(** The format fields of the struct that [gdigrab_copy_frame] reads. *)
Definition format_of (g : gdigrab) : Z * Z * BITMAPINFOHEADER :=
  (header_size g, frame_size g, bmi g).

(** A packet as [gdigrab_copy_frame] fills it from the format [f]. *)
Definition packet_of_format (f : Z * Z * BITMAPINFOHEADER) (p : AVPacket) : Prop :=
  let '(hs, fs, b) := f in
  size p = int32 (hs + fs) /\ bfType p = 19778 /\
  bfSize p = dword (int32 (hs + fs)) /\ bfOffBits p = dword hs /\
  bmiHeader p = b /\ palette p = (biBitCount b <=? 8).

(** The error codes [gdigrab_read_packet] returns. *)
Definition read_error (r : Z) : Prop :=
  r = AVERROR EIO \/ r = AVERROR EAGAIN \/ r = AVERROR ENOMEM.

(** What one transition adds to the packets and to the return values of
    [gdigrab_read_packet]: nothing, an error code, or a packet filled from
    the format [f] together with its size. *)
Definition read_outcome (f : Z * Z * BITMAPINFOHEADER) (s s' : system) : Prop :=
  (delivered s' = delivered s /\
   (pulls s' = pulls s \/ exists r, pulls s' = r :: pulls s /\ read_error r)) \/
  exists p, delivered s' = p :: delivered s /\ pulls s' = size p :: pulls s /\
    packet_of_format f p.

(** The packets and the return values so far, against the format now in
    the struct. *)
Definition Uniform (s : system) : Prop :=
  Forall (packet_of_format (format_of (ctx s))) (delivered s) /\
  Forall (fun r => read_error r \/ exists p, In p (delivered s) /\ r = size p)
    (pulls s).

(** A reader that takes two frames and then finds the slot empty. *)
Definition two_frames_read : list label :=
  startup desk ++
  iteration_of Grabbed 2000 ++ [Pull false true] ++
  iteration_of Grabbed 3000 ++ [Pull true true; Pull true true].

(** The cursor error has been logged at most once, and the flag says so. *)
Definition logged_once (s : system) : Prop :=
  cursor_errors (events s) = 0%nat \/
  (cursor_errors (events s) = 1%nat /\ cursor_error_printed (ctx s) <> 0).

Definition CursorOnce (s : system) : Prop :=
  match pc (wk s) with
  | WNotCreated | WInit => cursor_errors (events s) = 0%nat
  | _ => logged_once s
  end.

(** Two grabs in a row whose cursor cannot be painted. *)
Definition cursor_fails_twice : list label :=
  startup desk ++
  [WorkerGrab Grabbed true; WorkerLock; WorkerPace 2000 2010;
   WorkerGrab Grabbed true].

(** The reader asks first and waits; then the worker grabs. *)
Definition reader_waits_first : list label :=
  startup desk ++ [Pull false true; WorkerGrab Grabbed false].

(** ** Pacing over many iterations *)

(** The pacing blocks of successive iterations: each iteration starts at
    the [time_end] of the one before ([time_start = time_end] at the head of
    the loop) and inherits its [sleep_balance].  [readings] are the pairs
    [(time_sleep_start, time_end)] of the iterations; the result is the
    last [time_end] and the last balance. *)
Fixpoint pace_loop (T s b : Z) (readings : list (Z * Z)) : Z * Z :=
  match readings with
  | [] => (s, b)
  | (t1, t2) :: rest =>
      pace_loop T t2 (p_sleep_balance (pace T s b t1 t2)) rest
  end.

(** [av_usleep] takes an [unsigned]: called with the 64-bit
    [time_request_sleep], it receives that value modulo 2^32. *)
Definition av_usleep_usec (r : pacing) : option Z :=
  match p_usleep r with
  | Some d => Some (d mod 2 ^ 32)
  | None => None
  end.

(** The clock does not run backwards, and [av_usleep], when it is called,
    does not return before the time it was given has passed. *)
Definition sleeps_enough (T s b t1 t2 : Z) : Prop :=
  s <= t1 <= t2 /\
  match av_usleep_usec (pace T s b t1 t2) with
  | Some d => d <= t2 - t1
  | None => True
  end.

Fixpoint punctual (T s b : Z) (readings : list (Z * Z)) : Prop :=
  match readings with
  | [] => True
  | (t1, t2) :: rest =>
      small t1 /\ small t2 /\ sleeps_enough T s b t1 t2 /\
      punctual T t2 (p_sleep_balance (pace T s b t1 t2)) rest
  end.

(** Readings of a microsecond clock that started at 0. *)
Definition clock_reading (t : Z) : Prop := 0 <= t <= 2 ^ 60.

(** The balance never has to be raised to its floor [-T]. *)
Fixpoint unclamped (T s b : Z) (readings : list (Z * Z)) : Prop :=
  match readings with
  | [] => True
  | (t1, t2) :: rest =>
      - T <= b + (T - (t2 - s)) /\
      unclamped T t2 (p_sleep_balance (pace T s b t1 t2)) rest
  end.

(** The clock readings a trace feeds to the pacing block, oldest first. *)
Fixpoint readings_of (tr : list label) : list (Z * Z) :=
  match tr with
  | [] => []
  | WorkerPace t1 t2 :: tr' => (t1, t2) :: readings_of tr'
  | _ :: tr' => readings_of tr'
  end.

(** The reading [time_end = av_gettime()] taken before the loop. *)
Fixpoint start_time (tr : list label) : option Z :=
  match tr with
  | [] => None
  | WorkerInit _ now :: _ => Some now
  | _ :: tr' => start_time tr'
  end.

(** The locals of the worker against [pace_loop] run on the readings [rs]
    taken so far, [o] being the reading taken before the loop, if any. *)
Definition Paced (o : option Z) (rs : list (Z * Z)) (s : system) : Prop :=
  let w := wk s in
  match o with
  | None => (pc w = WNotCreated \/ pc w = WInit) /\ rs = []
  | Some now =>
      let e := pace_loop (l_time_base w) now 0 rs in
      match pc w with
      | WLoop => l_time_end w = fst e /\ l_sleep_balance w = snd e
      | WGrabbed | WWaitStock | WPace =>
          l_time_start w = fst e /\ l_sleep_balance w = snd e
      | WExited => True
      | _ => False
      end
  end.

Definition track (a : option Z * list (Z * Z)) (l : label)
    : option Z * list (Z * Z) :=
  match l with
  | WorkerInit _ now =>
      (match fst a with None => Some now | Some t => Some t end, snd a)
  | WorkerPace t1 t2 => (fst a, snd a ++ [(t1, t2)])
  | _ => a
  end.

(** What holds as long as no worker thread exists. *)
Definition NoWorker (s : system) : Prop :=
  pc (wk s) = WNotCreated ->
  (starter s = SNotCalled \/ starter s = SReturned (AVERROR EIO)) /\
  calls (events s) = [] /\ delivered s = [].

(** * libavutil/uprofiler *)

(** [struct uprofile_record].  A pointer to a record is its address,
    [None] is [NULL]; so is a [NULL] name. *)
Record uprofile_record := mk_uprofile_record {
  name : option string;
  time : Z;
  start_count : Z;
  end_count : Z;
  next : option nat
}.

(** The initial value of the static record of [PROFILE_START]. *)
Definition a_uprofile_record : uprofile_record :=
  mk_uprofile_record None 0 0 0 None.

(** What one thread sees: the records by address and its list head
    [tl_uprofile_record_list]. *)
Record profile := mk_profile {
  mem : nat -> uprofile_record;
  tl_uprofile_record_list : option nat
}.

Definition store (r : nat) (v : uprofile_record) (m : nat -> uprofile_record)
    : nat -> uprofile_record :=
  fun a => if Nat.eqb a r then v else m a.

(** A thread before its first [PROFILE_START]. *)
Definition fresh : profile := mk_profile (fun _ => a_uprofile_record) None.

Definition uprofile_register (r : nat) (nm : option string) (p : profile)
    : profile :=
  let c := mem p r in
  match name c with
  | Some _ => p
  | None =>
      mk_profile
        (store r (mk_uprofile_record nm (time c) (start_count c) (end_count c)
                    (tl_uprofile_record_list p)) (mem p))
        (Some r)
  end.

(** [PROFILE_START(pname)] at the site whose static record is at [r]. *)
Definition PROFILE_START (r : nat) (pname : string) (p : profile) : profile :=
  let p := uprofile_register r (Some pname) p in
  let c := mem p r in
  mk_profile
    (store r (mk_uprofile_record (name c) (time c) (int64 (start_count c + 1))
                (end_count c) (next c)) (mem p))
    (tl_uprofile_record_list p).

(** [PROFILE_END] of that site: [uprofile_t0] is the tick taken by
    [PROFILE_START], [tick] the one taken now. *)
Definition PROFILE_END (r : nat) (uprofile_t0 tick : Z) (p : profile) : profile :=
  let c := mem p r in
  mk_profile
    (store r (mk_uprofile_record (name c)
                (int64 (time c + int64 (tick - uprofile_t0)))
                (start_count c) (int64 (end_count c + 1)) (next c)) (mem p))
    (tl_uprofile_record_list p).

(** The loop of [uprofile_write_log_std]: the records met from [pr] along
    [next]; [None] when [fuel] steps do not reach [NULL]. *)
Fixpoint records (fuel : nat) (m : nat -> uprofile_record) (pr : option nat)
    : option (list nat) :=
  match pr with
  | None => Some []
  | Some r =>
      match fuel with
      | O => None
      | S fuel' =>
          match records fuel' m (next (m r)) with
          | Some l => Some (r :: l)
          | None => None
          end
      end
  end.

(** The integer columns of one line of the report: count, ticks,
    mismatch, and the name. *)
Definition report_line (c : uprofile_record) : Z * Z * Z * option string :=
  (end_count c, time c, int64 (start_count c - end_count c), name c).

Definition uprofile_write_log_std (fuel : nat) (p : profile)
    : option (list (Z * Z * Z * option string)) :=
  match records fuel (mem p) (tl_uprofile_record_list p) with
  | Some l => Some (map (fun r => report_line (mem p r)) l)
  | None => None
  end.

(** What a thread does to its profile. *)
Inductive profile_op :=
| OpRegister (r : nat) (nm : string)
| OpStart (r : nat) (pname : string)
| OpEnd (r : nat) (uprofile_t0 tick : Z).

Definition apply_op (p : profile) (o : profile_op) : profile :=
  match o with
  | OpRegister r nm => uprofile_register r (Some nm) p
  | OpStart r pname => PROFILE_START r pname p
  | OpEnd r t0 t => PROFILE_END r t0 t p
  end.

Definition apply_ops (ops : list profile_op) : profile :=
  fold_left apply_op ops fresh.

(** The record an operation works on, and whether it registers it. *)
Definition site (o : profile_op) : nat :=
  match o with OpRegister r _ | OpStart r _ | OpEnd r _ _ => r end.

Definition registers (o : profile_op) : bool :=
  match o with OpEnd _ _ _ => false | _ => true end.

(** The records registered by [ops], newest first, each once. *)
Fixpoint registered (ops : list profile_op) (acc : list nat) : list nat :=
  match ops with
  | [] => acc
  | o :: ops' =>
      if registers o && negb (existsb (Nat.eqb (site o)) acc)
      then registered ops' (site o :: acc)
      else registered ops' acc
  end.

(** How often [ops] start and end a measurement at [r], and the ticks
    measured there. *)
Definition starts (r : nat) (ops : list profile_op) : nat :=
  List.length (filter (fun o => match o with OpStart a _ => Nat.eqb a r | _ => false end) ops).

Definition ends (r : nat) (ops : list profile_op) : nat :=
  List.length (filter (fun o => match o with OpEnd a _ _ => Nat.eqb a r | _ => false end) ops).

Fixpoint ticks (r : nat) (ops : list profile_op) : Z :=
  match ops with
  | [] => 0
  | OpEnd a t0 t :: ops' =>
      if Nat.eqb a r then (t - t0) + ticks r ops' else ticks r ops'
  | _ :: ops' => ticks r ops'
  end.

(** The list a thread has built: [l] is the chain from the head to
    [NULL], without repetition, and holds exactly the named records. *)
Fixpoint chain (m : nat -> uprofile_record) (pr : option nat) (l : list nat) : Prop :=
  match l with
  | [] => pr = None
  | r :: l' => pr = Some r /\ chain m (next (m r)) l'
  end.

Definition Listed (p : profile) (l : list nat) : Prop :=
  chain (mem p) (tl_uprofile_record_list p) l /\ NoDup l /\
  forall r, In r l <-> name (mem p r) <> None.

(** * paint_mouse_pointer, call by call *)

Record POINT := mk_POINT { pt_x : Z; pt_y : Z }.

(** What [paint_mouse_pointer] takes from outside: whether
    [GetCursorInfo] succeeds and what it reports, the copies of the cursor
    and of the fallback arrow, what [GetIconInfo] fills in, and the
    answers of [GetWindowRect] and [DrawIcon]. *)
Record cursor := mk_cursor {
  GetCursorInfo : bool;
  CURSOR_SHOWING : bool;
  ptScreenPos : POINT;
  hCursor : HANDLE;
  IDC_ARROW : HANDLE;
  GetIconInfo : HANDLE -> bool;
  xHotspot : Z;
  yHotspot : Z;
  hbmMask : HANDLE;
  hbmColor : HANDLE;
  GetWindowRect : HANDLE -> option RECT;
  DrawIcon : HANDLE -> Z -> Z -> bool
}.

Inductive cursor_message :=
| CouldNotGetIconInfo
| CouldntGetWindowRectangle
| CouldntDrawIcon
| CouldntGetCursorInfo.

Inductive cursor_event :=
| EvGetCursorInfo
| EvCopyCursor
| EvLoadCursor
| EvGetIconInfo (icon : HANDLE)
| EvGetWindowRect
| EvDrawIcon (icon : HANDLE) (px py : Z)
| EvDeleteObject (h : HANDLE)
| EvDestroyCursor (icon : HANDLE)
| EvError (m : cursor_message).

(** The macro [CURSOR_ERROR] on the value of [cursor_error_printed]. *)
Definition CURSOR_ERROR (m : cursor_message) (printed : Z)
    : Z * list cursor_event :=
  if printed =? 0 then (1, [EvError m]) else (printed, []).

(** The label [icon_error]; [got] tells whether [GetIconInfo] has filled
    [info] -- the two bitmaps are [NULL] before. *)
Definition icon_error (c : cursor) (icon : HANDLE) (got : bool)
    : list cursor_event :=
  (if got && negb (hbmMask c =? NULL) then [EvDeleteObject (hbmMask c)] else []) ++
  (if got && negb (hbmColor c =? NULL) then [EvDeleteObject (hbmColor c)] else []) ++
  (if negb (icon =? NULL) then [EvDestroyCursor icon] else []).

(** The cursor to paint: the copy of the current one, or of the standard
    arrow when there is none. *)
Definition icon_of (c : cursor) : HANDLE :=
  if hCursor c =? NULL then IDC_ARROW c else hCursor c.

(** [pos.x * desktophorzres / horzres] in 32-bit arithmetic; C's [/]
    truncates.  The code does not test [horzres] against 0. *)
Definition hidpi (p desktopres res : Z) : Z :=
  int32 (Z.quot (int32 (p * desktopres)) res).

(** The position at which the icon goes, before the test against the
    clip rectangle; [rect] is the window rectangle, if one is captured. *)
Definition cursor_pos (W : win32) (c : cursor) (g : gdigrab) (rect : option RECT)
    : Z * Z :=
  let clip := clip_rect g in
  let px := int32 (pt_x (ptScreenPos c) - left clip - xHotspot c) in
  let py := int32 (pt_y (ptScreenPos c) - top clip - yHotspot c) in
  let px := match rect with Some r => int32 (px - left r) | None => px end in
  let py := match rect with Some r => int32 (py - top r) | None => py end in
  (hidpi px (GetDeviceCaps W (source_hdc g) DESKTOPHORZRES)
            (GetDeviceCaps W (source_hdc g) HORZRES),
   hidpi py (GetDeviceCaps W (source_hdc g) DESKTOPVERTRES)
            (GetDeviceCaps W (source_hdc g) VERTRES)).

Definition inside_clip (g : gdigrab) (p : Z * Z) : bool :=
  let clip := clip_rect g in
  (0 <=? fst p) && (fst p <=? int32 (right clip - left clip)) &&
  (0 <=? snd p) && (snd p <=? int32 (bottom clip - top clip)).

(** [paint_mouse_pointer]: the struct afterwards and the calls made. *)
Definition paint_mouse_pointer_calls (W : win32) (c : cursor) (g : gdigrab)
    : gdigrab * list cursor_event :=
  let fail m ev rest :=
    let '(p, e) := CURSOR_ERROR m (cursor_error_printed g) in
    (set_cursor_error_printed p g, ev ++ e ++ rest) in
  if negb (GetCursorInfo c) then fail CouldntGetCursorInfo [EvGetCursorInfo] []
  else if negb (CURSOR_SHOWING c) then (g, [EvGetCursorInfo; EvCopyCursor])
  else
    let icon := icon_of c in
    let ev := [EvGetCursorInfo; EvCopyCursor] ++
              (if hCursor c =? NULL then [EvLoadCursor; EvCopyCursor] else []) ++
              [EvGetIconInfo icon] in
    if negb (GetIconInfo c icon) then
      fail CouldNotGetIconInfo ev (icon_error c icon false)
    else if negb (hwnd g =? NULL) && match GetWindowRect c (hwnd g) with Some _ => false | None => true end
    then
      fail CouldntGetWindowRectangle (ev ++ [EvGetWindowRect]) (icon_error c icon true)
    else
      let rect := if hwnd g =? NULL then None else GetWindowRect c (hwnd g) in
      let ev := ev ++ (if hwnd g =? NULL then [] else [EvGetWindowRect]) in
      let pos := cursor_pos W c g rect in
      if inside_clip g pos then
        let ev := ev ++ [EvDrawIcon icon (fst pos) (snd pos)] in
        if DrawIcon c icon (fst pos) (snd pos)
        then (g, ev ++ icon_error c icon true)
        else fail CouldntDrawIcon ev (icon_error c icon true)
      else (g, ev ++ icon_error c icon true).

Definition is_cursor_error (e : cursor_event) : bool :=
  match e with EvError _ => true | _ => false end.

(** Some call of [paint_mouse_pointer] fails. *)
Definition cursor_call_fails (W : win32) (c : cursor) (g : gdigrab) : bool :=
  negb (GetCursorInfo c) ||
  CURSOR_SHOWING c &&
  (negb (GetIconInfo c (icon_of c)) ||
   negb (hwnd g =? NULL) && match GetWindowRect c (hwnd g) with Some _ => false | None => true end ||
   (let rect := if hwnd g =? NULL then None else GetWindowRect c (hwnd g) in
    let pos := cursor_pos W c g rect in
    inside_clip g pos && negb (DrawIcon c (icon_of c) (fst pos) (snd pos)))).

(** A pointer at (700, 400) of a desktop grabbed from (100, 50). *)
Definition pointer : cursor :=
  mk_cursor true true (mk_POINT 700 400) 55 56 (fun _ => true) 2 3 61 62
    (fun _ => None) (fun _ _ _ => true).

Definition grabbing : gdigrab :=
  set_clip_rect (mk_RECT 100 50 740 530) (priv_data defaults).

(** * Theorems *)

Lemma int32_id x : in_int32 x -> int32 x = x.
Proof.
  unfold in_int32, int32, wrap. intros H.
  rewrite Z.mod_small; lia.
Qed.

Lemma int64_id x : in_int64 x -> int64 x = x.
Proof.
  unfold in_int64, int64, wrap. intros H.
  rewrite Z.mod_small; lia.
Qed.

Lemma int64_range x : in_int64 (int64 x).
Proof.
  unfold in_int64, int64, wrap.
  assert (0 <= (x + 2 ^ (64 - 1)) mod 2 ^ 64 < 2 ^ 64)
    by (apply Z.mod_pos_bound; lia).
  lia.
Qed.

(** ** Theorems: pacing *)

(** C2.  One pass of the pacing block with target period [T], capture start
    [s], balance [b] and clock readings [t1] (before the sleep) and [t2]
    (after it): the raw target sleep is [T - (t1 - s)], the requested sleep
    is that plus [b]; [av_usleep] is called exactly when the request is
    positive; the time that passed is measured either way; the new balance
    is [b + (raw - actual)], raised to [-T] when it would be lower. *)
Theorem pace_spec (T s b t1 t2 : Z) :
  small T -> small s -> small b -> small t1 -> small t2 ->
  let r := pace T s b t1 t2 in
  p_time_sleep r = T - (t1 - s) /\
  p_time_request_sleep r = p_time_sleep r + b /\
  (p_time_request_sleep r <= 0 -> p_usleep r = None) /\
  (0 < p_time_request_sleep r -> p_usleep r = Some (p_time_request_sleep r)) /\
  p_time_actual_sleep r = t2 - t1 /\
  p_sleep_balance r = Z.max (b + (p_time_sleep r - p_time_actual_sleep r)) (- T) /\
  - T <= p_sleep_balance r.
Proof.
  unfold small. intros HT Hs Hb H1 H2. cbv zeta. unfold pace. cbn [p_time_sleep
    p_time_request_sleep p_usleep p_time_actual_sleep p_sleep_balance].
  assert (E1 : int64 (t1 - s) = t1 - s) by (apply int64_id; unfold in_int64; lia).
  rewrite E1.
  assert (E2 : int64 (T - (t1 - s)) = T - (t1 - s))
    by (apply int64_id; unfold in_int64; lia).
  rewrite E2.
  assert (E3 : int64 (T - (t1 - s) + b) = T - (t1 - s) + b)
    by (apply int64_id; unfold in_int64; lia).
  rewrite E3.
  assert (E4 : int64 (t2 - t1) = t2 - t1) by (apply int64_id; unfold in_int64; lia).
  rewrite E4.
  assert (E5 : int64 (T - (t1 - s) - (t2 - t1)) = T - (t1 - s) - (t2 - t1))
    by (apply int64_id; unfold in_int64; lia).
  rewrite E5.
  assert (E6 : int64 (b + (T - (t1 - s) - (t2 - t1))) = b + (T - (t1 - s) - (t2 - t1)))
    by (apply int64_id; unfold in_int64; lia).
  rewrite E6.
  assert (E7 : int64 (- T) = - T) by (apply int64_id; unfold in_int64; lia).
  rewrite E7.
  repeat split.
  - intros Hle. destruct (Z.ltb_spec 0 (T - (t1 - s) + b)); [lia | reflexivity].
  - intros Hlt. destruct (Z.ltb_spec 0 (T - (t1 - s) + b)); [reflexivity | lia].
  - destruct (Z.ltb_spec (b + (T - (t1 - s) - (t2 - t1))) (- T)); lia.
  - destruct (Z.ltb_spec (b + (T - (t1 - s) - (t2 - t1))) (- T)); lia.
Qed.

(** A 30 fps period, a grab that took 5 ms, and a sleep that overshot. *)
Lemma pace_spec_witness :
  let r := pace 33333 1000000 (-200) 1005000 1033500 in
  p_time_sleep r = 33333 - (1005000 - 1000000) /\
  p_time_request_sleep r = p_time_sleep r + (-200) /\
  (p_time_request_sleep r <= 0 -> p_usleep r = None) /\
  (0 < p_time_request_sleep r -> p_usleep r = Some (p_time_request_sleep r)) /\
  p_time_actual_sleep r = 1033500 - 1005000 /\
  p_sleep_balance r = Z.max (-200 + (p_time_sleep r - p_time_actual_sleep r)) (- 33333) /\
  - 33333 <= p_sleep_balance r.
Proof.
  apply (pace_spec 33333 1000000 (-200) 1005000 1033500); unfold small; lia.
Defined.

(** A stall of five periods with an empty balance: nothing is slept and the
    balance stops at [-T] instead of [-4T]. *)
Example pace_after_stall :
  let T := 33333 in
  let r := pace T 0 0 (5 * T) (5 * T) in
  p_usleep r = None /\ p_sleep_balance r = - T.
Proof. vm_compute. split; reflexivity. Qed.

(** ** Rules of the weakest precondition *)

Section WP.
Context {A B : Type}.
Variables (Q : A -> gdigrab -> list event -> Prop)
          (E : Z -> gdigrab -> list event -> Prop) (g : gdigrab).

Lemma wp_ret a : Q a g [] -> wp (ret a) Q E g.
Proof. exact (fun H => H). Qed.

Lemma wp_gets (f : gdigrab -> A) : Q (f g) g [] -> wp (gets f) Q E g.
Proof. exact (fun H => H). Qed.

Lemma wp_goto_end r : E r g [] -> wp (goto_end r) Q E g.
Proof. exact (fun H => H). Qed.

Lemma wp_bind (m : M B) (k : B -> M A) :
  wp m (fun b g' ev =>
          wp (k b) (fun a g'' ev' => Q a g'' (ev ++ ev'))
                   (fun r g'' ev' => E r g'' (ev ++ ev')) g') E g ->
  wp (bind m k) Q E g.
Proof.
  unfold wp, bind. destruct (m g) as [r g' ev | b g' ev]; [exact (fun H => H) |].
  destruct (k b g'); exact (fun H => H).
Qed.
End WP.

Section WPunit.
Variables (Q : unit -> gdigrab -> list event -> Prop)
          (E : Z -> gdigrab -> list event -> Prop) (g : gdigrab).

Lemma wp_emit e : Q tt g [e] -> wp (emit e) Q E g.
Proof. exact (fun H => H). Qed.

Lemma wp_modify f : Q tt (f g) [] -> wp (modify f) Q E g.
Proof. exact (fun H => H). Qed.

Lemma wp_when b m :
  (b = true -> wp m Q E g) -> (b = false -> Q tt g []) -> wp (when b m) Q E g.
Proof. destruct b; intros H1 H2; [apply H1 | apply H2]; reflexivity. Qed.
End WPunit.

(** One step of symbolic execution. *)
Ltac wp_step :=
  cbv beta;
  lazymatch goal with
  | |- wp (bind _ _) _ _ _ => apply wp_bind
  | |- wp (ret _) _ _ _ => apply wp_ret
  | |- wp (gets _) _ _ _ => apply wp_gets
  | |- wp (goto_end _) _ _ _ => apply wp_goto_end
  | |- wp (emit _) _ _ _ => apply wp_emit
  | |- wp (modify _) _ _ _ => apply wp_modify
  | |- wp (when _ _) _ _ _ => apply wp_when; intros ?
  | |- wp (if ?c then _ else _) _ _ _ => destruct c eqn:?
  | |- wp (let x := _ in _) _ _ _ => cbv zeta
  end.

Ltac wp_run := repeat wp_step; cbv beta.

(** Turn the boolean tests collected on a path into equations. *)
Ltac tests :=
  repeat match goal with
    | H : negb _ = true |- _ => apply negb_true_iff in H
    | H : negb _ = false |- _ => apply negb_false_iff in H
    end;
  repeat match goal with
    | H : (_ =? _) = true |- _ => apply Z.eqb_eq in H
    | H : (_ =? _) = false |- _ => apply Z.eqb_neq in H
    end.

(** Projections of updated structs, and the event predicates. *)
Ltac gsimpl :=
  cbn [frame_size header_size time_base time_frame draw_mouse show_region
       framerate width height offset_x offset_y hwnd source_hdc dest_hdc bmi
       hbmp0 hbmp1 buffer0 buffer1 clip_rect region_hwnd cursor_error_printed
       grab_worker_quit frame_in_stock error_code
       set_frame_size set_header_size set_time_base set_time_frame
       set_show_region set_hwnd set_source_hdc set_dest_hdc set_bmi set_hbmp0
       set_hbmp1 set_buffer0 set_buffer1 set_clip_rect set_region_hwnd
       set_cursor_error_printed set_grab_worker_quit set_frame_in_stock
       set_error_code set_hbmp set_buffer hbmp buffer
       fst snd app existsb forallb orb andb negb
       is_region_error is_alloc is_release is_call] in *.

Ltac use_tests :=
  repeat match goal with
    | H : negb _ = true |- _ => apply negb_true_iff in H
    | H : negb _ = false |- _ => apply negb_false_iff in H
    end;
  repeat match goal with
    | H : ?c = true |- context [?c] => rewrite H
    | H : ?c = false |- context [?c] => rewrite H
    | H : ?c = true, H' : context [if ?c then _ else _] |- _ => rewrite H in H'
    | H : ?c = false, H' : context [if ?c then _ else _] |- _ => rewrite H in H'
    end.

Ltac solve_In :=
  cbn [In]; repeat first [left; reflexivity | right].

(** ** gdigrab_dc_destroy *)

Lemma dc_destroy_wp g :
  wp dc_destroy (fun _ g' ev => destroyed g g' ev) (fun _ _ _ => False) g.
Proof.
  unfold dc_destroy, destroy_bitmap, gdigrab_region_wnd_destroy, destroyed.
  wp_run.
  all: simpl; tests; simpl in *.
  all: repeat split; try assumption; reflexivity.
Qed.

Lemma gdigrab_dc_destroy_spec g :
  destroyed g (fst (gdigrab_dc_destroy g)) (snd (gdigrab_dc_destroy g)).
Proof.
  pose proof (dc_destroy_wp g) as H. unfold wp in H.
  unfold gdigrab_dc_destroy. destruct (dc_destroy g); [contradiction | exact H].
Qed.

(** ** gdigrab_dc_init *)

(** Symbolic execution of the body on every path. *)
Lemma dc_init_body_spec W u g :
  hwnd g = NULL ->
  wp (dc_init_body W u)
    (fun _ g' ev =>
       buffers_ready g' /\ frame_in_stock g' = frame_in_stock g /\
       grab_worker_quit g' = grab_worker_quit g /\ time_frame g' = time_frame g /\
       format_probed W g g' /\
       forall h, target W u = Some h -> GetDC W h <> NULL ->
                 geometry_verdict W g h 0 ev)
    (fun r g' ev =>
       r = AVERROR EIO /\ grab_worker_quit g' = grab_worker_quit g /\
       time_frame g' = time_frame g /\
       (existsb is_region_error ev = true ->
        exists h, target W u = Some h /\ GetDC W h <> NULL) /\
       forall h, target W u = Some h -> GetDC W h <> NULL ->
                 geometry_verdict W g h r ev) g.
Proof.
  intros Hh.
  unfold dc_init_body, resolve_target, create_dib, gdigrab_region_wnd_init.
  wp_run.
  all: unfold buffers_ready, format_probed, geometry_verdict, target, clip_rect_of in *.
  all: gsimpl.
  all: repeat match goal with |- _ /\ _ => split end.
  all: try reflexivity.
  all: try (intros; discriminate).
  all: try (intros _; eexists; use_tests; split; [reflexivity | tests; assumption]).
  all: try (intros h Ht Hdc; use_tests; inversion Ht; subst h; clear Ht;
            try (tests; contradiction); use_tests; gsimpl;
            repeat match goal with |- _ /\ _ => split end; try reflexivity;
            try solve_In; try (intros; tests; contradiction); try (intros; solve_In)).
  all: try (tests; assumption).
  all: rewrite Hh; first [reflexivity | assumption].
Qed.

Lemma existsb_release_region ev :
  forallb is_release ev = true -> existsb is_region_error ev = false.
Proof.
  induction ev as [|e ev IH]; simpl; [reflexivity |].
  intros H. apply andb_true_iff in H. destruct H as [He H].
  rewrite (IH H). destruct e as [c | m]; [reflexivity | discriminate].
Qed.

Lemma existsb_release_alloc ev :
  forallb is_release ev = true -> existsb is_alloc ev = false.
Proof.
  induction ev as [|e ev IH]; simpl; [reflexivity |].
  intros H. apply andb_true_iff in H. destruct H as [He H].
  rewrite (IH H). destruct e as [c | m]; [destruct c; try discriminate; reflexivity | discriminate].
Qed.

Lemma clip_rect_of_options g g' v :
  width g' = width g -> height g' = height g ->
  offset_x g' = offset_x g -> offset_y g' = offset_y g ->
  clip_rect_of g' v = clip_rect_of g v.
Proof. unfold clip_rect_of. intros -> -> -> ->. reflexivity. Qed.

Lemma geometry_verdict_pad W g g1 h r ev1 ev2 ev3 :
  width g1 = width g -> height g1 = height g ->
  offset_x g1 = offset_x g -> offset_y g1 = offset_y g ->
  forallb is_release ev1 = true -> forallb is_release ev3 = true ->
  geometry_verdict W g1 h r ev2 ->
  geometry_verdict W g h r (ev1 ++ ev2 ++ ev3).
Proof.
  intros Hw Hh Hx Hy H1 H3. unfold geometry_verdict.
  rewrite (clip_rect_of_options g g1 _ Hw Hh Hx Hy).
  rewrite !existsb_app.
  rewrite (existsb_release_region _ H1), (existsb_release_region _ H3).
  rewrite (existsb_release_alloc _ H1), (existsb_release_alloc _ H3).
  rewrite !orb_false_r. cbn [orb].
  intros [Hv Hrest]. split; [exact Hv |].
  destruct (extends_outside _ _ || invalid_properties _ _); [exact Hrest |].
  destruct Hrest as [Ha Hb]. split.
  - apply in_or_app. right. apply in_or_app. left. exact Ha.
  - intros Hn. apply in_or_app. right. apply in_or_app. left. exact (Hb Hn).
Qed.

(** The whole function: either it returns 0 with the buffers and the
    format in place, or it returns [AVERROR(EIO)] with everything
    destroyed.  Either way [error_code] holds the result, no frame is
    pending and the quit flag is as before. *)
Lemma gdigrab_dc_init_spec W u g :
  let r := fst (fst (gdigrab_dc_init W u g)) in
  let g' := snd (fst (gdigrab_dc_init W u g)) in
  let ev := snd (gdigrab_dc_init W u g) in
  error_code g' = r /\ frame_in_stock g' = None /\
  grab_worker_quit g' = grab_worker_quit g /\
  (forall h, target W u = Some h -> GetDC W h <> NULL ->
             geometry_verdict W g h r ev) /\
  ((r = 0 /\ buffers_ready g' /\
    format_probed W g (set_error_code (error_code g) g')) \/
   (r = AVERROR EIO /\ hbmp0 g' = NULL /\ hbmp1 g' = NULL /\
    source_hdc g' = NULL /\ dest_hdc g' = NULL /\
    (existsb is_region_error ev = true ->
     exists h, target W u = Some h /\ GetDC W h <> NULL))).
Proof.
  pose proof (gdigrab_dc_destroy_spec g) as Hd.
  unfold gdigrab_dc_init.
  destruct (gdigrab_dc_destroy g) as [g1 ev1]. cbn [fst snd] in Hd.
  unfold destroyed in Hd.
  destruct Hd as (Hf & He & Hq & Ht & Hb0 & Hb1 & Hs & Hdd & Hhw & Hw & Hh & Hx & Hy & Hsr & Hfr & Hdm & Hrel).
  pose proof (dc_init_body_spec W u g1 Hhw) as Hb. unfold wp in Hb.
  destruct (dc_init_body W u g1) as [r g2 ev2 | [] g2 ev2].
  - destruct Hb as (Hr & Hq2 & Ht2 & Hex & Hv). subst r.
    change (AVERROR EIO =? 0) with false. cbv iota.
    pose proof (gdigrab_dc_destroy_spec g2) as Hd2.
    destruct (gdigrab_dc_destroy g2) as [g3 ev3]. cbn [fst snd] in Hd2 |- *.
    unfold destroyed in Hd2.
    destruct Hd2 as (Hf3 & He3 & Hq3 & Ht3 & Hb03 & Hb13 & Hs3 & Hdd3 & Hhw3 & _ & _ & _ & _ & _ & _ & _ & Hrel3).
    gsimpl. repeat match goal with |- _ /\ _ => split end; try assumption; try congruence.
    + intros h Hth Hdc. apply (geometry_verdict_pad W g g1); auto.
    + right. repeat match goal with |- _ /\ _ => split end; try assumption; try reflexivity.
      rewrite !existsb_app, (existsb_release_region _ Hrel), (existsb_release_region _ Hrel3).
      rewrite orb_false_r. cbn [orb]. exact Hex.
  - destruct Hb as (Hbuf & Hf2 & Hq2 & Ht2 & Hfmt & Hv).
    cbn [fst snd]. gsimpl. repeat match goal with |- _ /\ _ => split end; try congruence.
    + intros h Hth Hdc.
      replace (ev1 ++ ev2) with (ev1 ++ ev2 ++ []) by (rewrite app_nil_r; reflexivity).
      apply (geometry_verdict_pad W g g1); auto.
    + left. split; [reflexivity |]. split; [exact Hbuf |].
      unfold format_probed in *. gsimpl. rewrite <- Hfr.
      rewrite <- (clip_rect_of_options g g1 _ Hw Hh Hx Hy). exact Hfmt.
Qed.

Lemma bad_geometry_iff clip v bpp :
  extends_outside clip v || invalid_properties clip bpp = true <->
  bad_geometry clip v bpp.
Proof.
  unfold extends_outside, invalid_properties, bad_geometry.
  rewrite !orb_true_iff, !Z.ltb_lt, !Z.leb_le, negb_true_iff, Z.eqb_neq.
  rewrite (Z.rem_divide bpp 8) by discriminate.
  tauto.
Qed.

Lemma existsb_region_In ev :
  existsb is_region_error ev = true <->
  In (Log MsgOutsideArea) ev \/ In (Log MsgInvalidProperties) ev.
Proof.
  rewrite existsb_exists. split.
  - intros [e [Hin He]]. destruct e as [c | m]; [discriminate |].
    destruct m; try discriminate; auto.
  - intros [H | H]; eexists; (split; [exact H | reflexivity]).
Qed.

Lemma existsb_alloc_In ev :
  existsb is_alloc ev = false ->
  ~ In (Call CallCreateCompatibleDC) ev /\
  forall i, ~ In (Call (CallCreateDIBSection i)) ev.
Proof.
  intros H. split; [| intros i]; intros Hin;
    (assert (Ht : existsb is_alloc ev = true)
       by (apply existsb_exists; eexists; split; [exact Hin | reflexivity]));
    congruence.
Qed.

(** The geometry checks of [gdigrab_dc_init] on the rectangle it stores.
    For a resolved target (window found or desktop, device context
    obtained), [gdigrab_dc_init] fails in its geometry checks -- returns
    [AVERROR(EIO)] after logging "extends outside window area" or "Invalid
    properties" -- exactly when the clip rectangle, with its right and
    bottom edges computed in 32 bits, leaves the bounds of the target, or
    its width or height is not positive, or the bit depth is not a multiple
    of 8.  In that case neither the destination DC nor a DIB section is
    ever created; otherwise [CreateCompatibleDC] is called and, when it
    succeeds, the first [CreateDIBSection]. *)
Lemma dc_init_geometry_checks W u g h :
  target W u = Some h -> GetDC W h <> NULL ->
  let v := virtual_rect_of W h (GetDC W h) in
  let clip := clip_rect_of g v in
  let bpp := GetDeviceCaps W (GetDC W h) BITSPIXEL in
  let r := fst (fst (gdigrab_dc_init W u g)) in
  let g' := snd (fst (gdigrab_dc_init W u g)) in
  let ev := snd (gdigrab_dc_init W u g) in
  ((r = AVERROR EIO /\
    (In (Log MsgOutsideArea) ev \/ In (Log MsgInvalidProperties) ev)) <->
   bad_geometry clip v bpp) /\
  (bad_geometry clip v bpp ->
   ~ In (Call CallCreateCompatibleDC) ev /\
   (forall i, ~ In (Call (CallCreateDIBSection i)) ev) /\
   hbmp0 g' = NULL /\ hbmp1 g' = NULL) /\
  (~ bad_geometry clip v bpp ->
   In (Call CallCreateCompatibleDC) ev /\
   (CreateCompatibleDC W (GetDC W h) <> NULL ->
    In (Call (CallCreateDIBSection 0)) ev)).
Proof.
  intros Ht Hdc. cbv zeta.
  pose proof (gdigrab_dc_init_spec W u g) as H. cbv zeta in H.
  destruct (gdigrab_dc_init W u g) as [[r g'] ev]. cbn [fst snd] in *.
  destruct H as (He & Hf & Hq & Hv & Hcase).
  specialize (Hv h Ht Hdc). unfold geometry_verdict in Hv. cbv zeta in Hv.
  rewrite <- bad_geometry_iff.
  destruct (extends_outside _ _ || invalid_properties _ _) eqn:Hbad.
  - destruct Hv as [Hlog [Hr Hal]].
    apply existsb_region_In in Hlog. apply existsb_alloc_In in Hal.
    destruct Hal as [Ha1 Ha2].
    split; [tauto |]. split; [| intros Hn; exfalso; apply Hn; reflexivity].
    intros _. repeat match goal with |- _ /\ _ => split end; try assumption.
    all: destruct Hcase as [[H0 _] | (_ & H0 & H1 & _)];
      [rewrite Hr in H0; discriminate | assumption].
  - destruct Hv as [Hlog [Ha Hb]].
    split; [| split; [intros Hn; discriminate | intros _; split; assumption]].
    split; [| intros Hn; discriminate].
    intros [_ Hin]. apply existsb_region_In in Hin. congruence.
Qed.

(** Without wrap-around the stored rectangle is the requested one, and
    the checks are the checks of the request. *)
Lemma geometry_without_overflow g v bpp :
  width g <> 0 -> height g <> 0 ->
  in_int32 (width g) -> in_int32 (height g) ->
  in_int32 (width g + offset_x g) -> in_int32 (height g + offset_y g) ->
  bad_geometry (clip_rect_of g v) v bpp <->
  offset_x g < left v \/ offset_y g < top v \/
  right v < offset_x g + width g \/ bottom v < offset_y g + height g \/
  width g <= 0 \/ height g <= 0 \/ ~ (8 | bpp).
Proof.
  intros Hw Hh Hiw Hih Hsw Hsh. unfold bad_geometry, clip_rect_of.
  apply Z.eqb_neq in Hw, Hh. rewrite Hw, Hh. cbn [orb left top right bottom].
  rewrite (int32_id _ Hsw), (int32_id _ Hsh).
  replace (width g + offset_x g - offset_x g) with (width g) by lia.
  replace (height g + offset_y g - offset_y g) with (height g) by lia.
  rewrite (int32_id _ Hiw), (int32_id _ Hih).
  replace (width g + offset_x g) with (offset_x g + width g) by lia.
  replace (height g + offset_y g) with (offset_y g + height g) by lia.
  reflexivity.
Qed.

(** C9, on the code.  The right and bottom edges of the clip rectangle are
    the 32-bit sums [width + offset_x] and [height + offset_y].  A
    requested rectangle that leaves the target on the right or at the
    bottom, but whose sum wraps around to an edge inside the target, passes
    the geometry checks: neither "extends outside window area" nor
    "Invalid properties" is logged, [CreateCompatibleDC] is called and,
    when it succeeds, the first [CreateDIBSection]. *)
Theorem dc_init_accepts_wrapped_region W u g h :
  target W u = Some h -> GetDC W h <> NULL ->
  width g <> 0 -> height g <> 0 ->
  let v := virtual_rect_of W h (GetDC W h) in
  let bpp := GetDeviceCaps W (GetDC W h) BITSPIXEL in
  let wrapped_right := int32 (width g + offset_x g) in
  let wrapped_bottom := int32 (height g + offset_y g) in
  let ev := snd (gdigrab_dc_init W u g) in
  right v < offset_x g + width g \/ bottom v < offset_y g + height g ->
  left v <= offset_x g -> top v <= offset_y g ->
  wrapped_right <= right v -> wrapped_bottom <= bottom v ->
  0 < int32 (wrapped_right - offset_x g) ->
  0 < int32 (wrapped_bottom - offset_y g) ->
  (8 | bpp) ->
  ~ In (Log MsgOutsideArea) ev /\ ~ In (Log MsgInvalidProperties) ev /\
  In (Call CallCreateCompatibleDC) ev /\
  (CreateCompatibleDC W (GetDC W h) <> NULL ->
   In (Call (CallCreateDIBSection 0)) ev).
Proof.
  intros Ht Hdc Hw Hh. cbv zeta. intros _ Hl Htop Hr Hb Hpw Hph H8.
  pose proof (gdigrab_dc_init_spec W u g) as H. cbv zeta in H.
  destruct (gdigrab_dc_init W u g) as [[r g'] ev]. cbn [fst snd] in *.
  destruct H as (_ & _ & _ & Hv & _).
  specialize (Hv h Ht Hdc). unfold geometry_verdict in Hv. cbv zeta in Hv.
  assert (Hgood : extends_outside (clip_rect_of g (virtual_rect_of W h (GetDC W h)))
                    (virtual_rect_of W h (GetDC W h)) ||
                  invalid_properties (clip_rect_of g (virtual_rect_of W h (GetDC W h)))
                    (GetDeviceCaps W (GetDC W h) BITSPIXEL) = false).
  { destruct (extends_outside _ _ || invalid_properties _ _) eqn:E; [| reflexivity].
    exfalso. apply bad_geometry_iff in E. unfold bad_geometry, clip_rect_of in E.
    apply Z.eqb_neq in Hw, Hh. rewrite Hw, Hh in E. cbn [orb left top right bottom] in E.
    destruct E as [E | [E | [E | [E | [E | [E | E]]]]]]; try lia. contradiction. }
  rewrite Hgood in Hv. destruct Hv as (Hlog & Ha & Hb2).
  split; [intros Hin; assert (existsb is_region_error ev = true)
            by (apply existsb_region_In; left; exact Hin); congruence |].
  split; [intros Hin; assert (existsb is_region_error ev = true)
            by (apply existsb_region_In; right; exact Hin); congruence |].
  split; assumption.
Qed.

(** The options [-offset_x 2147483547 -video_size 200x100]. *)
Lemma dc_init_accepts_wrapped_region_witness :
  let g := priv_data (mk_options 1 0 (mk_AVRational 30000 1001) 200 100 2147483547 0) in
  let v := virtual_rect_of desk NULL (GetDC desk NULL) in
  let r := fst (fst (gdigrab_dc_init desk "desktop" g)) in
  let g' := snd (fst (gdigrab_dc_init desk "desktop" g)) in
  let ev := snd (gdigrab_dc_init desk "desktop" g) in
  (right v = 1920 /\ offset_x g + width g = 2147483747) /\
  (r = 0 /\ clip_rect g' = mk_RECT 2147483547 0 (-2147483549) 100 /\
   biWidth (bmi g') = 200 /\ hbmp0 g' <> NULL /\ hbmp1 g' <> NULL) /\
  ~ In (Log MsgOutsideArea) ev /\ ~ In (Log MsgInvalidProperties) ev /\
  In (Call CallCreateCompatibleDC) ev /\
  (CreateCompatibleDC desk (GetDC desk NULL) <> NULL ->
   In (Call (CallCreateDIBSection 0)) ev).
Proof.
  cbv zeta.
  split; [split; vm_compute; reflexivity |].
  split; [vm_compute; repeat split; discriminate |].
  apply (dc_init_accepts_wrapped_region desk "desktop"
           (priv_data (mk_options 1 0 (mk_AVRational 30000 1001) 200 100 2147483547 0))
           NULL);
    try (left; vm_compute; reflexivity);
    try (exists 3; reflexivity);
    vm_compute; first [reflexivity | discriminate].
Defined.

(** ** The packet: gdigrab_copy_frame, gdigrab_read_packet *)

(** C8 (as amended).  After a successful [gdigrab_dc_init] at 24 bits per
    pixel, a packet filled by [gdigrab_copy_frame] has the size of the two
    headers plus [bmWidthBytes * bmHeight * bmPlanes] as probed from the
    first DIB section -- the row stride times the number of rows -- and no
    palette; that is [W * H * 3] when the probed stride is [3 * W] over
    [H] rows in one plane. *)
Theorem packet_size_24 W u g s :
  let g' := snd (fst (gdigrab_dc_init W u g)) in
  let bpp := GetDeviceCaps W (source_hdc g') BITSPIXEL in
  let bmp := GetObject W (hbmp0 g') in
  let headers := sizeof_BITMAPFILEHEADER W + sizeof_BITMAPINFOHEADER W in
  let pixel_bytes := bmWidthBytes bmp * bmHeight bmp * bmPlanes bmp in
  fst (fst (gdigrab_dc_init W u g)) = 0 ->
  frame_size (ctx s) = frame_size g' ->
  header_size (ctx s) = header_size g' ->
  bmi (ctx s) = bmi g' ->
  bpp = 24 ->
  in_int32 (bmWidthBytes bmp * bmHeight bmp) ->
  in_int32 pixel_bytes -> in_int32 headers -> in_int32 (headers + pixel_bytes) ->
  exists n p s',
    gdigrab_copy_frame true s = (n, Some p, s') /\
    n = size p /\ size p = headers + pixel_bytes /\
    palette p = false /\
    (forall Wd Ht, bmWidthBytes bmp = 3 * Wd -> bmHeight bmp = Ht ->
                   bmPlanes bmp = 1 -> size p = headers + Wd * Ht * 3).
Proof.
  cbv zeta. intros Hr Hfs Hhs Hbmi Hbpp H1 H2 H3 H4.
  pose proof (gdigrab_dc_init_spec W u g) as H. cbv zeta in H.
  destruct (gdigrab_dc_init W u g) as [[r g'] ev]. cbn [fst snd] in *.
  destruct H as (_ & _ & _ & _ & [(_ & _ & Hfmt) | (Hr' & _)]);
    [| rewrite Hr in Hr'; discriminate].
  unfold format_probed in Hfmt. gsimpl.
  destruct Hfmt as (Hf & Hh & _ & Hb & _).
  rewrite Hbpp in Hh, Hb. change (24 <=? 8) with false in Hh. cbv iota in Hh.
  rewrite Z.mul_0_l, Z.add_0_r in Hh.
  rewrite (int32_id _ H1), (int32_id _ H2) in Hf.
  rewrite (int32_id _ H3) in Hh.
  unfold gdigrab_copy_frame. cbn [negb]. cbv iota.
  rewrite Hbmi, Hb, Hfs, Hhs, Hf, Hh. cbn [biBitCount].
  change (word16 24 <=? 8) with false. cbv iota.
  rewrite (int32_id _ H4).
  eexists. eexists. eexists. split; [reflexivity |]. cbn [size palette].
  split; [reflexivity |]. split; [reflexivity |]. split; [reflexivity |].
  intros Wd Ht E1 E2 E3. rewrite E1, E2, E3. ring.
Qed.

Lemma packet_size_24_witness :
  let W := desk in
  let g' := snd (fst (gdigrab_dc_init W "desktop" (priv_data defaults))) in
  let s := set_ctx g' (init "desktop" defaults) in
  let bmp := GetObject W (hbmp0 g') in
  let headers := sizeof_BITMAPFILEHEADER W + sizeof_BITMAPINFOHEADER W in
  let pixel_bytes := bmWidthBytes bmp * bmHeight bmp * bmPlanes bmp in
  exists n p s',
    gdigrab_copy_frame true s = (n, Some p, s') /\
    n = size p /\ size p = headers + pixel_bytes /\
    palette p = false /\
    (forall Wd Ht, bmWidthBytes bmp = 3 * Wd -> bmHeight bmp = Ht ->
                   bmPlanes bmp = 1 -> size p = headers + Wd * Ht * 3).
Proof.
  apply (packet_size_24 desk "desktop" (priv_data defaults)
           (set_ctx (snd (fst (gdigrab_dc_init desk "desktop" (priv_data defaults))))
                    (init "desktop" defaults)));
    try reflexivity; vm_compute; (split; [discriminate | reflexivity]).
Defined.

(** On a 1366x768 desktop at 24 bits per pixel the rows are padded to 4100
    bytes, and the packet is larger than headers plus [W * H * 3]. *)
Lemma packet_size_24_counterexample :
  let tr := startup laptop ++ [WorkerGrab Grabbed false; WorkerLock] in
  exists s n p s',
    run tr (init "desktop" defaults) = Some s /\
    gdigrab_copy_frame true s = (n, Some p, s') /\
    biWidth (bmiHeader p) = 1366 /\ biHeight (bmiHeader p) = -768 /\
    biBitCount (bmiHeader p) = 24 /\ palette p = false /\
    size p = 14 + 40 + 4100 * 768 /\
    size p <> 14 + 40 + 1366 * 768 * 3.
Proof.
  cbv zeta. eexists. eexists. eexists. eexists.
  split; [vm_compute; reflexivity |].
  split; [vm_compute; reflexivity |].
  cbn [bmiHeader biWidth biHeight biBitCount palette size].
  repeat split; discriminate.
Qed.

(** C10.  While [error_code] is non-zero, [gdigrab_read_packet] returns
    [AVERROR(EIO)] without entering [pthread_cond_wait] and without
    touching the struct, the pixel memory or the list of delivered
    packets, whatever is in [frame_in_stock]. *)
Theorem read_packet_after_fatal_error s nonblock alloc_ok :
  reader s = RIdle -> error_code (ctx s) <> 0 ->
  exists s',
    step (Pull nonblock alloc_ok) s = Some s' /\
    pulls s' = AVERROR EIO :: pulls s /\
    reader s' = RIdle /\
    ctx s' = ctx s /\ frame_in_stock (ctx s') = frame_in_stock (ctx s) /\
    delivered s' = delivered s /\ dib0 s' = dib0 s /\ dib1 s' = dib1 s /\
    wk s' = wk s /\ events s' = events s /\ offered s' = offered s.
Proof.
  intros Hr He. unfold step. rewrite Hr. unfold read_packet_enter.
  apply Z.eqb_neq in He. rewrite He. cbn [negb].
  eexists. split; [reflexivity |]. repeat split.
Qed.

Lemma read_packet_after_fatal_error_witness :
  let s := set_ctx (set_frame_in_stock (Some 0%nat)
                      (set_error_code (AVERROR EIO) (priv_data defaults)))
             (init "desktop" defaults) in
  reader s = RIdle /\ error_code (ctx s) <> 0 /\
  exists s',
    step (Pull false true) s = Some s' /\
    pulls s' = AVERROR EIO :: pulls s /\
    reader s' = RIdle /\
    ctx s' = ctx s /\ frame_in_stock (ctx s') = frame_in_stock (ctx s) /\
    delivered s' = delivered s /\ dib0 s' = dib0 s /\ dib1 s' = dib1 s /\
    wk s' = wk s /\ events s' = events s /\ offered s' = offered s.
Proof.
  cbv zeta. split; [reflexivity |]. split; [discriminate |].
  apply read_packet_after_fatal_error; [reflexivity | discriminate].
Defined.

(** ** The invariant of the transition system *)

(** Projections of updated systems. *)
Ltac ssimpl :=
  cbn [url ctx dib0 dib1 wk woken_w reader woken_r starter woken_s events
       iters offered dropped delivered pulls
       set_ctx set_dib0 set_dib1 set_wk set_woken_w set_reader set_woken_r
       set_starter set_woken_s set_events set_iters set_offered set_dropped
       set_delivered set_pulls set_dib dib deref log broadcast pending
       pc l_i l_sn l_time_base l_time_start l_time_end l_sleep_balance
       l_error l_frame_in_stock set_pc read_return
       f_time f_pixels frame_of_packet pts pixels map app fst snd grab_ok] in *;
  gsimpl.

Lemma other_lt i : (i < 2)%nat -> (other i < 2)%nat.
Proof. intros _. unfold other. apply Nat.mod_upper_bound. discriminate. Qed.

Lemma other_neq i : (i < 2)%nat -> other i <> i.
Proof. destruct i as [|[|i]]; intros H; try lia; discriminate. Qed.

Lemma other_other i : (i < 2)%nat -> other (other i) = i.
Proof. destruct i as [|[|i]]; intros H; try lia; reflexivity. Qed.

Lemma int32_succ x : int32 (int32 x + 1) = int32 (x + 1).
Proof.
  unfold int32, wrap. f_equal.
  replace (32 - 1) with 31 by reflexivity.
  replace ((x + 2 ^ 31) mod 2 ^ 32 - 2 ^ 31 + 1 + 2 ^ 31)
    with ((x + 2 ^ 31) mod 2 ^ 32 + 1) by ring.
  replace (x + 1 + 2 ^ 31) with ((x + 2 ^ 31) + 1) by ring.
  rewrite Zplus_mod_idemp_l. reflexivity.
Qed.

Lemma first_ok_cons x rest : rest <> [] -> first_ok rest -> first_ok (x :: rest).
Proof. unfold first_ok. destruct rest; [congruence |]. intros _ H. exact H. Qed.

Lemma first_ok_one t r : grab_ok r = true -> first_ok [(t, r)].
Proof. intros H. exact H. Qed.

(** The invariant does not look at the wake-up flags, the reader, the
    events or the return values. *)
Lemma Inv_ext s s' :
  ctx s' = ctx s -> dib0 s' = dib0 s -> dib1 s' = dib1 s -> wk s' = wk s ->
  starter s' = starter s -> iters s' = iters s -> offered s' = offered s ->
  dropped s' = dropped s -> delivered s' = delivered s ->
  Inv s -> Inv s'.
Proof.
  destruct s, s'. cbn. intros; subst. assumption.
Qed.

Lemma Inv_init u o : Inv (init u o).
Proof. unfold Inv. cbn. repeat split; lia. Qed.

Ltac open_state s :=
  let w := fresh "w" in
  destruct s as [u g d0 d1 w ww rd wr st ws ev it off dr del pl];
  destruct w as [p i sn tb ts te sb er fis];
  unfold Inv, grabbed_inv, pending, slot_free_or, buffers_ready in *; ssimpl.

Lemma Inv_start created s :
  starter s = SNotCalled -> Inv s -> Inv (worker_start_create created s).
Proof.
  unfold worker_start_create. open_state s. intros Hs. subst st.
  intros (H1 & H2 & H3 & H4). subst p.
  destruct created; ssimpl; intuition.
Qed.

Lemma Inv_error_code s :
  Inv s -> error_code (ctx s) = 0 \/ error_code (ctx s) = AVERROR EIO.
Proof.
  open_state s. intros (H1 & H2 & H3 & H4).
  destruct p; try (destruct H4 as (t & r & rest & H4)); intuition.
Qed.

Lemma Inv_start_return s :
  match starter s with SCreated | SWait => True | _ => False end ->
  Inv s -> Inv (set_starter (SReturned (error_code (ctx s))) s).
Proof.
  intros Hs HI. pose proof (Inv_error_code s HI) as He.
  revert Hs HI He. open_state s. intros Hs (H1 & H2 & H3 & H4) He.
  repeat match goal with |- _ /\ _ => split end; assumption.
Qed.

Lemma Inv_start_lock s : starter s = SCreated -> Inv s -> Inv (worker_start_lock s).
Proof.
  intros Hs HI. unfold worker_start_lock.
  destruct (negb (error_code (ctx s) =? 0)).
  - apply Inv_start_return; [rewrite Hs; exact I | exact HI].
  - revert Hs HI. open_state s. intros -> HI. exact HI.
Qed.

Lemma Inv_start_resume s : starter s = SWait -> Inv s -> Inv (worker_start_resume s).
Proof.
  intros Hs HI. apply Inv_start_return; [rewrite Hs; exact I | exact HI].
Qed.

Ltac split_all := repeat match goal with |- _ /\ _ => split end.

Ltac open_ex :=
  repeat match goal with
    | H : exists _, _ |- _ => destruct H
    | H : _ /\ _ |- _ => destruct H
    end.

Lemma Inv_close s : Inv s -> Inv (snd (gdigrab_read_close s)).
Proof.
  unfold gdigrab_read_close. open_state s. intros (H1 & H2 & H3 & H4).
  split_all; try assumption.
  destruct p; try assumption. intuition.
Qed.

Lemma Inv_pace t1 t2 s : pc (wk s) = WPace -> Inv s -> Inv (worker_pace t1 t2 s).
Proof.
  unfold worker_pace. open_state s. intros ->.
  intros (H1 & H2 & H3 & t & r & rest & H4).
  split_all; try assumption.
  - apply Nat.mod_upper_bound. discriminate.
  - destruct st; try assumption. discriminate.
  - tauto.
  - tauto.
  - fold (other i). rewrite (other_other i H2). tauto.
  - tauto.
  - tauto.
  - tauto.
  - tauto.
  - destruct H4 as (E & _ & _ & _ & _ & _ & _ & Hsn). rewrite E, Hsn.
    rewrite int32_succ. f_equal. cbn [List.length]. lia.
Qed.

Lemma Inv_read_return r s : Inv s -> Inv (read_return r s).
Proof. apply Inv_ext; destruct s; reflexivity. Qed.

Lemma Inv_log ev s : Inv s -> Inv (log ev s).
Proof. apply Inv_ext; destruct s; reflexivity. Qed.

Lemma Inv_copy_frame a s :
  frame_in_stock (ctx s) <> None -> Inv s -> Inv (snd (gdigrab_copy_frame a s)).
Proof.
  unfold gdigrab_copy_frame. destruct a; cbn [negb snd]; [| auto].
  destruct (biBitCount (bmi (ctx s)) <=? 8).
  all: open_state s; intros Hf (H1 & H2 & H3 & H4).
  all: destruct (frame_in_stock g) as [j|] eqn:Ej; [| congruence].
  all: split_all; try assumption.
  all: try (rewrite H1; destruct j; reflexivity).
  all: destruct p; open_ex; try discriminate; split_all; auto.
  all: try (eexists; eexists; eexists; split_all; try eassumption; auto).
Qed.

Lemma Inv_read_enter nb a s : Inv s -> Inv (read_packet_enter nb a s).
Proof.
  intros HI. unfold read_packet_enter.
  destruct (negb (error_code (ctx s) =? 0)); [apply Inv_read_return; exact HI |].
  destruct (frame_in_stock (ctx s)) eqn:E.
  - pose proof (Inv_copy_frame a s) as Hc.
    destruct (gdigrab_copy_frame a s) as [[r o] s']. cbn [snd] in Hc.
    apply Inv_read_return. apply Hc; [congruence | exact HI].
  - destruct nb; [apply Inv_read_return; exact HI |].
    revert HI. apply Inv_ext; destruct s; reflexivity.
Qed.

Lemma Inv_read_resume a s : Inv s -> Inv (read_packet_resume a s).
Proof.
  intros HI. unfold read_packet_resume.
  destruct (frame_in_stock (ctx s)) eqn:E.
  - pose proof (Inv_copy_frame a s) as Hc.
    destruct (gdigrab_copy_frame a s) as [[r o] s']. cbn [snd] in Hc.
    apply Inv_read_return. apply Hc; [congruence | exact HI].
  - apply Inv_read_return. apply Inv_log. exact HI.
Qed.

(** Leaving through [end] from a state that accounts for every frame. *)
Lemma Inv_worker_end s :
  offered s = pending s ++ map frame_of_packet (delivered s) ->
  dropped s = [] -> (l_i (wk s) < 2)%nat ->
  match starter s with
  | SNotCalled => False
  | SReturned r => r = 0 \/ r = AVERROR EIO
  | _ => True
  end ->
  (offered s = frames_of (iters s) \/ offered s = frames_of (tl (iters s))) ->
  ((error_code (ctx s) = 0 /\ grab_worker_quit (ctx s) = true /\ first_ok (iters s)) \/
   (error_code (ctx s) = AVERROR EIO /\
    (iters s = [] \/
     exists t r rest, iters s = (t, r) :: rest /\ grab_ok r = false /\
       int32 (Z.of_nat (List.length rest)) = 0 /\ first_ok rest /\
       offered s = frames_of rest))) ->
  Inv (worker_end s).
Proof.
  unfold worker_end. pose proof (gdigrab_dc_destroy_spec (ctx s)) as Hd.
  destruct (gdigrab_dc_destroy (ctx s)) as [g' ev']. cbn [fst snd] in Hd.
  unfold destroyed in Hd.
  destruct Hd as (Hf & He & Hq & _).
  revert Hf He Hq. open_state s. intros Hf He Hq H1 Hdr H2 H3 H4 H5. subst dr.
  rewrite Hf, He, Hq.
  split_all; try assumption.
  - rewrite H1. rewrite !app_nil_r. reflexivity.
  - destruct st; try assumption. contradiction.
  - reflexivity.
  - rewrite app_nil_r. destruct (frame_in_stock g); cbn; lia.
Qed.

Lemma Inv_worker_init W now s : pc (wk s) = WInit -> Inv s -> Inv (worker_init W now s).
Proof.
  unfold worker_init. pose proof (gdigrab_dc_init_spec W (url s) (ctx s)) as Hd.
  cbv zeta in Hd.
  destruct (gdigrab_dc_init W (url s) (ctx s)) as [[r g'] ev']. cbn [fst snd] in Hd.
  destruct Hd as (He & Hf & Hq & _ & Hcase).
  intros Hpc HI.
  destruct Hcase as [(Hr & Hbuf & _) | (Hr & _)]; rewrite Hr in He |- *; clear Hr r.
  - change (negb (0 =? 0)) with false. cbv iota.
    revert Hpc HI He Hf Hq Hbuf. open_state s.
    intros -> (H1 & H2 & H3 & Hit & Hoff & Hdr & Hfs & Hec) He Hf Hq Hbuf.
    subst it off dr. rewrite Hfs in H1. rewrite Hf.
    destruct Hbuf. split_all; auto; try reflexivity.
    destruct st; auto; discriminate.
  - change (negb (AVERROR EIO =? 0)) with true. cbv iota.
    apply Inv_worker_end.
    all: revert Hpc HI He Hf Hq; open_state s.
    all: intros -> (H1 & H2 & H3 & Hit & Hoff & Hdr & Hfs & Hec) He Hf Hq.
    all: subst it off dr; rewrite Hfs in H1; try rewrite Hf; auto.
    destruct st; auto; discriminate.
Qed.

Lemma Inv_worker_grab r cf s : pc (wk s) = WLoop -> Inv s -> Inv (worker_grab r cf s).
Proof.
  intros Hpc HI. unfold worker_grab.
  destruct (grab_worker_quit (ctx s)) eqn:Hquit.
  - apply Inv_worker_end.
    all: revert Hpc HI Hquit; open_state s.
    all: intros -> (H1 & H2 & H3 & H4) Hquit; open_ex; subst; auto.
    destruct st; auto; discriminate.
  - cbv zeta. unfold paint_mouse_pointer.
    revert Hpc HI Hquit; open_state s.
    intros -> (H1 & H2 & H3 & H4) Hquit; open_ex; subst.
    destruct i as [|[|i]]; [| | lia].
    all: change (other 0) with 1%nat in *; change (other 1) with 0%nat in *.
    all: destruct (negb (show_region g =? 0)); ssimpl.
    all: destruct r; ssimpl.
    all: repeat match goal with
         | |- context [if ?c then _ else _] => destruct c; ssimpl
         end.
    all: match goal with H : _ \/ _ |- _ => destruct H as [Hs | Hs]; rewrite Hs in * end.
    all: ssimpl.
    all: split_all; auto.
    all: try (destruct st; auto; discriminate).
    all: eexists; eexists; eexists; split_all; try reflexivity; auto.
    all: cbn [grab_ok]; split_all; auto.
    all: f_equal; cbn [List.length]; lia.
Qed.

Lemma hand_over_pc p s :
  worker_hand_over (set_wk (set_pc p (wk s)) s) = worker_hand_over s.
Proof.
  unfold worker_hand_over, worker_end, pending. destruct s as [u g d0 d1 w ww rd wr st ws ev it off dr del pl].
  destruct w. ssimpl.
  destruct (frame_in_stock g); [reflexivity |].
  destruct (grab_worker_quit g); [| reflexivity].
  destruct (gdigrab_dc_destroy g). reflexivity.
Qed.

Lemma Inv_hand_over s : pc (wk s) = WWaitStock -> Inv s -> Inv (worker_hand_over s).
Proof.
  intros Hpc HI. unfold worker_hand_over.
  destruct (frame_in_stock (ctx s)) eqn:Hslot.
  - revert Hpc HI. open_state s. intros -> HI. exact HI.
  - destruct (grab_worker_quit (ctx s)) eqn:Hquit.
    + apply Inv_worker_end.
      all: revert Hpc HI Hquit Hslot; open_state s.
      all: intros -> (H1 & H2 & H3 & H4) Hquit Hslot; open_ex; subst; auto.
      all: try (destruct st; auto; discriminate).
    + cbv zeta. revert Hpc HI Hquit Hslot; open_state s.
      intros -> (H1 & H2 & H3 & H4) Hquit Hslot; open_ex; subst.
      rewrite Hslot in *. ssimpl.
      destruct i as [|[|i]]; [| | lia].
      all: match goal with H : if grab_ok ?r then _ else _ |- _ => destruct r; ssimpl end.
      all: open_ex; subst; ssimpl.
      all: split_all; auto.
      all: try (destruct st; auto; discriminate).
      all: try (match goal with H : ?x = _ |- context [?x] => rewrite H end; reflexivity).
      all: eexists; eexists; eexists; split_all; try reflexivity; auto.
Qed.

Lemma Inv_worker_lock s : pc (wk s) = WGrabbed -> Inv s -> Inv (worker_lock s).
Proof.
  intros Hpc HI. unfold worker_lock. cbv zeta.
  destruct (negb (l_error (wk s) =? 0) && (l_sn (wk s) =? 0)) eqn:Hfirst.
  - apply andb_true_iff in Hfirst. destruct Hfirst as [He Hsn].
    apply negb_true_iff in He. apply Z.eqb_neq in He. apply Z.eqb_eq in Hsn.
    apply Inv_worker_end.
    all: revert Hpc HI He Hsn; open_state s.
    all: intros -> (H1 & H2 & H3 & H4) He Hsn; open_ex; subst; auto.
    + destruct st; auto; discriminate.
    + match goal with H : if grab_ok ?r then _ else _ |- _ => destruct r; ssimpl end.
      all: open_ex; subst; try congruence.
      all: right; split; [reflexivity |]; right.
      all: eexists; eexists; eexists; split_all; try reflexivity; auto.
  - assert (Hw : Inv (set_wk (set_pc WWaitStock (wk s)) s)).
    { apply andb_false_iff in Hfirst.
      revert Hpc HI Hfirst; open_state s.
      intros -> (H1 & H2 & H3 & H4) Hfirst; open_ex; subst.
      split_all; auto.
      { destruct st; auto; discriminate. }
      eexists; eexists; eexists; split_all; try reflexivity; auto.
      destruct x1 as [| y rest'].
      - destruct Hfirst as [Hf | Hf]; [| discriminate Hf].
        apply negb_false_iff in Hf. apply Z.eqb_eq in Hf.
        destruct x0; ssimpl; open_ex; subst; try discriminate. reflexivity.
      - apply first_ok_cons; [discriminate | assumption]. }
    destruct (grab_worker_quit (ctx s)) eqn:Hquit.
    + apply Inv_worker_end.
      all: revert Hpc HI Hw Hquit; open_state s.
      all: intros -> (H1 & H2 & H3 & H4) (_ & _ & _ & H5) Hquit; open_ex; subst; auto.
      all: try (destruct st; auto; discriminate).
      all: try (match goal with H : _ :: _ = _ :: _ |- _ => inversion H; subst end; auto).
    + rewrite <- (hand_over_pc WWaitStock). apply Inv_hand_over; [| exact Hw].
      destruct s as [u g d0 d1 w ww rd wr st ws ev it off dr del pl]. destruct w. reflexivity.
Qed.

Lemma is_wpc_eq a b : is_wpc a b = true -> a = b.
Proof. destruct a, b; intros H; try discriminate H; reflexivity. Qed.

(** Every transition keeps the invariant. *)
Lemma step_Inv l s s' : Inv s -> step l s = Some s' -> Inv s'.
Proof.
  intros HI. destruct l; cbn [step].
  - destruct (starter s) eqn:E; try discriminate. intros [= <-].
    apply Inv_start; assumption.
  - destruct (starter s) eqn:E; try discriminate. intros [= <-].
    apply Inv_start_lock; assumption.
  - destruct (starter s) eqn:E; try discriminate.
    destruct (woken_s s); try discriminate. intros [= <-].
    apply Inv_start_resume; assumption.
  - destruct (is_wpc (pc (wk s)) WInit) eqn:E; try discriminate. intros [= <-].
    apply Inv_worker_init; [apply is_wpc_eq |]; assumption.
  - destruct (is_wpc (pc (wk s)) WLoop) eqn:E; try discriminate. intros [= <-].
    apply Inv_worker_grab; [apply is_wpc_eq |]; assumption.
  - destruct (is_wpc (pc (wk s)) WGrabbed) eqn:E; try discriminate. intros [= <-].
    apply Inv_worker_lock; [apply is_wpc_eq |]; assumption.
  - destruct (is_wpc (pc (wk s)) WWaitStock) eqn:E; try discriminate.
    destruct (woken_w s); try discriminate. intros [= <-].
    apply Inv_hand_over; [apply is_wpc_eq |]; assumption.
  - destruct (is_wpc (pc (wk s)) WPace) eqn:E; try discriminate. intros [= <-].
    apply Inv_pace; [apply is_wpc_eq |]; assumption.
  - destruct (reader s) eqn:E; try discriminate. intros [= <-].
    apply Inv_read_enter; assumption.
  - destruct (reader s) eqn:E; try discriminate.
    destruct (woken_r s); try discriminate. intros [= <-].
    apply Inv_read_resume; assumption.
  - intros [= <-]. apply Inv_close; assumption.
Qed.

Lemma run_Inv tr : forall s s', Inv s -> run tr s = Some s' -> Inv s'.
Proof.
  induction tr as [| l tr IH]; intros s s' HI; cbn [run].
  - intros [= <-]. exact HI.
  - destruct (step l s) as [s1 |] eqn:E; [| discriminate].
    apply IH. exact (step_Inv l s s1 HI E).
Qed.

Lemma reachable_Inv u o s : reachable u o s -> Inv s.
Proof. intros [tr H]. exact (run_Inv tr _ _ (Inv_init u o) H). Qed.

(** ** The hand-over: frames, time stamps, failures *)

Lemma frames_of_tag l f :
  In f (frames_of l) -> exists n, f_pixels f = Some n /\ (n < List.length l)%nat.
Proof.
  induction l as [| [t r] l IH]; cbn [frames_of]; [contradiction |].
  destruct (grab_ok r).
  - intros [<- | H].
    + exists (List.length l). split; [reflexivity | cbn; lia].
    + destruct (IH H) as (n & E & Hn). exists n. split; [exact E | cbn; lia].
  - intros H. destruct (IH H) as (n & E & Hn). exists n. split; [exact E | cbn; lia].
Qed.

Lemma frames_of_NoDup l : NoDup (map f_pixels (frames_of l)).
Proof.
  induction l as [| [t r] l IH]; cbn [frames_of]; [constructor |].
  destruct (grab_ok r); [| exact IH].
  cbn [map f_pixels]. constructor; [| exact IH].
  intros Hin. apply in_map_iff in Hin. destruct Hin as (f & E & Hf).
  destruct (frames_of_tag l f Hf) as (n & E' & Hn). rewrite E' in E.
  injection E as E. lia.
Qed.

Lemma frames_of_iteration l f :
  In f (frames_of l) ->
  exists n r, f_pixels f = Some n /\
    nth_error (rev l) n = Some (f_time f, r) /\ grab_ok r = true.
Proof.
  induction l as [| [t r] l IH]; cbn [frames_of]; [contradiction |].
  cbn [rev].
  assert (Hold : In f (frames_of l) ->
            exists n r0, f_pixels f = Some n /\
              nth_error (rev l ++ [(t, r)]) n = Some (f_time f, r0) /\
              grab_ok r0 = true).
  { intros H. destruct (IH H) as (n & r0 & E & Hn & Hok).
    exists n, r0. split; [exact E |]. split; [| exact Hok].
    rewrite nth_error_app1; [exact Hn |].
    apply nth_error_Some. rewrite Hn. discriminate. }
  destruct (grab_ok r) eqn:Hr; [| exact Hold].
  intros [<- | H]; [| exact (Hold H)].
  exists (List.length l), r. cbn [f_pixels f_time].
  split; [reflexivity |]. split; [| exact Hr].
  rewrite nth_error_app2; rewrite length_rev; [| lia].
  rewrite Nat.sub_diag. reflexivity.
Qed.

Lemma nth_error_rev_tl {A} (l : list A) n x :
  nth_error (rev (tl l)) n = Some x -> nth_error (rev l) n = Some x.
Proof.
  destruct l as [| y l]; cbn [tl rev]; [intros H; exact H |].
  intros H. rewrite nth_error_app1; [exact H |].
  apply nth_error_Some. rewrite H. discriminate.
Qed.

(** What the invariant says about the frames handed over so far. *)
Lemma Inv_offered s :
  Inv s -> offered s = frames_of (iters s) \/ offered s = frames_of (tl (iters s)).
Proof.
  destruct s as [u g d0 d1 w ww rd wr st ws ev it off dr del pl].
  destruct w as [p i sn tb ts te sb er fis].
  unfold Inv, grabbed_inv. cbn [wk pc iters offered ctx dropped].
  intros (_ & _ & _ & H). destruct p.
  - destruct H as (-> & -> & _). left. reflexivity.
  - destruct H as (-> & -> & _). left. reflexivity.
  - left. tauto.
  - destruct H as (t & r & rest & -> & _ & _ & _ & _ & -> & _). right. reflexivity.
  - destruct H as (t & r & rest & -> & _ & _ & _ & _ & -> & _). right. reflexivity.
  - left. destruct H as (t & r & rest & _ & _ & H & _). exact H.
  - tauto.
Qed.

Lemma Inv_account s :
  Inv s ->
  offered s = dropped s ++ pending s ++ map frame_of_packet (delivered s) /\
  (List.length (dropped s) + List.length (pending s) <= 1)%nat.
Proof.
  destruct s as [u g d0 d1 w ww rd wr st ws ev it off dr del pl].
  destruct w as [p i sn tb ts te sb er fis].
  unfold Inv, grabbed_inv, pending. cbn [wk pc iters offered ctx dropped delivered].
  intros (H1 & _ & _ & H). split; [exact H1 |].
  destruct p.
  1-2: destruct H as (_ & _ & -> & -> & _); cbn; lia.
  1: destruct H as (_ & -> & _); destruct (frame_in_stock g); cbn; lia.
  1-3: destruct H as (t & r & rest & _ & -> & _); destruct (frame_in_stock g); cbn; lia.
  destruct H as (-> & H & _). cbn. lia.
Qed.

(** C1.  In every reachable state the frames stored into
    [frame_in_stock] so far are, newest first, the frame the worker wiped
    on leaving (if any), the frame waiting in the slot (if any), and the
    frames of the delivered packets: nothing is overwritten before it is
    taken.  At most one frame is waiting, and no frame appears twice. *)
Theorem slot_holds_at_most_one u o s :
  reachable u o s ->
  offered s = dropped s ++ pending s ++ map frame_of_packet (delivered s) /\
  (List.length (pending s) <= 1)%nat /\
  (List.length (offered s) <= List.length (delivered s) + 1)%nat /\
  NoDup (map f_pixels (offered s)) /\
  NoDup (map pixels (delivered s)).
Proof.
  intros R. pose proof (reachable_Inv u o s R) as HI.
  destruct (Inv_account s HI) as [H1 H2].
  assert (Hnd : NoDup (map f_pixels (offered s))).
  { destruct (Inv_offered s HI) as [-> | ->]; apply frames_of_NoDup. }
  split; [exact H1 |]. split; [lia |]. split.
  - rewrite H1 at 1. rewrite !length_app, length_map. lia.
  - split; [exact Hnd |].
    rewrite H1, !map_app in Hnd.
    apply NoDup_app_remove_l in Hnd. apply NoDup_app_remove_l in Hnd.
    rewrite map_map in Hnd. exact Hnd.
Qed.

Lemma offered_iteration s f :
  Inv s -> In f (offered s) ->
  exists n r, f_pixels f = Some n /\
    iteration s n = Some (f_time f, r) /\ grab_ok r = true.
Proof.
  intros HI Hin. unfold iteration.
  destruct (Inv_offered s HI) as [E | E]; rewrite E in Hin;
    destruct (frames_of_iteration _ f Hin) as (n & r & H1 & H2 & H3);
    exists n, r; split; try exact H1; split; try exact H3.
  - exact H2.
  - apply nth_error_rev_tl. exact H2.
Qed.

(** *** The time stamp against the clock readings of the trace *)

Lemma worker_end_stamp s :
  pc (wk (worker_end s)) = WExited /\
  l_time_end (wk (worker_end s)) = l_time_end (wk s) /\
  grab_worker_quit (ctx (worker_end s)) = grab_worker_quit (ctx s) /\
  iters (worker_end s) = iters s.
Proof.
  unfold worker_end. pose proof (gdigrab_dc_destroy_spec (ctx s)) as Hd.
  destruct (gdigrab_dc_destroy (ctx s)) as [g' ev']. cbn [fst snd] in Hd.
  unfold destroyed in Hd.
  assert (Hq : grab_worker_quit g' = grab_worker_quit (ctx s)) by tauto.
  clear Hd. revert Hq.
  destruct s as [u g d0 d1 w ww rd wr st ws ev it off dr del pl].
  destruct w as [p i sn tb ts te sb er fis]. ssimpl. auto.
Qed.

Ltac open_all s :=
  let w := fresh "w" in
  destruct s as [u g d0 d1 w ww rd wr st ws ev it off dr del pl];
  destruct w as [p i sn tb ts te sb er fis]; ssimpl.

Lemma same_stamp_end s : same_stamp s (worker_end s).
Proof. unfold same_stamp. pose proof (worker_end_stamp s). tauto. Qed.

(** What one transition does to the iterations begun, to [time_end] and
    to the quit flag, against [stamps]. *)
Lemma step_stamps l s s' tr :
  step l s = Some s' ->
  exists t c,
    rev (iters s) ++ stamps (l_time_end (wk s)) (grab_worker_quit (ctx s)) (l :: tr) =
    rev (iters s') ++ stamps t c tr /\
    (pc (wk s') <> WExited ->
     t = l_time_end (wk s') /\ c = grab_worker_quit (ctx s')).
Proof.
  assert (Same : forall s1,
            same_stamp s s1 ->
            forall tr0, stamps (l_time_end (wk s)) (grab_worker_quit (ctx s)) tr0 =
                        stamps (l_time_end (wk s1)) (grab_worker_quit (ctx s1)) tr0 /\
                        rev (iters s) = rev (iters s1)).
  { intros s1 (H1 & H2 & H3) tr0. rewrite H1, H2, H3. auto. }
  assert (Quiet : forall s1, same_stamp s s1 ->
            exists t c,
              rev (iters s) ++ stamps (l_time_end (wk s)) (grab_worker_quit (ctx s)) tr =
              rev (iters s1) ++ stamps t c tr /\
              (pc (wk s1) <> WExited ->
               t = l_time_end (wk s1) /\ c = grab_worker_quit (ctx s1))).
  { intros s1 H. destruct (Same s1 H tr) as [E1 E2].
    exists (l_time_end (wk s1)), (grab_worker_quit (ctx s1)).
    rewrite E1, E2. auto. }
  destruct l; cbn [step stamps].
  - destruct (starter s); try discriminate. intros [= <-]. apply Quiet.
    unfold worker_start_create, same_stamp. open_all s. destruct created; auto.
  - destruct (starter s); try discriminate. intros [= <-]. apply Quiet.
    unfold worker_start_lock, same_stamp. open_all s.
    destruct (negb (error_code g =? 0)); auto.
  - destruct (starter s); try discriminate.
    destruct (woken_s s); try discriminate. intros [= <-]. apply Quiet.
    unfold worker_start_resume, same_stamp. open_all s. auto.
  - destruct (is_wpc (pc (wk s)) WInit); try discriminate. intros [= <-].
    unfold worker_init.
    pose proof (gdigrab_dc_init_spec W (url s) (ctx s)) as Hd. cbv zeta in Hd.
    destruct (gdigrab_dc_init W (url s) (ctx s)) as [[r g'] ev']. cbn [fst snd] in Hd.
    destruct Hd as (_ & _ & Hq & _).
    destruct (negb (r =? 0)).
    + exists now, (grab_worker_quit (ctx s)).
      destruct (worker_end_stamp (broadcast (log ev' (set_ctx g' s)))) as (Hp & _ & _ & Hi).
      rewrite Hi. split; [open_all s; reflexivity |].
      intros Hn. contradiction.
    + exists now, (grab_worker_quit (ctx s)). revert Hq. open_all s. auto.
  - destruct (is_wpc (pc (wk s)) WLoop); try discriminate. intros [= <-].
    unfold worker_grab.
    destruct (grab_worker_quit (ctx s)) eqn:Eq.
    + destruct (Quiet _ (same_stamp_end s)) as (t & c & H1 & H2).
      exists t, c. auto.
    + cbv zeta. unfold paint_mouse_pointer.
      exists (l_time_end (wk s)), false. revert Eq. open_all s. intros Eq.
      destruct cursor_failed, r, i as [| i]; ssimpl;
        repeat match goal with
               | |- context [if ?b then _ else _] => destruct b; ssimpl
               end;
        cbn [rev]; rewrite <- app_assoc; cbn [app]; rewrite ?Eq; auto.
  - destruct (is_wpc (pc (wk s)) WGrabbed); try discriminate. intros [= <-].
    apply Quiet. unfold worker_lock, worker_hand_over. cbv zeta.
    destruct (negb _ && _).
    + match goal with |- same_stamp _ (worker_end ?x) =>
        pose proof (worker_end_stamp x) as (_ & H1 & H2 & H3) end.
      unfold same_stamp. rewrite H1, H2, H3. open_all s. auto.
    + destruct (grab_worker_quit (ctx s)); [apply same_stamp_end |].
      unfold same_stamp. destruct (frame_in_stock (ctx s)); open_all s; auto.
  - destruct (is_wpc (pc (wk s)) WWaitStock && woken_w s); try discriminate.
    intros [= <-]. apply Quiet. unfold worker_hand_over.
    destruct (frame_in_stock (ctx s)); [unfold same_stamp; open_all s; auto |].
    destruct (grab_worker_quit (ctx s)); [apply same_stamp_end |].
    unfold same_stamp; open_all s; auto.
  - destruct (is_wpc (pc (wk s)) WPace); try discriminate. intros [= <-].
    unfold worker_pace. exists time_end, (grab_worker_quit (ctx s)).
    open_all s. auto.
  - destruct (reader s); try discriminate. intros [= <-]. apply Quiet.
    unfold read_packet_enter, gdigrab_copy_frame, same_stamp.
    destruct (negb (error_code (ctx s) =? 0)); [open_all s; auto |].
    destruct (frame_in_stock (ctx s)).
    + destruct alloc_ok; cbn [negb]; [| open_all s; auto].
      destruct (biBitCount (bmi (ctx s)) <=? 8); open_all s; auto.
    + destruct nonblock; open_all s; auto.
  - destruct (reader s); try discriminate.
    destruct (woken_r s); try discriminate. intros [= <-]. apply Quiet.
    unfold read_packet_resume, gdigrab_copy_frame, same_stamp.
    destruct (frame_in_stock (ctx s)).
    + destruct alloc_ok; cbn [negb]; [| open_all s; auto].
      destruct (biBitCount (bmi (ctx s)) <=? 8); open_all s; auto.
    + open_all s; auto.
  - intros [= <-]. unfold gdigrab_read_close.
    exists (l_time_end (wk s)), true. open_all s. auto.
Qed.

(** Once the worker has left, no trace that can be run begins another
    iteration. *)
Lemma exited_stamps tr : forall s s',
  Inv s -> pc (wk s) = WExited -> run tr s = Some s' ->
  iters s' = iters s /\ forall t c, stamps t c tr = [].
Proof.
  induction tr as [| l tr IH]; intros s s' HI Hpc; cbn [run].
  - intros [= <-]. auto.
  - destruct (step l s) as [s1 |] eqn:E; [| discriminate]. intros Hr.
    assert (H1 : pc (wk s1) = WExited /\ iters s1 = iters s /\
                 forall t c, exists t' c', stamps t c (l :: tr) = stamps t' c' tr).
    { revert E. destruct l; cbn [step stamps]; rewrite ?Hpc; cbn [is_wpc andb];
        try discriminate.
      - destruct (starter s) eqn:Es; try discriminate.
        destruct HI as (_ & _ & H3 & _). rewrite Es in H3. congruence.
      - destruct (starter s); try discriminate. intros [= <-].
        unfold worker_start_lock. revert Hpc. clear. open_all s. intros ->.
        destruct (negb (error_code g =? 0)); ssimpl; eauto.
      - destruct (starter s); try discriminate.
        destruct (woken_s s); try discriminate. intros [= <-].
        unfold worker_start_resume. revert Hpc. clear. open_all s. intros ->. eauto.
      - destruct (reader s); try discriminate. intros [= <-].
        unfold read_packet_enter, gdigrab_copy_frame.
        destruct (negb (error_code (ctx s) =? 0));
          [revert Hpc; clear; open_all s; intros ->; eauto |].
        destruct (frame_in_stock (ctx s)).
        + destruct alloc_ok; cbn [negb];
            [destruct (biBitCount (bmi (ctx s)) <=? 8) |];
            revert Hpc; clear; open_all s; intros ->; eauto.
        + destruct nonblock; revert Hpc; clear; open_all s; intros ->; eauto.
      - destruct (reader s); try discriminate.
        destruct (woken_r s); try discriminate. intros [= <-].
        unfold read_packet_resume, gdigrab_copy_frame.
        destruct (frame_in_stock (ctx s)).
        + destruct alloc_ok; cbn [negb];
            [destruct (biBitCount (bmi (ctx s)) <=? 8) |];
            revert Hpc; clear; open_all s; intros ->; eauto.
        + revert Hpc; clear; open_all s; intros ->; eauto.
      - intros [= <-]. unfold gdigrab_read_close. revert Hpc. clear.
        open_all s. intros ->. eauto. }
    destruct H1 as (Hp1 & Hi1 & Hst).
    destruct (IH s1 s' (step_Inv l s s1 HI E) Hp1 Hr) as [Hi Hs].
    split; [congruence |].
    intros t c. destruct (Hst t c) as (t' & c' & ->). apply Hs.
Qed.

Lemma run_stamps tr : forall s s',
  Inv s -> run tr s = Some s' ->
  rev (iters s') =
  rev (iters s) ++ stamps (l_time_end (wk s)) (grab_worker_quit (ctx s)) tr.
Proof.
  induction tr as [| l tr IH]; intros s s' HI; cbn [run].
  - intros [= <-]. cbn [stamps]. rewrite app_nil_r. reflexivity.
  - destruct (step l s) as [s1 |] eqn:E; [| discriminate]. intros Hr.
    pose proof (step_Inv l s s1 HI E) as HI1.
    destruct (step_stamps l s s1 tr E) as (t & c & Heq & Hst).
    rewrite Heq, (IH s1 s' HI1 Hr).
    destruct (pc (wk s1)) eqn:Hpc;
      try (destruct Hst as [-> ->]; [discriminate | reflexivity]).
    destruct (exited_stamps tr s1 s' HI1 Hpc Hr) as [_ Hnil].
    rewrite !Hnil. reflexivity.
Qed.

(** Where an entry of [stamps] comes from. *)
Lemma stamps_nth tr : forall last closed n t r,
  nth_error (stamps last closed tr) n = Some (t, r) ->
  exists pre cf post,
    tr = pre ++ WorkerGrab r cf :: post /\
    List.length (stamps last closed pre) = n /\
    t = time_end_after last pre.
Proof.
  induction tr as [| l tr IH]; intros last closed n t r; cbn [stamps].
  - destruct n; discriminate.
  - assert (Skip : forall last' closed',
              (forall pre, stamps last closed (l :: pre) = stamps last' closed' pre) ->
              (forall pre, time_end_after last (l :: pre) = time_end_after last' pre) ->
              nth_error (stamps last' closed' tr) n = Some (t, r) ->
              exists pre cf post,
                l :: tr = pre ++ WorkerGrab r cf :: post /\
                List.length (stamps last closed pre) = n /\
                t = time_end_after last pre).
    { intros last' closed' Hs Ht Hn.
      destruct (IH last' closed' n t r Hn) as (pre & cf & post & -> & Hl & ->).
      exists (l :: pre), cf, post. rewrite Hs, Ht. auto. }
    destruct l; try (apply Skip; intros; reflexivity).
    destruct closed; [apply Skip; intros; reflexivity |].
    destruct n as [| n]; cbn [nth_error].
    + intros [= <- <-]. exists [], cursor_failed, tr. auto.
    + intros Hn.
      destruct (IH last false n t r Hn) as (pre & cf & post & -> & Hl & ->).
      exists (WorkerGrab r0 cursor_failed :: pre), cf, post.
      cbn [stamps time_end_after List.length app]. auto.
Qed.

Lemma offered_stamped tr u o s f :
  run tr (init u o) = Some s -> In f (offered s) ->
  stamped_at_capture_start tr (f_pixels f) (f_time f).
Proof.
  intros Hr Hin.
  assert (HI : Inv s) by (apply (reachable_Inv u o); exists tr; exact Hr).
  destruct (offered_iteration s f HI Hin) as (n & r & Hp & Hit & Hok).
  unfold iteration in Hit.
  rewrite (run_stamps tr _ s (Inv_init u o) Hr) in Hit. cbn in Hit.
  destruct (stamps_nth tr 0 false n (f_time f) r Hit) as (pre & cf & post & Ht & Hl & Hs).
  exists n, pre, r, cf, post. unfold grabs_begun, capture_starts. auto.
Qed.

(** C7.  Along every trace that can be run from the initial state, a
    frame waiting in the slot and every delivered packet carry the pixels
    of one successful iteration [n] of the worker loop, and their time
    stamp ([time_frame], [pts]) is the value [time_end] has when the grab
    of that iteration begins ([time_start = time_end]): the last clock
    reading [time_end = av_gettime()] of the trace before that grab --
    taken before the loop for the first iteration, at the end of the
    pacing block of the iteration before for the others.  The reading
    precedes the blit; no reading taken and nothing that happens from the
    grab on -- the hand-over, a wait for the slot, the read -- enters the
    stamp.  The iterations recorded by the observer are those of the
    trace. *)
Theorem timestamp_is_capture_start tr u o s :
  run tr (init u o) = Some s ->
  (forall f, In f (pending s) ->
     stamped_at_capture_start tr (f_pixels f) (f_time f)) /\
  (forall p, In p (delivered s) ->
     stamped_at_capture_start tr (pixels p) (pts p)) /\
  rev (iters s) = capture_starts tr.
Proof.
  intros Hr.
  assert (HI : Inv s) by (apply (reachable_Inv u o); exists tr; exact Hr).
  destruct (Inv_account s HI) as [H1 _].
  split; [| split].
  - intros f Hf. apply (offered_stamped tr u o s f Hr).
    rewrite H1. apply in_or_app. right. apply in_or_app. left. exact Hf.
  - intros p Hp.
    apply (offered_stamped tr u o s (frame_of_packet p) Hr).
    rewrite H1. apply in_or_app. right. apply in_or_app. right.
    apply in_map. exact Hp.
  - rewrite (run_stamps tr _ s (Inv_init u o) Hr). reflexivity.
Qed.

Lemma frames_of_tags l :
  map f_pixels (frames_of l) = tags_of (map (fun x => grab_ok (snd x)) l).
Proof.
  induction l as [| [t r] l IH]; cbn [frames_of map tags_of snd]; [reflexivity |].
  destruct (grab_ok r); cbn [map f_pixels]; rewrite IH, ?length_map; reflexivity.
Qed.

Lemma map_tl {A B} (f : A -> B) l : map f (tl l) = tl (map f l).
Proof. destruct l; reflexivity. Qed.

Lemma first_ok_outcomes l :
  first_ok l <->
  match rev (map (fun x => grab_ok (snd x)) l) with
  | [] => True
  | b :: _ => b = true
  end.
Proof.
  unfold first_ok.
  induction l as [| [t r] l IH]; cbn [first_iter map rev snd]; [tauto |].
  destruct l as [| y l]; [cbn; tauto |].
  rewrite IH. cbn [map rev].
  destruct (rev (map (fun x => grab_ok (snd x)) l) ++ [grab_ok (snd y)]) eqn:E.
  - destruct (rev (map (fun x => grab_ok (snd x)) l)); discriminate E.
  - cbn [app]. tauto.
Qed.

(** What the invariant says about the end of the worker. *)
Lemma Inv_exit s :
  Inv s ->
  (pc (wk s) <> WExited -> error_code (ctx s) = 0) /\
  (pc (wk s) = WExited ->
   (error_code (ctx s) = 0 /\ grab_worker_quit (ctx s) = true /\
    first_ok (iters s)) \/
   (error_code (ctx s) = AVERROR EIO /\
    (iters s = [] \/
     exists t r rest, iters s = (t, r) :: rest /\ grab_ok r = false /\
       int32 (Z.of_nat (List.length rest)) = 0 /\ first_ok rest /\
       offered s = frames_of rest))).
Proof.
  destruct s as [u g d0 d1 w ww rd wr st ws ev it off dr del pl].
  destruct w as [p i sn tb ts te sb er fis].
  unfold Inv, grabbed_inv. cbn [wk pc iters offered ctx dropped].
  intros (_ & _ & _ & H). destruct p; (split; [intros Hn | intros Hx; try discriminate Hx]).
  all: try tauto.
  all: destruct H as (t & r & rest & H); tauto.
Qed.

Lemma Inv_between_iterations s :
  Inv s -> pc (wk s) = WLoop \/ pc (wk s) = WPace ->
  offered s = frames_of (iters s) /\ dropped s = [].
Proof.
  destruct s as [u g d0 d1 w ww rd wr st ws ev it off dr del pl].
  destruct w as [p i sn tb ts te sb er fis].
  unfold Inv, grabbed_inv. cbn [wk pc iters offered ctx dropped].
  intros (_ & _ & _ & H) [-> | ->].
  - tauto.
  - destruct H as (t & r & rest & H). tauto.
Qed.

(** C3 (as amended).  In a reachable state whose worker has begun ten
    iterations of which only the fifth failed to grab: no error code is
    recorded; the worker has not left unless it was told to quit; at most
    nine packets were delivered; and once the worker is between two
    iterations and the slot is empty, exactly the nine frames of the
    iterations 0-3 and 5-9 were delivered, in this order. *)
Theorem fifth_failure_is_absorbed u o s :
  reachable u o s -> outcomes s = fifth_of_ten_fails ->
  error_code (ctx s) = 0 /\
  (pc (wk s) = WExited -> grab_worker_quit (ctx s) = true) /\
  (List.length (delivered s) <= 9)%nat /\
  (pc (wk s) = WLoop \/ pc (wk s) = WPace ->
   frame_in_stock (ctx s) = None ->
   rev (map pixels (delivered s)) =
   [Some 0; Some 1; Some 2; Some 3; Some 5; Some 6; Some 7; Some 8; Some 9]%nat).
Proof.
  intros R Ho. pose proof (reachable_Inv u o s R) as HI.
  destruct (Inv_exit s HI) as [Hrun Hexit].
  destruct (Inv_account s HI) as [H1 H2].
  assert (Hx : pc (wk s) = WExited ->
               error_code (ctx s) = 0 /\ grab_worker_quit (ctx s) = true).
  { intros Hpc. destruct (Hexit Hpc) as [(He & Hq & _) | (_ & [Hn | Hf])].
    - split; assumption.
    - unfold outcomes in Ho. rewrite Hn in Ho. discriminate Ho.
    - destruct Hf as (t & r & rest & E & Hr & _).
      unfold outcomes in Ho. rewrite E in Ho. cbn [map snd] in Ho.
      rewrite Hr in Ho. discriminate Ho. }
  split; [| split; [| split]].
  - destruct (pc (wk s)) eqn:Hpc; try (apply Hrun; discriminate).
    apply Hx. reflexivity.
  - intros Hpc. apply Hx. exact Hpc.
  - assert (Hlen : (List.length (offered s) <= 9)%nat).
    { rewrite <- (length_map f_pixels).
      destruct (Inv_offered s HI) as [-> | ->]; rewrite frames_of_tags.
      - fold (outcomes s). rewrite Ho. cbn. lia.
      - rewrite map_tl. fold (outcomes s). rewrite Ho. cbn. lia. }
    rewrite H1, !length_app, length_map in Hlen. lia.
  - intros Hpc Hslot.
    destruct (Inv_between_iterations s HI Hpc) as [Hoff Hdr].
    unfold pending in H1. rewrite Hslot, Hdr in H1. cbn [app] in H1.
    assert (E : map pixels (delivered s) = map f_pixels (offered s)).
    { rewrite H1, map_map. reflexivity. }
    rewrite E, Hoff, frames_of_tags. fold (outcomes s). rewrite Ho. reflexivity.
Qed.

Lemma fifth_failure_is_absorbed_witness :
  let s := after ten_with_fifth_failing "desktop" defaults in
  reachable "desktop" defaults s /\ outcomes s = fifth_of_ten_fails /\
  error_code (ctx s) = 0 /\
  (pc (wk s) = WExited -> grab_worker_quit (ctx s) = true) /\
  (List.length (delivered s) <= 9)%nat /\
  (pc (wk s) = WLoop \/ pc (wk s) = WPace ->
   frame_in_stock (ctx s) = None ->
   rev (map pixels (delivered s)) =
   [Some 0; Some 1; Some 2; Some 3; Some 5; Some 6; Some 7; Some 8; Some 9]%nat).
Proof.
  cbv zeta.
  assert (R : reachable "desktop" defaults
                (after ten_with_fifth_failing "desktop" defaults))
    by (exists ten_with_fifth_failing; vm_compute; reflexivity).
  split; [exact R |]. split; [vm_compute; reflexivity |].
  apply (fifth_failure_is_absorbed "desktop" defaults _ R).
  vm_compute; reflexivity.
Defined.

(** With a reader already waiting, the hand-over of the failed fifth
    iteration wakes it with an empty slot, and its call returns
    [AVERROR(EIO)]; the nine other calls return the packet size. *)
Lemma fifth_failure_reaches_the_reader :
  let s := after ten_with_reader_waiting "desktop" defaults in
  reachable "desktop" defaults s /\ outcomes s = fifth_of_ten_fails /\
  rev (pulls s) =
    [6220854; 6220854; 6220854; 6220854; AVERROR EIO;
     6220854; 6220854; 6220854; 6220854; 6220854] /\
  In (Log MsgNoCapturedImage) (events s).
Proof.
  cbv zeta. split; [exists ten_with_reader_waiting; vm_compute; reflexivity |].
  split; [vm_compute; reflexivity |].
  split; [vm_compute; reflexivity |].
  vm_compute. tauto.
Qed.

Ltac open_sys s :=
  let w := fresh "w" in
  destruct s as [u g d0 d1 w ww rd wr st ws ev it off dr del pl];
  destruct w as [p i sn tb ts te sb er fis]; ssimpl.

Lemma worker_end_woken s :
  woken_r (worker_end s) = true /\ pc (wk (worker_end s)) = WExited.
Proof.
  unfold worker_end. destruct (gdigrab_dc_destroy (ctx s)) as [g' ev'].
  open_sys s. split; reflexivity.
Qed.

Lemma worker_hand_over_woken s :
  pc (wk (worker_hand_over s)) = WExited -> woken_r (worker_hand_over s) = true.
Proof.
  unfold worker_hand_over.
  destruct (frame_in_stock (ctx s)).
  - open_sys s. discriminate.
  - destruct (grab_worker_quit (ctx s)).
    + intros _. apply worker_end_woken.
    + open_sys s. discriminate.
Qed.

Lemma worker_lock_woken s :
  pc (wk (worker_lock s)) = WExited -> woken_r (worker_lock s) = true.
Proof.
  unfold worker_lock. cbv zeta.
  destruct (negb (l_error (wk s) =? 0) && (l_sn (wk s) =? 0)).
  - intros _. apply worker_end_woken.
  - destruct (grab_worker_quit (ctx s)).
    + intros _. apply worker_end_woken.
    + apply worker_hand_over_woken.
Qed.

Lemma worker_init_woken W now s :
  pc (wk (worker_init W now s)) = WExited -> woken_r (worker_init W now s) = true.
Proof.
  unfold worker_init. destruct (gdigrab_dc_init W (url s) (ctx s)) as [[r g'] ev'].
  destruct (negb (r =? 0)).
  - intros _. apply worker_end_woken.
  - open_sys s. discriminate.
Qed.

Lemma worker_grab_woken r cf s :
  pc (wk (worker_grab r cf s)) = WExited -> woken_r (worker_grab r cf s) = true.
Proof.
  unfold worker_grab.
  destruct (grab_worker_quit (ctx s)).
  - intros _. apply worker_end_woken.
  - cbv zeta. unfold paint_mouse_pointer. open_sys s.
    destruct r; ssimpl; discriminate.
Qed.

Lemma step_Wakeful l s s' : Inv s -> Wakeful s -> step l s = Some s' -> Wakeful s'.
Proof.
  intros HI HW. unfold Wakeful in *. destruct l; cbn [step].
  - destruct (starter s) eqn:E; try discriminate. intros [= <-].
    destruct HI as (_ & _ & H3 & _). rewrite E in H3. revert H3.
    unfold worker_start_create. open_sys s. intros ->.
    destruct created; ssimpl; discriminate.
  - destruct (starter s) eqn:E; try discriminate. intros [= <-].
    revert HW. unfold worker_start_lock. open_sys s.
    destruct (negb (error_code g =? 0)); ssimpl; auto.
  - destruct (starter s) eqn:E; try discriminate.
    destruct (woken_s s); try discriminate. intros [= <-].
    revert HW. unfold worker_start_resume. open_sys s. auto.
  - destruct (is_wpc (pc (wk s)) WInit); try discriminate. intros [= <-].
    intros Hpc _ _. apply worker_init_woken. exact Hpc.
  - destruct (is_wpc (pc (wk s)) WLoop); try discriminate. intros [= <-].
    intros Hpc _ _. apply worker_grab_woken. exact Hpc.
  - destruct (is_wpc (pc (wk s)) WGrabbed); try discriminate. intros [= <-].
    intros Hpc _ _. apply worker_lock_woken. exact Hpc.
  - destruct (is_wpc (pc (wk s)) WWaitStock && woken_w s); try discriminate.
    intros [= <-]. intros Hpc _ _. apply worker_hand_over_woken. exact Hpc.
  - destruct (is_wpc (pc (wk s)) WPace); try discriminate. intros [= <-].
    unfold worker_pace. open_sys s. discriminate.
  - destruct (reader s) eqn:E; try discriminate. intros [= <-].
    unfold read_packet_enter.
    destruct (negb (error_code (ctx s) =? 0)) eqn:Herr.
    + open_sys s. discriminate.
    + destruct (frame_in_stock (ctx s)).
      * destruct (gdigrab_copy_frame alloc_ok s) as [[r o'] s1].
        open_sys s1. discriminate.
      * destruct nonblock.
        -- open_sys s. discriminate.
        -- apply negb_false_iff in Herr. apply Z.eqb_eq in Herr.
           revert Herr. open_sys s. intros Herr _ Hne. contradiction.
  - destruct (reader s) eqn:E; try discriminate.
    destruct (woken_r s); try discriminate. intros [= <-].
    unfold read_packet_resume.
    destruct (frame_in_stock (ctx s)).
    + destruct (gdigrab_copy_frame alloc_ok s) as [[r o'] s1].
      open_sys s1. discriminate.
    + open_sys s. discriminate.
  - intros [= <-]. unfold gdigrab_read_close. open_sys s. reflexivity.
Qed.

Lemma reachable_Wakeful u o s : reachable u o s -> Wakeful s.
Proof.
  intros [tr H].
  assert (G : forall tr s0 s1, Inv s0 -> Wakeful s0 -> run tr s0 = Some s1 -> Wakeful s1).
  { clear. induction tr as [| l tr IH]; intros s0 s1 HI HW; cbn [run].
    - intros [= <-]. exact HW.
    - destruct (step l s0) as [s2 |] eqn:E; [| discriminate].
      apply IH; [exact (step_Inv l s0 s2 HI E) | exact (step_Wakeful l s0 s2 HI HW E)]. }
  apply (G tr _ _ (Inv_init u o)); [| exact H].
  unfold Wakeful. cbn. discriminate.
Qed.

Lemma first_iter_cons x l : l <> [] -> first_iter (x :: l) = first_iter l.
Proof. destruct l; [congruence | reflexivity]. Qed.

Lemma first_ok_fails l t r :
  first_ok l -> first_iter l = Some (t, r) -> grab_ok r = false -> False.
Proof. unfold first_ok. intros H E Hr. rewrite E in H. congruence. Qed.

(** The states in which the first grab failed. *)
Lemma Inv_first_failed s t r :
  Inv s -> first_iter (iters s) = Some (t, r) -> grab_ok r = false ->
  iters s = [(t, r)] /\ offered s = [] /\
  ((pc (wk s) = WGrabbed /\ error_code (ctx s) = 0) \/
   (pc (wk s) = WExited /\ error_code (ctx s) = AVERROR EIO /\
    frame_in_stock (ctx s) = None)).
Proof.
  destruct s as [u g d0 d1 w ww rd wr st ws ev it off dr del pl].
  destruct w as [p i sn tb ts te sb er fis].
  unfold Inv, grabbed_inv. cbn [wk pc iters offered ctx dropped].
  intros (_ & _ & _ & H) Hf Hr.
  assert (Hone : forall t' r' rest, it = (t', r') :: rest -> first_ok rest ->
                 it = [(t, r)] /\ rest = []).
  { intros t' r' rest E Hok. subst it. destruct rest as [| y rest].
    - cbn in Hf. injection Hf as -> ->. split; reflexivity.
    - rewrite first_iter_cons in Hf by discriminate.
      exfalso. exact (first_ok_fails _ t r Hok Hf Hr). }
  destruct p.
  - destruct H as (-> & _). discriminate Hf.
  - destruct H as (-> & _). discriminate Hf.
  - exfalso. apply (first_ok_fails it t r); tauto.
  - destruct H as (t' & r' & rest & E & _ & _ & Hec & Hok & Hoff & _).
    destruct (Hone t' r' rest E Hok) as [E1 E2]. subst rest.
    split; [exact E1 |]. split; [exact Hoff |]. left. split; [reflexivity | exact Hec].
  - exfalso. destruct H as (t' & r' & rest & _ & _ & _ & _ & Hok & _).
    exact (first_ok_fails it t r Hok Hf Hr).
  - exfalso. destruct H as (t' & r' & rest & _ & _ & _ & _ & _ & _ & Hok & _).
    exact (first_ok_fails it t r Hok Hf Hr).
  - destruct H as (Hslot & _ & _ & [(_ & _ & Hok) | (Hec & [-> | Hx])]).
    + exfalso. exact (first_ok_fails it t r Hok Hf Hr).
    + discriminate Hf.
    + destruct Hx as (t' & r' & rest & E & _ & _ & Hok & Hoff).
      destruct (Hone t' r' rest E Hok) as [E1 E2]. subst rest.
      split; [exact E1 |]. split; [exact Hoff |]. right. tauto.
Qed.

(** C4 (as amended).  In every reachable state in which the first grab
    failed: there was no second iteration; no frame was handed over and no
    packet delivered; the worker is either still before its lock, with no
    error recorded, or has left with [error_code = AVERROR(EIO)].  Once it
    has left, a call of [gdigrab_read_packet] returns [AVERROR(EIO)]
    without waiting, and a call that was waiting has been woken and
    returns [AVERROR(EIO)].  [gdigrab_worker_start] returns the
    [error_code] it finds when it returns: 0 before the worker recorded the
    failure, [AVERROR(EIO)] after. *)
Theorem first_failure_is_fatal u o s t r :
  reachable u o s -> first_iter (iters s) = Some (t, r) -> grab_ok r = false ->
  iters s = [(t, r)] /\ offered s = [] /\ delivered s = [] /\
  ((pc (wk s) = WGrabbed /\ error_code (ctx s) = 0) \/
   (pc (wk s) = WExited /\ error_code (ctx s) = AVERROR EIO)) /\
  (pc (wk s) = WExited ->
   (forall nonblock alloc_ok s',
      step (Pull nonblock alloc_ok) s = Some s' ->
      pulls s' = AVERROR EIO :: pulls s /\ reader s' = RIdle /\
      delivered s' = []) /\
   (reader s = RWait ->
    forall alloc_ok, exists s',
      step (PullWake alloc_ok) s = Some s' /\
      pulls s' = AVERROR EIO :: pulls s /\ reader s' = RIdle /\
      delivered s' = [])) /\
  (forall l s' ret,
     l = StartLock \/ l = StartWake -> step l s = Some s' ->
     starter s' = SReturned ret -> ret = error_code (ctx s)).
Proof.
  intros R Hf Hr.
  pose proof (reachable_Inv u o s R) as HI.
  pose proof (reachable_Wakeful u o s R) as HW.
  destruct (Inv_first_failed s t r HI Hf Hr) as (Hit & Hoff & Hpc).
  destruct (Inv_account s HI) as [H1 _].
  assert (Hdel : delivered s = []).
  { rewrite Hoff in H1. symmetry in H1.
    apply app_eq_nil in H1. destruct H1 as [_ H1].
    apply app_eq_nil in H1. destruct H1 as [_ H1].
    destruct (delivered s); [reflexivity | discriminate H1]. }
  split; [exact Hit |]. split; [exact Hoff |]. split; [exact Hdel |].
  split; [tauto |]. split.
  - intros Hx. destruct Hpc as [[Hg _] | (_ & Hec & Hslot)]; [congruence |].
    split.
    + intros nb a s'. cbn [step]. destruct (reader s) eqn:Hrd; [| discriminate].
      intros [= <-]. unfold read_packet_enter. rewrite Hec.
      change (negb (AVERROR EIO =? 0)) with true. cbv iota.
      revert Hdel. clear. destruct s. cbn. intros ->. repeat split.
    + intros Hrd a. cbn [step]. rewrite Hrd.
      rewrite (HW Hx) by (rewrite ?Hec; try discriminate; assumption).
      eexists. split; [reflexivity |].
      unfold read_packet_resume. rewrite Hslot.
      revert Hdel. clear. destruct s. cbn. intros ->. repeat split.
  - intros l s' ret [-> | ->]; cbn [step].
    + destruct (starter s); try discriminate. intros [= <-].
      unfold worker_start_lock.
      destruct (negb (error_code (ctx s) =? 0)) eqn:E.
      * clear. destruct s. cbn. intros [= <-]. reflexivity.
      * clear. destruct s. cbn. discriminate.
    + destruct (starter s); try discriminate.
      destruct (woken_s s); try discriminate. intros [= <-].
      unfold worker_start_resume. clear. destruct s. cbn. intros [= <-]. reflexivity.
Qed.

Lemma first_failure_is_fatal_witness :
  let s := after first_grab_fails_early "desktop" defaults in
  reachable "desktop" defaults s /\
  first_iter (iters s) = Some (1000, SelectObjectFailed) /\
  grab_ok SelectObjectFailed = false /\
  iters s = [(1000, SelectObjectFailed)] /\ offered s = [] /\ delivered s = [] /\
  ((pc (wk s) = WGrabbed /\ error_code (ctx s) = 0) \/
   (pc (wk s) = WExited /\ error_code (ctx s) = AVERROR EIO)) /\
  (pc (wk s) = WExited ->
   (forall nonblock alloc_ok s',
      step (Pull nonblock alloc_ok) s = Some s' ->
      pulls s' = AVERROR EIO :: pulls s /\ reader s' = RIdle /\
      delivered s' = []) /\
   (reader s = RWait ->
    forall alloc_ok, exists s',
      step (PullWake alloc_ok) s = Some s' /\
      pulls s' = AVERROR EIO :: pulls s /\ reader s' = RIdle /\
      delivered s' = [])) /\
  (forall l s' ret,
     l = StartLock \/ l = StartWake -> step l s = Some s' ->
     starter s' = SReturned ret -> ret = error_code (ctx s)).
Proof.
  cbv zeta.
  assert (R : reachable "desktop" defaults
                (after first_grab_fails_early "desktop" defaults))
    by (exists first_grab_fails_early; vm_compute; reflexivity).
  split; [exact R |]. split; [vm_compute; reflexivity |].
  split; [reflexivity |].
  apply (first_failure_is_fatal "desktop" defaults _ 1000 SelectObjectFailed R);
    vm_compute; reflexivity.
Defined.

(** [gdigrab_dc_init] succeeds, the first grab fails, and the worker
    records the failure before the starting thread gets to read
    [error_code]: [gdigrab_worker_start] returns [AVERROR(EIO)]. *)
Lemma start_can_return_the_first_failure :
  let s := after first_grab_fails_early "desktop" defaults in
  reachable "desktop" defaults s /\
  In (Call (CallCreateDIBSection 1)) (events s) /\
  iters s = [(1000, SelectObjectFailed)] /\
  starter s = SReturned (AVERROR EIO).
Proof.
  cbv zeta. split; [exists first_grab_fails_early; vm_compute; reflexivity |].
  split; [vm_compute; tauto |]. split; vm_compute; reflexivity.
Qed.

Lemma slot_holds_at_most_one_witness :
  let s := after ten_with_fifth_failing "desktop" defaults in
  reachable "desktop" defaults s /\
  offered s = dropped s ++ pending s ++ map frame_of_packet (delivered s) /\
  (List.length (pending s) <= 1)%nat /\
  (List.length (offered s) <= List.length (delivered s) + 1)%nat /\
  NoDup (map f_pixels (offered s)) /\
  NoDup (map pixels (delivered s)).
Proof.
  cbv zeta.
  assert (R : reachable "desktop" defaults
                (after ten_with_fifth_failing "desktop" defaults))
    by (exists ten_with_fifth_failing; vm_compute; reflexivity).
  split; [exact R |].
  apply (slot_holds_at_most_one "desktop" defaults _ R).
Defined.

Lemma timestamp_is_capture_start_witness :
  let tr := ten_with_reader_waiting in
  let s := after tr "desktop" defaults in
  (forall f, In f (pending s) ->
     stamped_at_capture_start tr (f_pixels f) (f_time f)) /\
  (forall p, In p (delivered s) ->
     stamped_at_capture_start tr (pixels p) (pts p)) /\
  rev (iters s) = capture_starts tr.
Proof.
  cbv zeta.
  apply (timestamp_is_capture_start ten_with_reader_waiting "desktop" defaults).
  vm_compute. reflexivity.
Defined.

(** The first two packets of that run: the first is stamped with the
    reading taken before the loop (1000), the second with the [time_end]
    of the first pacing block (2010) -- not with the reading taken right
    after the hand-over (2000, 3000). *)
Example first_stamps :
  map pts (rev (delivered (after two_iterations_read "desktop" defaults))) =
  [1000; 2010].
Proof. vm_compute. reflexivity. Qed.

(** ** Closing the device *)

Lemma blocked_step l s s' :
  pc (wk s) = WWaitStock -> frame_in_stock (ctx s) <> None ->
  starter s <> SNotCalled -> is_reader_step l = false ->
  step l s = Some s' ->
  pc (wk s') = WWaitStock /\ frame_in_stock (ctx s') = frame_in_stock (ctx s) /\
  starter s' <> SNotCalled /\
  hbmp0 (ctx s') = hbmp0 (ctx s) /\ hbmp1 (ctx s') = hbmp1 (ctx s) /\
  source_hdc (ctx s') = source_hdc (ctx s) /\ dest_hdc (ctx s') = dest_hdc (ctx s) /\
  events s' = events s.
Proof.
  intros Hpc Hslot Hst Hl. destruct l; try discriminate Hl; cbn [step]; rewrite ?Hpc; cbn [is_wpc andb].
  all: try discriminate.
  - destruct (starter s) eqn:E; try discriminate. congruence.
  - destruct (starter s) eqn:E; try discriminate. intros [= <-].
    unfold worker_start_lock. revert Hpc Hslot. clear.
    destruct (negb (error_code (ctx s) =? 0)); open_sys s; intros -> H;
      repeat split; auto; discriminate.
  - destruct (starter s) eqn:E; try discriminate.
    destruct (woken_s s); try discriminate. intros [= <-].
    unfold worker_start_resume. revert Hpc Hslot. clear.
    open_sys s; intros -> H; repeat split; auto; discriminate.
  - destruct (woken_w s); try discriminate. intros [= <-].
    unfold worker_hand_over.
    destruct (frame_in_stock (ctx s)) eqn:E; [| congruence].
    revert Hpc Hst E. clear. open_sys s. intros -> Hst E. repeat split; auto.
  - intros [= <-]. unfold gdigrab_read_close.
    revert Hpc Hst. clear. open_sys s. intros -> Hst. repeat split; auto.
Qed.

(** C5, on the code.  A worker that waits for the slot to drain stays in
    its [while (gdigrab->frame_in_stock)] loop whatever happens -- quit
    requests and wake-ups included -- as long as [gdigrab_read_packet] is
    not called: it never reaches the test of [grab_worker_quit], the frame
    stays in the slot, and nothing is released. *)
Theorem blocked_worker_ignores_quit tr : forall s s',
  pc (wk s) = WWaitStock -> frame_in_stock (ctx s) <> None ->
  starter s <> SNotCalled ->
  forallb (fun l => negb (is_reader_step l)) tr = true ->
  run tr s = Some s' ->
  pc (wk s') = WWaitStock /\ frame_in_stock (ctx s') = frame_in_stock (ctx s) /\
  hbmp0 (ctx s') = hbmp0 (ctx s) /\ hbmp1 (ctx s') = hbmp1 (ctx s) /\
  source_hdc (ctx s') = source_hdc (ctx s) /\ dest_hdc (ctx s') = dest_hdc (ctx s) /\
  events s' = events s.
Proof.
  induction tr as [| l tr IH]; intros s s' Hpc Hslot Hst Htr; cbn [run].
  - intros [= <-]. split; [exact Hpc | repeat split].
  - cbn [forallb] in Htr. apply andb_true_iff in Htr. destruct Htr as [Hl Htr].
    apply negb_true_iff in Hl.
    destruct (step l s) as [s1 |] eqn:E; [| discriminate]. intros Hrun.
    destruct (blocked_step l s s1 Hpc Hslot Hst Hl E)
      as (Hpc1 & Hslot1 & Hst1 & Ha & Hb & Hc & Hd & He).
    assert (Hs : frame_in_stock (ctx s1) <> None) by congruence.
    destruct (IH s1 s' Hpc1 Hs Hst1 Htr Hrun) as (G1 & G2 & G3 & G4 & G5 & G6 & G7).
    repeat split; congruence.
Qed.

Lemma blocked_worker_ignores_quit_witness :
  let s := after close_with_frame_in_stock "desktop" defaults in
  let tr := [Close; WorkerWake; Close; WorkerWake] in
  let s' := after (close_with_frame_in_stock ++ tr) "desktop" defaults in
  pc (wk s) = WWaitStock /\ frame_in_stock (ctx s) <> None /\
  starter s <> SNotCalled /\
  forallb (fun l => negb (is_reader_step l)) tr = true /\
  run tr s = Some s' /\
  grab_worker_quit (ctx s') = true /\
  pc (wk s') = WWaitStock /\ frame_in_stock (ctx s') = frame_in_stock (ctx s) /\
  hbmp0 (ctx s') = hbmp0 (ctx s) /\ hbmp1 (ctx s') = hbmp1 (ctx s) /\
  source_hdc (ctx s') = source_hdc (ctx s) /\ dest_hdc (ctx s') = dest_hdc (ctx s) /\
  events s' = events s.
Proof.
  cbv zeta.
  assert (E : run [Close; WorkerWake; Close; WorkerWake]
                (after close_with_frame_in_stock "desktop" defaults) =
              Some (after (close_with_frame_in_stock ++ [Close; WorkerWake; Close; WorkerWake])
                      "desktop" defaults))
    by (vm_compute; reflexivity).
  split; [vm_compute; reflexivity |]. split; [vm_compute; discriminate |].
  split; [vm_compute; discriminate |]. split; [reflexivity |].
  split; [exact E |]. split; [vm_compute; reflexivity |].
  apply (blocked_worker_ignores_quit [Close; WorkerWake; Close; WorkerWake] _ _);
    [vm_compute; reflexivity | vm_compute; discriminate | vm_compute; discriminate
    | reflexivity | exact E].
Defined.

Lemma worker_end_released s :
  pc (wk (worker_end s)) = WExited /\ released (ctx (worker_end s)).
Proof.
  unfold worker_end. pose proof (gdigrab_dc_destroy_spec (ctx s)) as Hd.
  destruct (gdigrab_dc_destroy (ctx s)) as [g' ev']. cbn [fst snd] in Hd.
  unfold destroyed in Hd. unfold released.
  revert Hd. open_sys s. intros Hd. tauto.
Qed.

(** C6 (as amended).  [gdigrab_read_close] returns 0 at once: it sets
    [grab_worker_quit], wakes whoever waits on the condition variable, and
    changes nothing else -- it does not wait for the worker and releases
    nothing; calling it again changes nothing.  The worker gives the
    bitmaps and device contexts back itself, in [gdigrab_dc_destroy] on its
    way out, when it next reads the flag at the loop test or after taking
    the lock. *)
Theorem read_close_only_requests_quit s :
  let s' := snd (gdigrab_read_close s) in
  fst (gdigrab_read_close s) = 0 /\
  ctx s' = set_grab_worker_quit true (ctx s) /\
  woken_w s' = true /\ woken_r s' = true /\ woken_s s' = true /\
  wk s' = wk s /\ reader s' = reader s /\ events s' = events s /\
  dib0 s' = dib0 s /\ dib1 s' = dib1 s /\
  gdigrab_read_close s' = (0, s') /\
  (forall r cf s'', pc (wk s) = WLoop ->
     step (WorkerGrab r cf) s' = Some s'' ->
     pc (wk s'') = WExited /\ released (ctx s'')) /\
  (forall s'', pc (wk s) = WGrabbed ->
     step WorkerLock s' = Some s'' ->
     pc (wk s'') = WExited /\ released (ctx s'')).
Proof.
  cbv zeta. unfold gdigrab_read_close. cbn [fst snd].
  split_all; try (destruct s; reflexivity).
  - intros r cf s'' Hpc. cbn [step].
    replace (pc (wk (broadcast (set_ctx (set_grab_worker_quit true (ctx s)) s))))
      with WLoop by (rewrite <- Hpc; destruct s; reflexivity).
    cbn [is_wpc]. intros [= <-]. unfold worker_grab.
    replace (grab_worker_quit (ctx (broadcast (set_ctx (set_grab_worker_quit true (ctx s)) s))))
      with true by (destruct s; reflexivity).
    apply worker_end_released.
  - intros s'' Hpc. cbn [step].
    replace (pc (wk (broadcast (set_ctx (set_grab_worker_quit true (ctx s)) s))))
      with WGrabbed by (rewrite <- Hpc; destruct s; reflexivity).
    cbn [is_wpc]. intros [= <-]. unfold worker_lock. cbv zeta.
    destruct (negb _ && _); [apply worker_end_released |].
    replace (grab_worker_quit (ctx (broadcast (set_ctx (set_grab_worker_quit true (ctx s)) s))))
      with true by (destruct s; reflexivity).
    apply worker_end_released.
Qed.

Lemma read_close_only_requests_quit_witness :
  let s := after close_during_grab "desktop" defaults in
  let s' := snd (gdigrab_read_close s) in
  pc (wk s) = WGrabbed /\
  fst (gdigrab_read_close s) = 0 /\
  ctx s' = set_grab_worker_quit true (ctx s) /\
  woken_w s' = true /\ woken_r s' = true /\ woken_s s' = true /\
  wk s' = wk s /\ reader s' = reader s /\ events s' = events s /\
  dib0 s' = dib0 s /\ dib1 s' = dib1 s /\
  gdigrab_read_close s' = (0, s') /\
  (forall r cf s'', pc (wk s) = WLoop ->
     step (WorkerGrab r cf) s' = Some s'' ->
     pc (wk s'') = WExited /\ released (ctx s'')) /\
  (forall s'', pc (wk s) = WGrabbed ->
     step WorkerLock s' = Some s'' ->
     pc (wk s'') = WExited /\ released (ctx s'')).
Proof.
  cbv zeta. split; [vm_compute; reflexivity |].
  apply (read_close_only_requests_quit (after close_during_grab "desktop" defaults)).
Defined.

(** The device is closed while the worker is between its blit and its
    lock: when [gdigrab_read_close] has returned, the worker has not left
    and holds both bitmaps and both device contexts; it releases them
    afterwards, with five more Win32 calls. *)
Lemma close_returns_before_the_worker_leaves :
  let s := after close_during_grab "desktop" defaults in
  let s' := snd (gdigrab_read_close s) in
  reachable "desktop" defaults s /\
  fst (gdigrab_read_close s) = 0 /\
  pc (wk s') = WGrabbed /\
  hbmp0 (ctx s') <> NULL /\ hbmp1 (ctx s') <> NULL /\
  source_hdc (ctx s') <> NULL /\ dest_hdc (ctx s') <> NULL /\
  exists s'', step WorkerLock s' = Some s'' /\
    events s'' = events s' ++
      [Call CallReleaseDC; Call (CallDeleteDC 88); Call (CallDeleteDC 77);
       Call (CallDeleteObject 0); Call (CallDeleteObject 1)].
Proof.
  cbv zeta. split; [exists close_during_grab; vm_compute; reflexivity |].
  split; [reflexivity |]. split; [vm_compute; reflexivity |].
  do 4 (split; [vm_compute; discriminate |]).
  eexists. split; vm_compute; reflexivity.
Qed.

(** ** More on gdigrab_dc_destroy and gdigrab_dc_init *)

Lemma dc_destroy_nothing_left g :
  hbmp0 g = NULL -> hbmp1 g = NULL -> source_hdc g = NULL ->
  dest_hdc g = NULL -> hwnd g = NULL -> frame_in_stock g = None ->
  (show_region g <> 0 -> region_hwnd g = NULL) ->
  gdigrab_dc_destroy g = (g, []).
Proof.
  destruct g as [fs hs tb tf dm sr fr w h ox oy hw sh dh bm h0 h1 b0 b1 cr rh cep q fis ec].
  gsimpl. intros -> -> -> -> -> -> Hr.
  unfold gdigrab_dc_destroy, dc_destroy, destroy_bitmap, gdigrab_region_wnd_destroy,
    bind, when, gets, modify, emit, ret.
  gsimpl.
  destruct (Z.eqb_spec sr 0) as [E | E]; cbn [negb].
  - reflexivity.
  - rewrite (Hr E). reflexivity.
Qed.

Lemma dc_destroy_region g :
  wp dc_destroy
    (fun _ g' _ => show_region g <> 0 -> region_hwnd g' = NULL)
    (fun _ _ _ => False) g.
Proof.
  unfold dc_destroy, destroy_bitmap, gdigrab_region_wnd_destroy.
  wp_run.
  all: gsimpl; tests; try reflexivity; intros; try reflexivity; contradiction.
Qed.

(** X1.  [gdigrab_dc_destroy] gives back exactly what the struct holds, in
    this order: the region window if [show_region] is set and there is
    one, the source DC ([ReleaseDC]), the destination DC, the source DC
    again ([DeleteDC]), and the two bitmaps -- each with one call, and no
    call for a handle that is [NULL].  Afterwards no bitmap, device
    context or window handle and no pending frame is left, and
    [region_hwnd] is [NULL] unless [show_region] is 0, in which case it is
    not touched.  A second call makes no Win32 call and leaves the struct
    as it is. *)
Theorem dc_destroy_idempotent g :
  let g' := fst (gdigrab_dc_destroy g) in
  let ev := snd (gdigrab_dc_destroy g) in
  ev =
    (if negb (show_region g =? 0) && negb (region_hwnd g =? NULL)
     then [Call CallDestroyWindow] else []) ++
    (if negb (source_hdc g =? NULL) then [Call CallReleaseDC] else []) ++
    (if negb (dest_hdc g =? NULL) then [Call (CallDeleteDC (dest_hdc g))] else []) ++
    (if negb (source_hdc g =? NULL) then [Call (CallDeleteDC (source_hdc g))] else []) ++
    (if negb (hbmp0 g =? NULL) then [Call (CallDeleteObject 0)] else []) ++
    (if negb (hbmp1 g =? NULL) then [Call (CallDeleteObject 1)] else []) /\
  released g' /\
  region_hwnd g' = (if show_region g =? 0 then region_hwnd g else NULL) /\
  gdigrab_dc_destroy g' = (g', []).
Proof.
  cbv zeta.
  assert (Hev : snd (gdigrab_dc_destroy g) =
    (if negb (show_region g =? 0) && negb (region_hwnd g =? NULL)
     then [Call CallDestroyWindow] else []) ++
    (if negb (source_hdc g =? NULL) then [Call CallReleaseDC] else []) ++
    (if negb (dest_hdc g =? NULL) then [Call (CallDeleteDC (dest_hdc g))] else []) ++
    (if negb (source_hdc g =? NULL) then [Call (CallDeleteDC (source_hdc g))] else []) ++
    (if negb (hbmp0 g =? NULL) then [Call (CallDeleteObject 0)] else []) ++
    (if negb (hbmp1 g =? NULL) then [Call (CallDeleteObject 1)] else []) /\
    region_hwnd (fst (gdigrab_dc_destroy g)) =
      (if show_region g =? 0 then region_hwnd g else NULL)).
  { destruct g as [fs hs tb tf dm sr fr w h ox oy hw sh dh bm h0 h1 b0 b1 cr rh cep q fis ec].
    unfold gdigrab_dc_destroy, dc_destroy, destroy_bitmap, gdigrab_region_wnd_destroy,
      bind, when, gets, modify, emit, ret.
    gsimpl.
    destruct (sr =? 0); cbn [negb andb]; gsimpl;
      destruct (rh =? NULL); cbn [negb andb]; gsimpl;
      destruct (sh =? NULL); cbn [negb andb]; gsimpl;
      destruct (dh =? NULL); cbn [negb andb]; gsimpl;
      destruct (h0 =? NULL); cbn [negb andb]; gsimpl;
      destruct (h1 =? NULL); cbn [negb andb]; gsimpl;
      split; reflexivity. }
  destruct Hev as [Hev Hrh]. split; [exact Hev |].
  pose proof (gdigrab_dc_destroy_spec g) as Hd.
  destruct (gdigrab_dc_destroy g) as [g' ev]. cbn [fst snd] in *.
  unfold destroyed in Hd.
  destruct Hd as (Hf & _ & _ & _ & H0 & H1 & Hs & Hdd & Hh & _ & _ & _ & _ & Hsr & _ & _ & _).
  split; [unfold released; tauto |]. split; [exact Hrh |].
  apply (dc_destroy_nothing_left g'); try assumption.
  intros Hn. rewrite Hrh. rewrite Hsr in Hn. apply Z.eqb_neq in Hn. rewrite Hn.
  reflexivity.
Qed.

(** X2.  Whatever [gdigrab_dc_init] returns is 0 or [AVERROR(EIO)] and is what
    it stores in [error_code]; when it is not 0, no bitmap and no device
    context is left in the struct, and no frame is pending. *)
Theorem dc_init_failure_is_clean W u g :
  let r := fst (fst (gdigrab_dc_init W u g)) in
  let g' := snd (fst (gdigrab_dc_init W u g)) in
  (r = 0 \/ r = AVERROR EIO) /\ error_code g' = r /\
  (r <> 0 ->
   hbmp0 g' = NULL /\ hbmp1 g' = NULL /\ source_hdc g' = NULL /\
   dest_hdc g' = NULL /\ frame_in_stock g' = None) /\
  (r = 0 ->
   hbmp0 g' <> NULL /\ hbmp1 g' <> NULL /\ source_hdc g' <> NULL /\
   dest_hdc g' <> NULL /\ buffer g' 0 = Some 0%nat /\ buffer g' 1 = Some 1%nat).
Proof.
  cbv zeta. pose proof (gdigrab_dc_init_spec W u g) as H. cbv zeta in H.
  destruct (gdigrab_dc_init W u g) as [[r g'] ev]. cbn [fst snd] in *.
  destruct H as (He & Hf & _ & _ & [(Hr & Hbuf & Hfmt) | (Hr & H0 & H1 & Hs & Hd & _)]).
  - split; [left; exact Hr |]. split; [exact He |]. split; [intros Hn; contradiction |].
    intros _. unfold format_probed in Hfmt. gsimpl. unfold buffers_ready in Hbuf. tauto.
  - split; [right; exact Hr |]. split; [exact He |]. split; [tauto |].
    intros H. rewrite Hr in H. discriminate H.
Qed.

Lemma dc_init_failure_is_clean_witness :
  let g' := snd (fst (gdigrab_dc_init desk "monitor" (priv_data defaults))) in
  hbmp0 g' = NULL /\ hbmp1 g' = NULL /\ source_hdc g' = NULL /\
  dest_hdc g' = NULL /\ frame_in_stock g' = None.
Proof.
  cbv zeta.
  destruct (dc_init_failure_is_clean desk "monitor" (priv_data defaults))
    as (_ & _ & H & _).
  apply H. vm_compute. discriminate.
Defined.

Lemma dc_init_no_target W u g :
  target W u = None ->
  exists g2 ev2 m,
    dc_init_body W u g = Goto_end (AVERROR EIO) g2 ev2 /\
    (m = MsgBadTarget \/ m = MsgCantFindWindow) /\
    (ev2 = [Log m] \/ ev2 = [Call CallFindWindow; Log m]).
Proof.
  unfold target, dc_init_body, resolve_target. intros Ht.
  destruct (prefix "title=" u).
  - destruct (FindWindow W (substring 6 (String.length u - 6) u) =? NULL) eqn:E;
      [| discriminate Ht].
    cbv [bind emit modify gets ret goto_end when].
    eexists. eexists. exists MsgCantFindWindow.
    split; [reflexivity |]. split; [right; reflexivity | right; reflexivity].
  - destruct (String.eqb u "desktop"); [discriminate Ht |].
    cbv [bind emit modify gets ret goto_end when negb].
    eexists. eexists. exists MsgBadTarget.
    split; [reflexivity |]. split; [left; reflexivity | left; reflexivity].
Qed.

(** X3.  A target that is neither ["desktop"] nor the title of an existing
    window makes [gdigrab_dc_init] fail with [AVERROR(EIO)] before it asks
    for a device context: the only Win32 calls are [FindWindow] and the
    releases of [gdigrab_dc_destroy], and the error is logged. *)
Theorem dc_init_unknown_target W u g :
  target W u = None ->
  let r := fst (fst (gdigrab_dc_init W u g)) in
  let ev := snd (gdigrab_dc_init W u g) in
  r = AVERROR EIO /\
  (In (Log MsgBadTarget) ev \/ In (Log MsgCantFindWindow) ev) /\
  ~ In (Call CallGetDC) ev /\
  forall c, In (Call c) ev -> c = CallFindWindow \/ is_release (Call c) = true.
Proof.
  intros Ht. cbv zeta.
  pose proof (gdigrab_dc_destroy_spec g) as Hd.
  unfold gdigrab_dc_init.
  destruct (gdigrab_dc_destroy g) as [g1 ev1]. cbn [fst snd] in Hd.
  destruct (dc_init_no_target W u g1 Ht) as (g2 & ev2 & m & Eb & Hm & Hev).
  rewrite Eb. change (AVERROR EIO =? 0) with false. cbv iota.
  pose proof (gdigrab_dc_destroy_spec g2) as Hd2.
  destruct (gdigrab_dc_destroy g2) as [g3 ev3]. cbn [fst snd] in Hd2 |- *.
  unfold destroyed in Hd, Hd2.
  assert (H1 : forallb is_release ev1 = true) by tauto.
  assert (H3 : forallb is_release ev3 = true) by tauto.
  clear Hd Hd2. rewrite forallb_forall in H1, H3.
  split; [reflexivity |]. split; [| split].
  - destruct Hm as [-> | ->]; [left | right];
      (apply in_or_app; right; apply in_or_app; left);
      destruct Hev as [-> | ->]; cbn; tauto.
  - intros Hin. apply in_app_or in Hin. destruct Hin as [Hin | Hin].
    + specialize (H1 _ Hin). discriminate H1.
    + apply in_app_or in Hin. destruct Hin as [Hin | Hin].
      * destruct Hev as [-> | ->]; cbn in Hin; intuition discriminate.
      * specialize (H3 _ Hin). discriminate H3.
  - intros c Hin. apply in_app_or in Hin. destruct Hin as [Hin | Hin].
    + right. exact (H1 _ Hin).
    + apply in_app_or in Hin. destruct Hin as [Hin | Hin].
      * left. destruct Hev as [-> | ->]; cbn in Hin; intuition congruence.
      * right. exact (H3 _ Hin).
Qed.

Lemma dc_init_unknown_target_witness :
  target desk "monitor" = None /\
  let r := fst (fst (gdigrab_dc_init desk "monitor" (priv_data defaults))) in
  let ev := snd (gdigrab_dc_init desk "monitor" (priv_data defaults)) in
  r = AVERROR EIO /\
  (In (Log MsgBadTarget) ev \/ In (Log MsgCantFindWindow) ev) /\
  ~ In (Call CallGetDC) ev /\
  forall c, In (Call c) ev -> c = CallFindWindow \/ is_release (Call c) = true.
Proof.
  split; [reflexivity |].
  apply (dc_init_unknown_target desk "monitor" (priv_data defaults)). reflexivity.
Defined.

Ltac esimpl :=
  cbn [app existsb orb is_cursor_log is_region_call is_region_warning negb] in *.

(** A second pass over the body, for the region window and the log. *)
Lemma dc_init_body_region W u g :
  wp (dc_init_body W u)
    (fun _ g' ev =>
       existsb is_cursor_log ev = false /\
       (prefix "title=" u = true ->
        show_region g' = 0 /\ existsb is_region_call ev = false /\
        existsb is_region_warning ev = negb (show_region g =? 0) /\
        region_hwnd g' = region_hwnd g) /\
       (prefix "title=" u = false ->
        show_region g' = show_region g /\
        existsb is_region_warning ev = false /\
        if show_region g =? 0
        then existsb is_region_call ev = false /\ region_hwnd g' = region_hwnd g
        else region_hwnd g' <> NULL /\ In (Call CallShowWindow) ev))
    (fun r g' ev =>
       existsb is_cursor_log ev = false /\
       region_hwnd g' = region_hwnd g /\
       (prefix "title=" u = true -> existsb is_region_call ev = false)) g.
Proof.
  unfold dc_init_body, resolve_target, create_dib, gdigrab_region_wnd_init.
  wp_run.
  all: gsimpl; esimpl.
  all: repeat match goal with
       | H : context [0 =? 0] |- _ => change (0 =? 0) with true in H; cbn [negb] in H
       end.
  all: try congruence.
  all: repeat match goal with |- _ /\ _ => split end.
  all: try reflexivity.
  all: try (intros; discriminate).
  all: try (intros _; use_tests; gsimpl; esimpl;
            repeat match goal with |- _ /\ _ => split end;
            try reflexivity; try (tests; assumption); try solve_In).
Qed.

Lemma release_no_region ev :
  forallb is_release ev = true ->
  existsb is_cursor_log ev = false /\ existsb is_region_call ev = false /\
  existsb is_region_warning ev = false.
Proof.
  induction ev as [| e ev IH]; cbn [forallb existsb]; [auto |].
  intros H. apply andb_true_iff in H. destruct H as [He H].
  destruct (IH H) as (-> & -> & ->).
  destruct e as [c | m]; [| discriminate He].
  destruct c; try discriminate He; auto.
Qed.

Lemma gdigrab_dc_init_region W u g :
  let r := fst (fst (gdigrab_dc_init W u g)) in
  let g' := snd (fst (gdigrab_dc_init W u g)) in
  let ev := snd (gdigrab_dc_init W u g) in
  existsb is_cursor_log ev = false /\
  (prefix "title=" u = true ->
   existsb is_region_call ev = false /\
   (r = 0 -> show_region g' = 0 /\
             existsb is_region_warning ev = negb (show_region g =? 0))) /\
  (prefix "title=" u = false -> r = 0 ->
   show_region g' = show_region g /\
   existsb is_region_warning ev = false /\
   if show_region g =? 0 then existsb is_region_call ev = false
   else region_hwnd g' <> NULL /\ In (Call CallShowWindow) ev).
Proof.
  cbv zeta.
  pose proof (gdigrab_dc_destroy_spec g) as Hd.
  unfold gdigrab_dc_init.
  destruct (gdigrab_dc_destroy g) as [g1 ev1]. cbn [fst snd] in Hd.
  unfold destroyed in Hd.
  assert (Hsr : show_region g1 = show_region g) by tauto.
  assert (Hrel : forallb is_release ev1 = true) by tauto.
  assert (Hhw : hwnd g1 = NULL) by tauto. clear Hd.
  destruct (release_no_region ev1 Hrel) as (C1 & R1 & W1).
  pose proof (dc_init_body_region W u g1) as Hb. unfold wp in Hb.
  pose proof (dc_init_body_spec W u g1 Hhw) as Hspec. unfold wp in Hspec.
  destruct (dc_init_body W u g1) as [r g2 ev2 | [] g2 ev2].
  - destruct Hb as (C2 & _ & Ht).
    pose proof (gdigrab_dc_destroy_spec g2) as Hd2.
    destruct (r =? 0) eqn:Er.
    + exfalso. destruct Hspec as (Hr & _). rewrite Hr in Er. discriminate Er.
    + destruct (gdigrab_dc_destroy g2) as [g3 ev3]. cbn [fst snd] in Hd2 |- *.
      unfold destroyed in Hd2.
      assert (Hrel3 : forallb is_release ev3 = true) by tauto. clear Hd2.
      destruct (release_no_region ev3 Hrel3) as (C3 & R3 & W3).
      apply Z.eqb_neq in Er.
      rewrite !existsb_app, C1, C2, C3, R1, R3. cbn [orb].
      split; [reflexivity |]. split.
      * intros Hp. rewrite (Ht Hp). split; [reflexivity |]. intros; contradiction.
      * intros; contradiction.
  - destruct Hb as (C2 & Ht & Hf). cbn [fst snd]. gsimpl.
    rewrite !existsb_app, C1, C2, R1, W1. cbn [orb]. rewrite <- Hsr.
    split; [reflexivity |]. split.
    + intros Hp. destruct (Ht Hp) as (A & B & C & _). rewrite B, C. auto.
    + intros Hp _. destruct (Hf Hp) as (A & B & C). split; [exact A |].
      split; [exact B |].
      destruct (show_region g1 =? 0); [tauto |].
      split; [tauto |]. apply in_or_app. right. tauto.
Qed.

Lemma existsb_false {A} (f : A -> bool) l :
  existsb f l = false <-> forall x, In x l -> f x = false.
Proof.
  induction l as [| a l IH]; cbn [existsb In]; [tauto |].
  rewrite orb_false_iff, IH. split.
  - intros [Ha Hl] x [<- | Hx]; auto.
  - intros H. split; [apply H; left; reflexivity | intros x Hx; apply H; right; exact Hx].
Qed.

Lemma existsb_warning_In ev :
  existsb is_region_warning ev = true <-> In (Log MsgCantShowRegion) ev.
Proof.
  rewrite existsb_exists. split.
  - intros [e [Hin He]]. destruct e as [c | m]; [discriminate |].
    destruct m; try discriminate. exact Hin.
  - intros H. eexists. split; [exact H | reflexivity].
Qed.

(** X4.  The region outline window belongs to desktop capture only.  For a
    ["title="] target [gdigrab_dc_init] never creates it and, when it
    succeeds, leaves [show_region] at 0, with a warning exactly if the
    option was set.  For the desktop a successful [gdigrab_dc_init] has
    created and shown the window if the option is set, and has made none
    of its calls if it is not. *)
Theorem region_window_only_for_desktop W u g :
  let r := fst (fst (gdigrab_dc_init W u g)) in
  let g' := snd (fst (gdigrab_dc_init W u g)) in
  let ev := snd (gdigrab_dc_init W u g) in
  (prefix "title=" u = true ->
   (forall e, In e ev -> is_region_call e = false) /\
   (r = 0 -> show_region g' = 0 /\
             (In (Log MsgCantShowRegion) ev <-> show_region g <> 0))) /\
  (prefix "title=" u = false -> r = 0 ->
   show_region g' = show_region g /\
   ~ In (Log MsgCantShowRegion) ev /\
   (show_region g <> 0 ->
    region_hwnd g' <> NULL /\ In (Call CallShowWindow) ev) /\
   (show_region g = 0 -> forall e, In e ev -> is_region_call e = false)).
Proof.
  cbv zeta. pose proof (gdigrab_dc_init_region W u g) as H. cbv zeta in H.
  destruct (gdigrab_dc_init W u g) as [[r g'] ev]. cbn [fst snd] in *.
  destruct H as (_ & Ht & Hd). split.
  - intros Hp. destruct (Ht Hp) as [Hc Hs]. split; [apply existsb_false; exact Hc |].
    intros Hr. destruct (Hs Hr) as [Hs1 Hs2]. split; [exact Hs1 |].
    rewrite <- existsb_warning_In, Hs2, negb_true_iff, Z.eqb_neq. tauto.
  - intros Hp Hr. destruct (Hd Hp Hr) as (Hs1 & Hs2 & Hs3).
    split; [exact Hs1 |]. split.
    + rewrite <- existsb_warning_In, Hs2. discriminate.
    + destruct (Z.eqb_spec (show_region g) 0) as [E | E].
      * split; [intros Hn; contradiction | intros _; apply existsb_false; exact Hs3].
      * split; [intros _; exact Hs3 | intros Hn; contradiction].
Qed.

Lemma int32_range x : in_int32 (int32 x).
Proof.
  unfold in_int32, int32, wrap.
  assert (0 <= (x + 2 ^ (32 - 1)) mod 2 ^ 32 < 2 ^ 32)
    by (apply Z.mod_pos_bound; lia).
  lia.
Qed.

(** X5.  What a successful [gdigrab_dc_init] has established.  The clip
    rectangle it stores is the whole target when no size was asked for
    (the offsets are then ignored), and otherwise starts at the offsets
    and ends at the 32-bit sums [width + offset_x], [height + offset_y].
    The stored rectangle has passed the four comparisons with the bounds
    of the target; when the two sums do not wrap around, the requested
    rectangle itself lies within the target, and the header has the
    requested width and, negated, the requested height.  The header
    describes a top-down bitmap of positive width, with a negative height;
    the depth is a multiple of 8. *)
Theorem dc_init_success_format W u g :
  fst (fst (gdigrab_dc_init W u g)) = 0 ->
  let g' := snd (fst (gdigrab_dc_init W u g)) in
  let v := virtual_rect_of W (hwnd g') (source_hdc g') in
  let clip := clip_rect g' in
  let bpp := GetDeviceCaps W (source_hdc g') BITSPIXEL in
  (width g = 0 \/ height g = 0 ->
   left clip = left v /\ top clip = top v /\
   right clip = right v /\ bottom clip = bottom v) /\
  (width g <> 0 -> height g <> 0 ->
   left clip = offset_x g /\ top clip = offset_y g /\
   right clip = int32 (width g + offset_x g) /\
   bottom clip = int32 (height g + offset_y g)) /\
  left v <= left clip /\ top v <= top clip /\
  right clip <= right v /\ bottom clip <= bottom v /\
  (width g <> 0 -> height g <> 0 ->
   in_int32 (width g) -> in_int32 (height g) ->
   in_int32 (width g + offset_x g) -> in_int32 (height g + offset_y g) ->
   left v <= offset_x g /\ top v <= offset_y g /\
   offset_x g + width g <= right v /\ offset_y g + height g <= bottom v /\
   0 < width g /\ 0 < height g /\
   biWidth (bmi g') = width g /\ biHeight (bmi g') = - height g) /\
  biWidth (bmi g') = int32 (right clip - left clip) /\
  0 < biWidth (bmi g') /\
  biHeight (bmi g') = - int32 (bottom clip - top clip) /\
  biHeight (bmi g') < 0 /\
  (8 | bpp) /\ biBitCount (bmi g') = bpp mod 2 ^ 16 /\
  biCompression (bmi g') = BI_RGB /\ biPlanes (bmi g') = 1 /\
  time_base g' = frame_period W (framerate g).
Proof.
  intros Hr. cbv zeta.
  pose proof (gdigrab_dc_init_spec W u g) as H. cbv zeta in H.
  destruct (gdigrab_dc_init W u g) as [[r g'] ev]. cbn [fst snd] in *.
  destruct H as (_ & _ & _ & _ & [(_ & _ & Hfmt) | (Hr' & _)]);
    [| rewrite Hr in Hr'; discriminate].
  unfold format_probed in Hfmt. gsimpl.
  destruct Hfmt as (_ & _ & Htb & Hb & Hclip & Hinv & Hout & _).
  unfold invalid_properties in Hinv. unfold extends_outside in Hout.
  apply orb_false_iff in Hinv. destruct Hinv as [Hinv H8].
  apply orb_false_iff in Hinv. destruct Hinv as [Hw Hh].
  apply orb_false_iff in Hout. destruct Hout as [Hout Hb4].
  apply orb_false_iff in Hout. destruct Hout as [Hout Hb3].
  apply orb_false_iff in Hout. destruct Hout as [Hb1 Hb2].
  apply Z.leb_gt in Hw, Hh. apply Z.ltb_ge in Hb1, Hb2, Hb3, Hb4.
  apply negb_false_iff in H8. apply Z.eqb_eq in H8.
  apply (Z.rem_divide _ 8) in H8; [| discriminate].
  rewrite Hb. cbn [biWidth biHeight biBitCount biCompression biPlanes].
  assert (Hneg : int32 (- int32 (bottom (clip_rect g') - top (clip_rect g'))) =
                 - int32 (bottom (clip_rect g') - top (clip_rect g'))).
  { apply int32_id. pose proof (int32_range (bottom (clip_rect g') - top (clip_rect g'))) as Hrg.
    unfold in_int32 in *. lia. }
  rewrite Hneg.
  assert (Hreq : width g <> 0 -> height g <> 0 ->
                 left (clip_rect g') = offset_x g /\ top (clip_rect g') = offset_y g /\
                 right (clip_rect g') = int32 (width g + offset_x g) /\
                 bottom (clip_rect g') = int32 (height g + offset_y g)).
  { intros Hw0 Hh0. rewrite Hclip. unfold clip_rect_of.
    apply Z.eqb_neq in Hw0, Hh0. rewrite Hw0, Hh0. cbn. tauto. }
  split_all; try assumption; try reflexivity; try lia.
  - intros Hz. rewrite Hclip. unfold clip_rect_of.
    assert (E : (width g =? 0) || (height g =? 0) = true).
    { apply orb_true_iff. destruct Hz as [Hz | Hz]; [left | right]; apply Z.eqb_eq; exact Hz. }
    rewrite E. cbn. tauto.
  - intros Hw0 Hh0 Hiw Hih Hsw Hsh.
    destruct (Hreq Hw0 Hh0) as (E1 & E2 & E3 & E4).
    rewrite E1, E2, E3, E4 in *.
    rewrite (int32_id _ Hsw) in *. rewrite (int32_id _ Hsh) in *.
    replace (width g + offset_x g - offset_x g) with (width g) in * by lia.
    replace (height g + offset_y g - offset_y g) with (height g) in * by lia.
    rewrite (int32_id _ Hiw) in *. rewrite (int32_id _ Hih) in *.
    split_all; try reflexivity; lia.
Qed.

(** The options [-offset_x 100 -offset_y 50 -video_size 640x480]. *)
Lemma dc_init_success_format_witness :
  let g := priv_data (mk_options 1 0 (mk_AVRational 30000 1001) 640 480 100 50) in
  let g' := snd (fst (gdigrab_dc_init desk "desktop" g)) in
  let v := virtual_rect_of desk (hwnd g') (source_hdc g') in
  let clip := clip_rect g' in
  let bpp := GetDeviceCaps desk (source_hdc g') BITSPIXEL in
  (width g = 0 \/ height g = 0 ->
   left clip = left v /\ top clip = top v /\
   right clip = right v /\ bottom clip = bottom v) /\
  (width g <> 0 -> height g <> 0 ->
   left clip = offset_x g /\ top clip = offset_y g /\
   right clip = int32 (width g + offset_x g) /\
   bottom clip = int32 (height g + offset_y g)) /\
  left v <= left clip /\ top v <= top clip /\
  right clip <= right v /\ bottom clip <= bottom v /\
  (width g <> 0 -> height g <> 0 ->
   in_int32 (width g) -> in_int32 (height g) ->
   in_int32 (width g + offset_x g) -> in_int32 (height g + offset_y g) ->
   left v <= offset_x g /\ top v <= offset_y g /\
   offset_x g + width g <= right v /\ offset_y g + height g <= bottom v /\
   0 < width g /\ 0 < height g /\
   biWidth (bmi g') = width g /\ biHeight (bmi g') = - height g) /\
  biWidth (bmi g') = int32 (right clip - left clip) /\
  0 < biWidth (bmi g') /\
  biHeight (bmi g') = - int32 (bottom clip - top clip) /\
  biHeight (bmi g') < 0 /\
  (8 | bpp) /\ biBitCount (bmi g') = bpp mod 2 ^ 16 /\
  biCompression (bmi g') = BI_RGB /\ biPlanes (bmi g') = 1 /\
  time_base g' = frame_period desk (framerate g).
Proof.
  apply (dc_init_success_format desk "desktop"
           (priv_data (mk_options 1 0 (mk_AVRational 30000 1001) 640 480 100 50))).
  vm_compute; reflexivity.
Defined.

(** In that run the requested rectangle is the stored one and the header
    has its size. *)
Example requested_rectangle_is_stored :
  let g' := snd (fst (gdigrab_dc_init desk "desktop"
              (priv_data (mk_options 1 0 (mk_AVRational 30000 1001) 640 480 100 50)))) in
  clip_rect g' = mk_RECT 100 50 740 530 /\
  biWidth (bmi g') = 640 /\ biHeight (bmi g') = -480.
Proof. vm_compute. repeat split; reflexivity. Qed.

(** ** After the worker has left *)

Lemma worker_end_quit s :
  grab_worker_quit (ctx (worker_end s)) = grab_worker_quit (ctx s).
Proof.
  unfold worker_end. pose proof (gdigrab_dc_destroy_spec (ctx s)) as Hd.
  destruct (gdigrab_dc_destroy (ctx s)) as [g' ev']. cbn [fst snd] in Hd.
  unfold destroyed in Hd. revert Hd. open_sys s. tauto.
Qed.

Lemma worker_hand_over_quit s :
  grab_worker_quit (ctx (worker_hand_over s)) = grab_worker_quit (ctx s).
Proof.
  unfold worker_hand_over. destruct (frame_in_stock (ctx s)).
  - open_sys s. reflexivity.
  - destruct (grab_worker_quit (ctx s)) eqn:E.
    + rewrite worker_end_quit. exact E.
    + revert E. open_sys s. auto.
Qed.

(** [grab_worker_quit] is only ever set: no transition of any thread
    clears it. *)
Lemma step_keeps_quit l s s' :
  step l s = Some s' -> grab_worker_quit (ctx s) = true ->
  grab_worker_quit (ctx s') = true.
Proof.
  destruct l; cbn [step].
  - destruct (starter s); try discriminate. intros [= <-].
    unfold worker_start_create. open_sys s. destruct created; auto.
  - destruct (starter s); try discriminate. intros [= <-].
    unfold worker_start_lock. open_sys s.
    destruct (negb (error_code g =? 0)); auto.
  - destruct (starter s); try discriminate.
    destruct (woken_s s); try discriminate. intros [= <-].
    unfold worker_start_resume. open_sys s. auto.
  - destruct (is_wpc (pc (wk s)) WInit); try discriminate. intros [= <-].
    unfold worker_init. pose proof (gdigrab_dc_init_spec W (url s) (ctx s)) as Hd.
    cbv zeta in Hd.
    destruct (gdigrab_dc_init W (url s) (ctx s)) as [[r g'] ev']. cbn [fst snd] in Hd.
    destruct Hd as (_ & _ & Hq & _).
    destruct (negb (r =? 0)).
    + rewrite worker_end_quit. revert Hq. open_sys s. congruence.
    + revert Hq. open_sys s. congruence.
  - destruct (is_wpc (pc (wk s)) WLoop); try discriminate. intros [= <-].
    unfold worker_grab. intros Hq. rewrite Hq. rewrite worker_end_quit. exact Hq.
  - destruct (is_wpc (pc (wk s)) WGrabbed); try discriminate. intros [= <-].
    unfold worker_lock. cbv zeta. intros Hq.
    destruct (negb _ && _).
    + rewrite worker_end_quit. revert Hq. open_sys s. auto.
    + rewrite Hq. rewrite worker_end_quit. exact Hq.
  - destruct (is_wpc (pc (wk s)) WWaitStock && woken_w s); try discriminate.
    intros [= <-]. rewrite worker_hand_over_quit. auto.
  - destruct (is_wpc (pc (wk s)) WPace); try discriminate. intros [= <-].
    unfold worker_pace. open_sys s. auto.
  - destruct (reader s); try discriminate. intros [= <-].
    unfold read_packet_enter, gdigrab_copy_frame.
    destruct (negb (error_code (ctx s) =? 0)); [open_sys s; auto |].
    destruct (frame_in_stock (ctx s)).
    + destruct alloc_ok; cbn [negb]; [| open_sys s; auto].
      destruct (biBitCount (bmi (ctx s)) <=? 8); open_sys s; auto.
    + destruct nonblock; open_sys s; auto.
  - destruct (reader s); try discriminate.
    destruct (woken_r s); try discriminate. intros [= <-].
    unfold read_packet_resume, gdigrab_copy_frame.
    destruct (frame_in_stock (ctx s)).
    + destruct alloc_ok; cbn [negb]; [| open_sys s; auto].
      destruct (biBitCount (bmi (ctx s)) <=? 8); open_sys s; auto.
    + open_sys s; auto.
  - intros [= <-]. unfold gdigrab_read_close. open_sys s. auto.
Qed.

(** X6.  Once [gdigrab_read_close] has been called, [grab_worker_quit] stays
    set through everything any thread does afterwards. *)
Theorem quit_request_is_permanent tr : forall s s' s'',
  step Close s = Some s' -> run tr s' = Some s'' ->
  grab_worker_quit (ctx s'') = true.
Proof.
  assert (G : forall tr s s', run tr s = Some s' ->
              grab_worker_quit (ctx s) = true -> grab_worker_quit (ctx s') = true).
  { clear. induction tr as [| l tr IH]; intros s s'; cbn [run].
    - intros [= <-]. auto.
    - destruct (step l s) as [s1 |] eqn:E; [| discriminate].
      intros Hr Hq. apply (IH s1 s' Hr). exact (step_keeps_quit l s s1 E Hq). }
  intros s s' s'' Hc Hr. apply (G tr s' s'' Hr).
  cbn [step] in Hc. injection Hc as <-. unfold gdigrab_read_close.
  open_sys s. reflexivity.
Qed.

Lemma quit_request_is_permanent_witness :
  let s := after (startup desk) "desktop" defaults in
  let s' := snd (gdigrab_read_close s) in
  step Close s = Some s' /\
  run [WorkerGrab Grabbed false; Pull true true] s' =
    Some (after (startup desk ++ [Close; WorkerGrab Grabbed false; Pull true true])
            "desktop" defaults) /\
  grab_worker_quit
    (ctx (after (startup desk ++ [Close; WorkerGrab Grabbed false; Pull true true])
            "desktop" defaults)) = true.
Proof.
  cbv zeta.
  assert (E1 : step Close (after (startup desk) "desktop" defaults) =
               Some (snd (gdigrab_read_close (after (startup desk) "desktop" defaults))))
    by reflexivity.
  assert (E2 : run [WorkerGrab Grabbed false; Pull true true]
                 (snd (gdigrab_read_close (after (startup desk) "desktop" defaults))) =
               Some (after (startup desk ++ [Close; WorkerGrab Grabbed false; Pull true true])
                       "desktop" defaults))
    by (vm_compute; reflexivity).
  split; [exact E1 |]. split; [exact E2 |].
  exact (quit_request_is_permanent _ _ _ _ E1 E2).
Defined.

Lemma filter_app_nil {A} (f : A -> bool) l l' :
  filter f l' = [] -> filter f (l ++ l') = filter f l.
Proof. intros H. rewrite filter_app, H, app_nil_r. reflexivity. Qed.

(** After the worker has left, a transition of any thread leaves the
    struct without handles and makes no Win32 call. *)
Lemma step_after_exit l s s' :
  Inv s -> pc (wk s) = WExited -> released (ctx s) -> step l s = Some s' ->
  pc (wk s') = WExited /\ released (ctx s') /\ calls (events s') = calls (events s).
Proof.
  intros HI Hpc Hrel. unfold released in *. destruct l; cbn [step]; rewrite ?Hpc; cbn [is_wpc andb];
    try discriminate.
  - destruct (starter s) eqn:E; try discriminate.
    destruct HI as (_ & _ & H3 & _). rewrite E in H3. congruence.
  - destruct (starter s); try discriminate. intros [= <-].
    unfold worker_start_lock. revert Hpc Hrel. open_sys s.
    destruct (negb (error_code g =? 0)); ssimpl; auto.
  - destruct (starter s); try discriminate.
    destruct (woken_s s); try discriminate. intros [= <-].
    unfold worker_start_resume. revert Hpc Hrel. open_sys s. auto.
  - destruct (reader s); try discriminate. intros [= <-].
    unfold read_packet_enter.
    destruct (negb (error_code (ctx s) =? 0)); [revert Hpc Hrel; open_sys s; auto |].
    replace (frame_in_stock (ctx s)) with (@None nat) by (symmetry; tauto).
    destruct nonblock; revert Hpc Hrel; open_sys s; auto.
  - destruct (reader s); try discriminate.
    destruct (woken_r s); try discriminate. intros [= <-].
    unfold read_packet_resume.
    replace (frame_in_stock (ctx s)) with (@None nat) by (symmetry; tauto).
    revert Hpc Hrel; open_sys s. intros -> Hrel. split; [reflexivity |].
    split; [exact Hrel |]. unfold calls. apply filter_app_nil. reflexivity.
  - intros [= <-]. unfold gdigrab_read_close. revert Hpc Hrel. open_sys s. auto.
Qed.

Lemma step_into_exit l s s' :
  pc (wk s) <> WExited -> step l s = Some s' -> pc (wk s') = WExited ->
  released (ctx s').
Proof.
  intros Hpc. destruct l; cbn [step].
  - destruct (starter s); try discriminate. intros [= <-].
    unfold worker_start_create. revert Hpc. open_sys s.
    destruct created; ssimpl; congruence.
  - destruct (starter s); try discriminate. intros [= <-].
    unfold worker_start_lock. revert Hpc. open_sys s.
    destruct (negb (error_code g =? 0)); ssimpl; congruence.
  - destruct (starter s); try discriminate.
    destruct (woken_s s); try discriminate. intros [= <-].
    unfold worker_start_resume. revert Hpc. open_sys s. congruence.
  - destruct (is_wpc (pc (wk s)) WInit); try discriminate. intros [= <-].
    unfold worker_init.
    destruct (gdigrab_dc_init W (url s) (ctx s)) as [[r g'] ev'].
    destruct (negb (r =? 0)); [intros _; apply worker_end_released |].
    open_sys s. discriminate.
  - destruct (is_wpc (pc (wk s)) WLoop); try discriminate. intros [= <-].
    unfold worker_grab.
    destruct (grab_worker_quit (ctx s)); [intros _; apply worker_end_released |].
    cbv zeta. unfold paint_mouse_pointer. open_sys s. destruct r; ssimpl; discriminate.
  - destruct (is_wpc (pc (wk s)) WGrabbed); try discriminate. intros [= <-].
    unfold worker_lock, worker_hand_over. cbv zeta.
    destruct (negb _ && _); [intros _; apply worker_end_released |].
    destruct (grab_worker_quit (ctx s)); [intros _; apply worker_end_released |].
    destruct (frame_in_stock (ctx s)); open_sys s; discriminate.
  - destruct (is_wpc (pc (wk s)) WWaitStock && woken_w s); try discriminate.
    intros [= <-]. unfold worker_hand_over.
    destruct (frame_in_stock (ctx s)); [open_sys s; discriminate |].
    destruct (grab_worker_quit (ctx s)); [intros _; apply worker_end_released |].
    open_sys s; discriminate.
  - destruct (is_wpc (pc (wk s)) WPace); try discriminate. intros [= <-].
    unfold worker_pace. open_sys s. discriminate.
  - destruct (reader s); try discriminate. intros [= <-].
    unfold read_packet_enter, gdigrab_copy_frame.
    destruct (negb (error_code (ctx s) =? 0)); [revert Hpc; open_sys s; congruence |].
    destruct (frame_in_stock (ctx s)).
    + destruct alloc_ok; cbn [negb]; [| revert Hpc; open_sys s; congruence].
      destruct (biBitCount (bmi (ctx s)) <=? 8); revert Hpc; open_sys s; congruence.
    + destruct nonblock; revert Hpc; open_sys s; congruence.
  - destruct (reader s); try discriminate.
    destruct (woken_r s); try discriminate. intros [= <-].
    unfold read_packet_resume, gdigrab_copy_frame.
    destruct (frame_in_stock (ctx s)).
    + destruct alloc_ok; cbn [negb]; [| revert Hpc; open_sys s; congruence].
      destruct (biBitCount (bmi (ctx s)) <=? 8); revert Hpc; open_sys s; congruence.
    + revert Hpc; open_sys s; congruence.
  - intros [= <-]. unfold gdigrab_read_close. revert Hpc. open_sys s. congruence.
Qed.

Lemma run_released tr : forall s s',
  Inv s -> (pc (wk s) = WExited -> released (ctx s)) -> run tr s = Some s' ->
  pc (wk s') = WExited -> released (ctx s').
Proof.
  induction tr as [| l tr IH]; intros s s' HI Hrel; cbn [run].
  - intros [= <-]. exact Hrel.
  - destruct (step l s) as [s1 |] eqn:E; [| discriminate].
    apply IH; [exact (step_Inv l s s1 HI E) |].
    intros Hx. destruct (pc (wk s)) eqn:Hpc;
      try (apply (step_into_exit l s s1); [rewrite Hpc; discriminate | exact E | exact Hx]).
    apply (step_after_exit l s s1 HI Hpc (Hrel eq_refl) E).
Qed.

(** X7.  In every reachable state in which the worker has left, the struct
    holds no bitmap, no device context and no pending frame; whatever any
    thread does afterwards keeps it so and makes no Win32 call. *)
Theorem nothing_happens_after_exit u o s :
  reachable u o s -> pc (wk s) = WExited ->
  released (ctx s) /\
  forall tr s', run tr s = Some s' ->
    pc (wk s') = WExited /\ released (ctx s') /\
    calls (events s') = calls (events s).
Proof.
  intros R Hpc. pose proof (reachable_Inv u o s R) as HI.
  assert (Hrel : released (ctx s)).
  { destruct R as [tr0 R]. apply (run_released tr0 _ s (Inv_init u o)); auto.
    cbn. discriminate. }
  split; [exact Hrel |].
  intros tr. clear R. revert s HI Hpc Hrel.
  induction tr as [| l tr IH]; intros s HI Hpc Hrel s'; cbn [run].
  - intros [= <-]. auto.
  - destruct (step l s) as [s1 |] eqn:E; [| discriminate]. intros Hr.
    destruct (step_after_exit l s s1 HI Hpc Hrel E) as (H1 & H2 & H3).
    destruct (IH s1 (step_Inv l s s1 HI E) H1 H2 s' Hr) as (G1 & G2 & G3).
    split; [exact G1 |]. split; [exact G2 | congruence].
Qed.

Lemma nothing_happens_after_exit_witness :
  let s := after (close_during_grab ++ [Close; WorkerLock]) "desktop" defaults in
  reachable "desktop" defaults s /\ pc (wk s) = WExited /\
  released (ctx s) /\
  forall tr s', run tr s = Some s' ->
    pc (wk s') = WExited /\ released (ctx s') /\
    calls (events s') = calls (events s).
Proof.
  cbv zeta.
  assert (R : reachable "desktop" defaults
                (after (close_during_grab ++ [Close; WorkerLock]) "desktop" defaults))
    by (exists (close_during_grab ++ [Close; WorkerLock]); vm_compute; reflexivity).
  split; [exact R |]. split; [vm_compute; reflexivity |].
  apply (nothing_happens_after_exit "desktop" defaults _ R). vm_compute; reflexivity.
Defined.

(** ** The two buffers *)

Lemma step_other_threads l s s' :
  match l with
  | StartLock | StartWake | Pull _ _ | PullWake _ | Close => True
  | _ => False
  end ->
  step l s = Some s' -> wk s' = wk s /\ iters s' = iters s.
Proof.
  destruct l; try contradiction; intros _; cbn [step].
  - destruct (starter s); try discriminate. intros [= <-].
    unfold worker_start_lock. open_sys s.
    destruct (negb (error_code g =? 0)); ssimpl; auto.
  - destruct (starter s); try discriminate.
    destruct (woken_s s); try discriminate. intros [= <-].
    unfold worker_start_resume. open_sys s. auto.
  - destruct (reader s); try discriminate. intros [= <-].
    unfold read_packet_enter, gdigrab_copy_frame.
    destruct (negb (error_code (ctx s) =? 0)); [open_sys s; auto |].
    destruct (frame_in_stock (ctx s)).
    + destruct alloc_ok; cbn [negb]; [| open_sys s; auto].
      destruct (biBitCount (bmi (ctx s)) <=? 8); open_sys s; auto.
    + destruct nonblock; open_sys s; auto.
  - destruct (reader s); try discriminate.
    destruct (woken_r s); try discriminate. intros [= <-].
    unfold read_packet_resume, gdigrab_copy_frame.
    destruct (frame_in_stock (ctx s)).
    + destruct alloc_ok; cbn [negb]; [| open_sys s; auto].
      destruct (biBitCount (bmi (ctx s)) <=? 8); open_sys s; auto.
    + open_sys s; auto.
  - intros [= <-]. unfold gdigrab_read_close. open_sys s. auto.
Qed.

Lemma worker_end_locals s :
  pc (wk (worker_end s)) = WExited /\ iters (worker_end s) = iters s.
Proof.
  unfold worker_end. destruct (gdigrab_dc_destroy (ctx s)) as [g' ev'].
  open_sys s. auto.
Qed.

Lemma Parity_exited s : pc (wk s) = WExited -> Parity s.
Proof. unfold Parity. intros ->. exact I. Qed.

Lemma step_Parity l s s' : Inv s -> Parity s -> step l s = Some s' -> Parity s'.
Proof.
  intros HI HP.
  assert (Hother : match l with
                   | StartLock | StartWake | Pull _ _ | PullWake _ | Close => True
                   | _ => False
                   end -> step l s = Some s' -> Parity s').
  { intros Hl E. destruct (step_other_threads l s s' Hl E) as [Hw Hi].
    unfold Parity in *. rewrite Hw, Hi. exact HP. }
  destruct l; try (apply Hother; exact I); clear Hother; cbn [step].
  - destruct (starter s); try discriminate. intros [= <-].
    unfold worker_start_create, Parity. open_sys s.
    destruct created; ssimpl; auto.
  - destruct (is_wpc (pc (wk s)) WInit) eqn:Ep; try discriminate. intros [= <-].
    apply is_wpc_eq in Ep. unfold worker_init.
    destruct (gdigrab_dc_init W (url s) (ctx s)) as [[r g'] ev'].
    destruct (negb (r =? 0)); [apply Parity_exited; apply worker_end_locals |].
    revert Ep HI. unfold Parity. open_state s. intros -> (_ & _ & _ & -> & _).
    reflexivity.
  - destruct (is_wpc (pc (wk s)) WLoop) eqn:Ep; try discriminate. intros [= <-].
    apply is_wpc_eq in Ep. unfold worker_grab.
    destruct (grab_worker_quit (ctx s)); [apply Parity_exited; apply worker_end_locals |].
    cbv zeta. unfold paint_mouse_pointer. revert HP Ep. unfold Parity. open_sys s.
    intros HP ->. ssimpl.
    destruct cursor_failed, r, i as [| [| i]]; ssimpl;
      repeat match goal with
             | |- context [if ?b then _ else _] => destruct b; ssimpl
             end;
      cbn [List.length]; rewrite Nat.sub_succ, Nat.sub_0_r; exact HP.
  - destruct (is_wpc (pc (wk s)) WGrabbed) eqn:Ep; try discriminate. intros [= <-].
    apply is_wpc_eq in Ep. unfold worker_lock, worker_hand_over. cbv zeta.
    destruct (negb _ && _); [apply Parity_exited; apply worker_end_locals |].
    destruct (grab_worker_quit (ctx s)); [apply Parity_exited; apply worker_end_locals |].
    revert HP Ep. unfold Parity.
    destruct (frame_in_stock (ctx s)); open_sys s; intros HP ->; exact HP.
  - destruct (is_wpc (pc (wk s)) WWaitStock && woken_w s) eqn:Ep; try discriminate.
    intros [= <-]. apply andb_true_iff in Ep. destruct Ep as [Ep _].
    apply is_wpc_eq in Ep. unfold worker_hand_over.
    destruct (frame_in_stock (ctx s)).
    + revert HP Ep. unfold Parity. open_sys s; intros HP ->; exact HP.
    + destruct (grab_worker_quit (ctx s)); [apply Parity_exited; apply worker_end_locals |].
      revert HP Ep. unfold Parity. open_sys s; intros HP ->; exact HP.
  - destruct (is_wpc (pc (wk s)) WPace) eqn:Ep; try discriminate. intros [= <-].
    apply is_wpc_eq in Ep. unfold worker_pace.
    revert Ep HI HP. unfold Parity. open_state s.
    intros -> (_ & _ & _ & H) HP. destruct H as (t & r & rest & -> & _).
    cbn [List.length] in *. rewrite Nat.sub_succ, Nat.sub_0_r in HP. subst i.
    rewrite Nat.Div0.add_mod_idemp_l. f_equal. lia.
Qed.

Lemma reachable_Parity u o s : reachable u o s -> Parity s.
Proof.
  intros [tr H].
  assert (G : forall tr s0 s1, Inv s0 -> Parity s0 -> run tr s0 = Some s1 -> Parity s1).
  { clear. induction tr as [| l tr IH]; intros s0 s1 HI HP; cbn [run].
    - intros [= <-]. exact HP.
    - destruct (step l s0) as [s2 |] eqn:E; [| discriminate].
      apply IH; [exact (step_Inv l s0 s2 HI E) | exact (step_Parity l s0 s2 HI HP E)]. }
  apply (G tr _ _ (Inv_init u o)); [exact I | exact H].
Qed.

(** What one pass through the grab does when the loop test lets it in. *)
Lemma worker_grab_effect r cf s :
  grab_worker_quit (ctx s) = false -> (l_i (wk s) < 2)%nat ->
  let s' := worker_grab r cf s in
  let i := l_i (wk s) in
  pc (wk s') = WGrabbed /\ l_i (wk s') = i /\
  iters s' = (l_time_end (wk s), r) :: iters s /\
  In (Call (CallSelectObject i)) (events s') /\
  frame_in_stock (ctx s') = frame_in_stock (ctx s) /\
  time_frame (ctx s') = time_frame (ctx s) /\
  dib s' (other i) = dib s (other i) /\
  (grab_ok r = true ->
   dib s' i = Some (List.length (iters s)) /\
   l_frame_in_stock (wk s') = buffer (ctx s) i).
Proof.
  intros Hq Hi. cbv zeta. unfold worker_grab. rewrite Hq. cbv zeta.
  unfold paint_mouse_pointer. revert Hq Hi. open_sys s. intros _ Hi.
  assert (Hi' : i = 0%nat \/ i = 1%nat) by lia. clear Hi.
  destruct Hi' as [-> | ->]; change (other 0) with 1%nat; change (other 1) with 0%nat;
    destruct cf, r; ssimpl;
    repeat match goal with
           | |- context [if ?b then _ else _] => destruct b; ssimpl
           end;
    cbn [List.length]; rewrite ?Nat.sub_succ, ?Nat.sub_0_r;
    split_all; try reflexivity; try discriminate;
    try (intros _; split; reflexivity);
    rewrite ?in_app_iff; cbn [In]; tauto.
Qed.

Lemma Inv_loop_buffers s :
  Inv s -> pc (wk s) = WLoop ->
  buffer (ctx s) (l_i (wk s)) = Some (l_i (wk s)) /\
  slot_free_or (other (l_i (wk s))) (ctx s).
Proof.
  intros HI Ep. revert Ep HI. open_state s.
  intros -> (_ & Hi & _ & _ & _ & H & (B0 & B1) & _). split; [| exact H].
  unfold buffer. destruct i as [| [| i]]; [exact B0 | exact B1 | lia].
Qed.

(** X8.  Iteration [n] of the worker loop works on [hbmp[n % 2]] and
    [buffer[n % 2]]: it selects that bitmap, a successful blit leaves the
    pixels of iteration [n] in that buffer, and that buffer is what the
    worker will hand over. *)
Theorem buffers_alternate u o s r cf s' :
  reachable u o s -> step (WorkerGrab r cf) s = Some s' ->
  grab_worker_quit (ctx s) = false ->
  let n := List.length (iters s) in
  l_i (wk s') = (n mod 2)%nat /\
  In (Call (CallSelectObject (n mod 2))) (events s') /\
  (grab_ok r = true ->
   dib s' (n mod 2) = Some n /\ l_frame_in_stock (wk s') = Some (n mod 2)%nat).
Proof.
  intros R E Hq. pose proof (reachable_Inv u o s R) as HI.
  pose proof (reachable_Parity u o s R) as HP.
  cbn [step] in E. destruct (is_wpc (pc (wk s)) WLoop) eqn:Ep; try discriminate.
  injection E as <-. apply is_wpc_eq in Ep.
  assert (Hi : (l_i (wk s) < 2)%nat) by (destruct HI as (_ & H & _); exact H).
  destruct (worker_grab_effect r cf s Hq Hi) as (_ & H1 & _ & H2 & _ & _ & _ & H3).
  assert (Hn : l_i (wk s) = (List.length (iters s) mod 2)%nat)
    by (unfold Parity in HP; rewrite Ep in HP; exact HP).
  destruct (Inv_loop_buffers s HI Ep) as [Hb _].
  cbv zeta. rewrite <- Hn. split; [exact H1 |]. split; [exact H2 |].
  intros Hr. destruct (H3 Hr) as [H4 H5]. split; [exact H4 |].
  rewrite H5. exact Hb.
Qed.

Lemma buffers_alternate_witness :
  let s := after (startup desk ++ iteration_of Grabbed 2000) "desktop" defaults in
  let s' := after (startup desk ++ iteration_of Grabbed 2000 ++
                   [WorkerGrab Grabbed false]) "desktop" defaults in
  l_i (wk s') = 1%nat /\
  In (Call (CallSelectObject 1)) (events s') /\
  (grab_ok Grabbed = true ->
   dib s' 1 = Some 1%nat /\ l_frame_in_stock (wk s') = Some 1%nat).
Proof.
  cbv zeta.
  assert (R : reachable "desktop" defaults
                (after (startup desk ++ iteration_of Grabbed 2000) "desktop" defaults))
    by (exists (startup desk ++ iteration_of Grabbed 2000); vm_compute; reflexivity).
  assert (E : step (WorkerGrab Grabbed false)
                (after (startup desk ++ iteration_of Grabbed 2000) "desktop" defaults) =
              Some (after (startup desk ++ iteration_of Grabbed 2000 ++
                           [WorkerGrab Grabbed false]) "desktop" defaults))
    by (vm_compute; reflexivity).
  exact (buffers_alternate _ _ _ _ _ _ R E eq_refl).
Defined.

(** X9.  While the worker grabs, the frame that waits in the slot is not
    touched: the blit goes to the other buffer, and neither the slot nor
    its time stamp is written outside the lock. *)
Theorem grab_spares_the_waiting_frame u o s r cf s' :
  reachable u o s -> step (WorkerGrab r cf) s = Some s' ->
  grab_worker_quit (ctx s) = false ->
  frame_in_stock (ctx s') = frame_in_stock (ctx s) /\ pending s' = pending s /\
  forall j, frame_in_stock (ctx s) = Some j -> j <> l_i (wk s').
Proof.
  intros R E Hq. pose proof (reachable_Inv u o s R) as HI.
  cbn [step] in E. destruct (is_wpc (pc (wk s)) WLoop) eqn:Ep; try discriminate.
  injection E as <-. apply is_wpc_eq in Ep.
  assert (Hi : (l_i (wk s) < 2)%nat) by (destruct HI as (_ & H & _); exact H).
  destruct (worker_grab_effect r cf s Hq Hi) as (_ & H1 & _ & _ & H2 & H3 & H4 & _).
  destruct (Inv_loop_buffers s HI Ep) as [_ Hs].
  assert (Ho : other (l_i (wk s)) <> l_i (wk s)).
  { assert (Hi' : l_i (wk s) = 0%nat \/ l_i (wk s) = 1%nat) by lia.
    destruct Hi' as [-> | ->]; discriminate. }
  split; [exact H2 |]. split.
  - unfold pending. rewrite H2, H3.
    destruct Hs as [-> | Hs]; [reflexivity |]. rewrite Hs, H4. reflexivity.
  - intros j Hj. rewrite H1. destruct Hs as [Hs | Hs]; congruence.
Qed.

Lemma grab_spares_the_waiting_frame_witness :
  let s := after (startup desk ++ iteration_of Grabbed 2000) "desktop" defaults in
  let s' := after (startup desk ++ iteration_of Grabbed 2000 ++
                   [WorkerGrab Grabbed false]) "desktop" defaults in
  frame_in_stock (ctx s') = frame_in_stock (ctx s) /\ pending s' = pending s /\
  forall j, frame_in_stock (ctx s) = Some j -> j <> l_i (wk s').
Proof.
  cbv zeta.
  assert (R : reachable "desktop" defaults
                (after (startup desk ++ iteration_of Grabbed 2000) "desktop" defaults))
    by (exists (startup desk ++ iteration_of Grabbed 2000); vm_compute; reflexivity).
  assert (E : step (WorkerGrab Grabbed false)
                (after (startup desk ++ iteration_of Grabbed 2000) "desktop" defaults) =
              Some (after (startup desk ++ iteration_of Grabbed 2000 ++
                           [WorkerGrab Grabbed false]) "desktop" defaults))
    by (vm_compute; reflexivity).
  exact (grab_spares_the_waiting_frame _ _ _ _ _ _ R E eq_refl).
Defined.

(** ** The packets of one run *)

Lemma dc_destroy_keeps g :
  wp dc_destroy
    (fun _ g' ev =>
       format_of g' = format_of g /\
       cursor_error_printed g' = cursor_error_printed g /\
       existsb is_cursor_log ev = false)
    (fun _ _ _ => False) g.
Proof.
  unfold dc_destroy, destroy_bitmap, gdigrab_region_wnd_destroy, format_of.
  wp_run.
  all: gsimpl; cbn [is_cursor_log existsb app orb]; auto.
Qed.

Lemma gdigrab_dc_destroy_keeps g :
  let g' := fst (gdigrab_dc_destroy g) in
  format_of g' = format_of g /\
  cursor_error_printed g' = cursor_error_printed g /\
  existsb is_cursor_log (snd (gdigrab_dc_destroy g)) = false.
Proof.
  pose proof (dc_destroy_keeps g) as H. unfold wp in H.
  unfold gdigrab_dc_destroy. destruct (dc_destroy g); [contradiction | exact H].
Qed.

Lemma worker_end_format s :
  format_of (ctx (worker_end s)) = format_of (ctx s) /\
  delivered (worker_end s) = delivered s /\ pulls (worker_end s) = pulls s.
Proof.
  unfold worker_end. pose proof (gdigrab_dc_destroy_keeps (ctx s)) as Hd.
  cbv zeta in Hd.
  destruct (gdigrab_dc_destroy (ctx s)) as [g' ev']. cbn [fst snd] in Hd.
  revert Hd. open_sys s. tauto.
Qed.

Lemma worker_end_outcome s :
  format_of (ctx (worker_end s)) = format_of (ctx s) /\
  read_outcome (format_of (ctx s)) s (worker_end s).
Proof.
  destruct (worker_end_format s) as (H1 & H2 & H3).
  split; [exact H1 |]. left. split; [exact H2 | left; exact H3].
Qed.

Lemma copy_frame_packet alloc_ok s :
  let '(r, _, s') := gdigrab_copy_frame alloc_ok s in
  format_of (ctx (read_return r s')) = format_of (ctx s) /\
  read_outcome (format_of (ctx s)) s (read_return r s').
Proof.
  unfold gdigrab_copy_frame, format_of, read_outcome, packet_of_format, read_error.
  destruct alloc_ok; cbn [negb].
  - destruct (biBitCount (bmi (ctx s)) <=? 8) eqn:E; revert E; open_sys s; intros E;
      (split; [reflexivity |]); right; eexists; (split; [reflexivity |]);
      cbn [size bfType bfSize bfOffBits bmiHeader palette]; rewrite ?E; auto 10.
  - open_sys s. split; [reflexivity |]. left. split; [reflexivity |].
    right. eexists. split; [reflexivity |]. auto.
Qed.

Ltac quiet := split; [reflexivity | left; split; [reflexivity | left; reflexivity]].

(** No transition but the entry of the worker writes the format fields;
    a packet is only ever added as [gdigrab_copy_frame] fills it, and its
    size is what [gdigrab_read_packet] then returns. *)
Lemma step_packets l s s' :
  step l s = Some s' ->
  match l with
  | WorkerInit _ _ => delivered s' = delivered s /\ pulls s' = pulls s
  | _ =>
      format_of (ctx s') = format_of (ctx s) /\
      read_outcome (format_of (ctx s)) s s'
  end.
Proof.
  destruct l; cbn [step].
  - destruct (starter s); try discriminate. intros [= <-].
    unfold worker_start_create. open_sys s. destruct created; quiet.
  - destruct (starter s); try discriminate. intros [= <-].
    unfold worker_start_lock. open_sys s.
    destruct (negb (error_code g =? 0)); quiet.
  - destruct (starter s); try discriminate.
    destruct (woken_s s); try discriminate. intros [= <-].
    unfold worker_start_resume. open_sys s. quiet.
  - destruct (is_wpc (pc (wk s)) WInit); try discriminate. intros [= <-].
    unfold worker_init.
    destruct (gdigrab_dc_init W (url s) (ctx s)) as [[r g'] ev'].
    destruct (negb (r =? 0)).
    + destruct (worker_end_format
                  (broadcast (log ev' (set_ctx g' s)))) as (_ & -> & ->).
      open_sys s. split; reflexivity.
    + open_sys s. split; reflexivity.
  - destruct (is_wpc (pc (wk s)) WLoop); try discriminate. intros [= <-].
    unfold worker_grab.
    destruct (grab_worker_quit (ctx s)); [apply worker_end_outcome |].
    cbv zeta. unfold paint_mouse_pointer. open_sys s.
    destruct cursor_failed, r, i as [| i]; ssimpl;
      repeat match goal with
             | |- context [if ?b then _ else _] => destruct b; ssimpl
             end; quiet.
  - destruct (is_wpc (pc (wk s)) WGrabbed); try discriminate. intros [= <-].
    unfold worker_lock, worker_hand_over. cbv zeta.
    destruct (negb _ && _).
    + match goal with |- context [worker_end ?x] =>
        destruct (worker_end_format x) as (H1 & H2 & H3) end.
      split; [rewrite H1; open_sys s; reflexivity |].
      left. rewrite H2, H3. open_sys s. auto.
    + destruct (grab_worker_quit (ctx s)); [apply worker_end_outcome |].
      destruct (frame_in_stock (ctx s)); open_sys s; quiet.
  - destruct (is_wpc (pc (wk s)) WWaitStock && woken_w s); try discriminate.
    intros [= <-]. unfold worker_hand_over.
    destruct (frame_in_stock (ctx s)); [open_sys s; quiet |].
    destruct (grab_worker_quit (ctx s)); [apply worker_end_outcome |].
    open_sys s; quiet.
  - destruct (is_wpc (pc (wk s)) WPace); try discriminate. intros [= <-].
    unfold worker_pace. open_sys s. quiet.
  - destruct (reader s); try discriminate. intros [= <-].
    unfold read_packet_enter.
    destruct (negb (error_code (ctx s) =? 0)).
    { open_sys s. split; [reflexivity |]. left. split; [reflexivity |].
      right. eexists. split; [reflexivity |]. unfold read_error. auto. }
    destruct (frame_in_stock (ctx s)).
    + pose proof (copy_frame_packet alloc_ok s) as H.
      destruct (gdigrab_copy_frame alloc_ok s) as [[r0 o0] s0]. exact H.
    + destruct nonblock; open_sys s; [| quiet].
      split; [reflexivity |]. left. split; [reflexivity |].
      right. eexists. split; [reflexivity |]. unfold read_error. auto.
  - destruct (reader s); try discriminate.
    destruct (woken_r s); try discriminate. intros [= <-].
    unfold read_packet_resume.
    destruct (frame_in_stock (ctx s)).
    + pose proof (copy_frame_packet alloc_ok s) as H.
      destruct (gdigrab_copy_frame alloc_ok s) as [[r0 o0] s0]. exact H.
    + open_sys s. split; [reflexivity |]. left. split; [reflexivity |].
      right. eexists. split; [reflexivity |]. unfold read_error. auto.
  - intros [= <-]. unfold gdigrab_read_close. open_sys s. quiet.
Qed.

Lemma Inv_init_no_packet s :
  Inv s -> pc (wk s) = WInit -> delivered s = [].
Proof.
  intros HI Hpc. destruct (Inv_account s HI) as [H1 _].
  revert Hpc HI H1. open_state s. intros -> (_ & _ & _ & _ & -> & _) H1.
  symmetry in H1. apply app_eq_nil in H1. destruct H1 as [_ H1].
  apply app_eq_nil in H1. destruct H1 as [_ H1].
  destruct del; [reflexivity | discriminate H1].
Qed.

Lemma step_Uniform l s s' :
  Inv s -> Uniform s -> step l s = Some s' -> Uniform s'.
Proof.
  intros HI [HP HR] E. pose proof (step_packets l s s' E) as H.
  assert (G : format_of (ctx s') = format_of (ctx s) /\
              read_outcome (format_of (ctx s)) s s' -> Uniform s').
  { intros (Hf & [(Hd & Hp) | (p & Hd & Hp & Hfmt)]); unfold Uniform;
      rewrite Hf, Hd.
    - split; [exact HP |].
      destruct Hp as [-> | (r & -> & Hr)]; [exact HR |].
      constructor; [left; exact Hr | exact HR].
    - split; [constructor; [exact Hfmt | exact HP] |].
      rewrite Hp. constructor; [right; exists p; split; [left |]; reflexivity |].
      rewrite Forall_forall in HR |- *. intros r Hin.
      destruct (HR r Hin) as [Hr | (q & Hq & ->)]; [left; exact Hr |].
      right. exists q. split; [right; exact Hq | reflexivity]. }
  destruct l; try (apply G; exact H).
  cbn [step] in E. destruct (is_wpc (pc (wk s)) WInit) eqn:Ep; [| discriminate].
  apply is_wpc_eq in Ep. destruct H as [Hd Hp]. unfold Uniform.
  rewrite Hd, Hp. rewrite (Inv_init_no_packet s HI Ep) in HR |- *.
  split; [constructor | exact HR].
Qed.

Lemma reachable_Uniform u o s : reachable u o s -> Uniform s.
Proof.
  intros [tr H].
  assert (G : forall tr s0 s1, Inv s0 -> Uniform s0 -> run tr s0 = Some s1 ->
              Uniform s1).
  { clear. induction tr as [| l tr IH]; intros s0 s1 HI HU; cbn [run].
    - intros [= <-]. exact HU.
    - destruct (step l s0) as [s2 |] eqn:E; [| discriminate].
      apply IH; [exact (step_Inv l s0 s2 HI E) | exact (step_Uniform l s0 s2 HI HU E)]. }
  apply (G tr _ _ (Inv_init u o)); [| exact H].
  split; constructor.
Qed.

(** X10.  All packets of a run are alike: in every reachable state each
    delivered packet has the size [header_size + frame_size], the magic
    ["BM"], [bfSize] and [bfOffBits] as the struct gives them now, the
    [BITMAPINFOHEADER] of the struct, and a palette exactly for depths up
    to 8 -- the format fields are written by [gdigrab_dc_init] and by
    nothing after it. *)
Theorem packets_are_uniform u o s :
  reachable u o s ->
  Forall (packet_of_format (format_of (ctx s))) (delivered s).
Proof. intros R. exact (proj1 (reachable_Uniform u o s R)). Qed.

(** X11.  [gdigrab_read_packet] returns [AVERROR(EIO)], [AVERROR(EAGAIN)],
    [AVERROR(ENOMEM)], or the size of the packet it has filled. *)
Theorem read_packet_return_values u o s :
  reachable u o s ->
  Forall (fun r => read_error r \/ exists p, In p (delivered s) /\ r = size p)
    (pulls s).
Proof. intros R. exact (proj2 (reachable_Uniform u o s R)). Qed.

Lemma packets_are_uniform_witness :
  Forall (packet_of_format
            (format_of (ctx (after two_frames_read "desktop" defaults))))
    (delivered (after two_frames_read "desktop" defaults)).
Proof.
  apply (packets_are_uniform "desktop" defaults).
  exists two_frames_read. vm_compute. reflexivity.
Defined.

Lemma read_packet_return_values_witness :
  Forall (fun r => read_error r \/
                   exists p, In p (delivered (after two_frames_read "desktop" defaults)) /\
                             r = size p)
    (pulls (after two_frames_read "desktop" defaults)).
Proof.
  apply (read_packet_return_values "desktop" defaults).
  exists two_frames_read. vm_compute. reflexivity.
Defined.

(** ** The cursor error *)

Lemma cursor_errors_app ev ev' :
  cursor_errors (ev ++ ev') = (cursor_errors ev + cursor_errors ev')%nat.
Proof. unfold cursor_errors. rewrite filter_app, length_app. reflexivity. Qed.

Lemma cursor_errors_none ev :
  existsb is_cursor_log ev = false -> cursor_errors ev = 0%nat.
Proof.
  unfold cursor_errors. induction ev as [| e ev IH]; cbn [existsb filter]; [reflexivity |].
  intros H. apply orb_false_iff in H. destruct H as [-> H]. exact (IH H).
Qed.

Lemma worker_end_cursor s :
  cursor_errors (events (worker_end s)) = cursor_errors (events s) /\
  cursor_error_printed (ctx (worker_end s)) = cursor_error_printed (ctx s) /\
  pc (wk (worker_end s)) = WExited.
Proof.
  unfold worker_end. pose proof (gdigrab_dc_destroy_keeps (ctx s)) as Hd.
  cbv zeta in Hd.
  destruct (gdigrab_dc_destroy (ctx s)) as [g' ev']. cbn [fst snd] in Hd.
  destruct Hd as (_ & Hc & He). apply cursor_errors_none in He.
  revert Hc He. open_sys s. intros Hc He.
  rewrite cursor_errors_app, He, Nat.add_0_r. auto.
Qed.

Lemma CursorOnce_end s : logged_once s -> CursorOnce (worker_end s).
Proof.
  destruct (worker_end_cursor s) as (H1 & H2 & H3).
  unfold CursorOnce, logged_once. rewrite H1, H2, H3. auto.
Qed.

Lemma CursorOnce_logged s : CursorOnce s -> logged_once s.
Proof.
  unfold CursorOnce, logged_once. destruct (pc (wk s)); auto.
Qed.

Lemma step_outside_cursor l s s' :
  match l with
  | StartLock | StartWake | Pull _ _ | PullWake _ | Close => True
  | _ => False
  end ->
  step l s = Some s' ->
  pc (wk s') = pc (wk s) /\
  cursor_errors (events s') = cursor_errors (events s) /\
  cursor_error_printed (ctx s') = cursor_error_printed (ctx s).
Proof.
  destruct l; try contradiction; intros _; cbn [step].
  - destruct (starter s); try discriminate. intros [= <-].
    unfold worker_start_lock. open_sys s.
    destruct (negb (error_code g =? 0)); auto.
  - destruct (starter s); try discriminate.
    destruct (woken_s s); try discriminate. intros [= <-].
    unfold worker_start_resume. open_sys s. auto.
  - destruct (reader s); try discriminate. intros [= <-].
    unfold read_packet_enter, gdigrab_copy_frame.
    destruct (negb (error_code (ctx s) =? 0)); [open_sys s; auto |].
    destruct (frame_in_stock (ctx s)).
    + destruct alloc_ok; cbn [negb]; [| open_sys s; auto].
      destruct (biBitCount (bmi (ctx s)) <=? 8); open_sys s; auto.
      rewrite cursor_errors_app. cbn. auto.
    + destruct nonblock; open_sys s; auto.
  - destruct (reader s); try discriminate.
    destruct (woken_r s); try discriminate. intros [= <-].
    unfold read_packet_resume, gdigrab_copy_frame.
    destruct (frame_in_stock (ctx s)).
    + destruct alloc_ok; cbn [negb]; [| open_sys s; auto].
      destruct (biBitCount (bmi (ctx s)) <=? 8); open_sys s; auto.
      rewrite cursor_errors_app. cbn. auto.
    + open_sys s. rewrite cursor_errors_app. cbn. auto.
  - intros [= <-]. unfold gdigrab_read_close. open_sys s. auto.
Qed.

Lemma step_CursorOnce l s s' :
  Inv s -> CursorOnce s -> step l s = Some s' -> CursorOnce s'.
Proof.
  intros HI HC.
  assert (Hother : match l with
                   | StartLock | StartWake | Pull _ _ | PullWake _ | Close => True
                   | _ => False
                   end -> step l s = Some s' -> CursorOnce s').
  { intros Hl E. destruct (step_outside_cursor l s s' Hl E) as (H1 & H2 & H3).
    unfold CursorOnce, logged_once in *. rewrite H1, H2, H3. exact HC. }
  pose proof (CursorOnce_logged s HC) as HL.
  destruct l; try (apply Hother; exact I); clear Hother; cbn [step].
  - destruct (starter s) eqn:Es; try discriminate. intros [= <-].
    assert (Hpc : pc (wk s) = WNotCreated).
    { destruct HI as (_ & _ & H & _). rewrite Es in H. exact H. }
    unfold worker_start_create. revert Hpc HC. unfold CursorOnce. open_sys s.
    intros -> HC. destruct created; ssimpl; exact HC.
  - destruct (is_wpc (pc (wk s)) WInit) eqn:Ep; try discriminate. intros [= <-].
    apply is_wpc_eq in Ep. unfold worker_init.
    pose proof (gdigrab_dc_init_region W (url s) (ctx s)) as Hr. cbv zeta in Hr.
    pose proof (gdigrab_dc_init_spec W (url s) (ctx s)) as Hs. cbv zeta in Hs.
    destruct (gdigrab_dc_init W (url s) (ctx s)) as [[r g'] ev'].
    cbn [fst snd] in Hr, Hs. destruct Hr as [Hr _]. apply cursor_errors_none in Hr.
    assert (H0 : cursor_errors (events s ++ ev') = 0%nat).
    { rewrite cursor_errors_app, Hr. unfold CursorOnce in HC. rewrite Ep in HC.
      rewrite HC. reflexivity. }
    destruct (negb (r =? 0)).
    + apply CursorOnce_end. left. revert H0. open_sys s. auto.
    + unfold CursorOnce, logged_once. revert H0. open_sys s. auto.
  - destruct (is_wpc (pc (wk s)) WLoop) eqn:Ep; try discriminate. intros [= <-].
    apply is_wpc_eq in Ep. unfold worker_grab.
    destruct (grab_worker_quit (ctx s)); [apply CursorOnce_end; exact HL |].
    cbv zeta. unfold paint_mouse_pointer. revert HL. clear.
    unfold CursorOnce, logged_once. open_sys s. intros HL.
    destruct cursor_failed, r, i as [| i]; ssimpl;
      repeat match goal with
             | |- context [if ?b then _ else _] => destruct b eqn:?; ssimpl
             end;
      rewrite ?cursor_errors_app;
      repeat match goal with
             | |- context [cursor_errors [?e]] =>
                 change (cursor_errors [e]) with 0%nat
             | |- context [cursor_errors [?e; ?e']] =>
                 change (cursor_errors [e; e']) with 0%nat
             end;
      rewrite ?Nat.add_0_r; try exact HL.
    all: tests; change (cursor_errors [Log MsgCursor]) with 1%nat;
      destruct HL as [-> | [_ HL]]; [right; split; [reflexivity | discriminate] | contradiction].
  - destruct (is_wpc (pc (wk s)) WGrabbed) eqn:Ep; try discriminate. intros [= <-].
    apply is_wpc_eq in Ep. unfold worker_lock, worker_hand_over. cbv zeta.
    destruct (negb _ && _).
    + apply CursorOnce_end. revert HL. unfold logged_once. open_sys s. auto.
    + destruct (grab_worker_quit (ctx s)); [apply CursorOnce_end; exact HL |].
      revert HL. unfold CursorOnce, logged_once.
      destruct (frame_in_stock (ctx s)); open_sys s; auto.
  - destruct (is_wpc (pc (wk s)) WWaitStock && woken_w s) eqn:Ep; try discriminate.
    intros [= <-]. unfold worker_hand_over.
    destruct (frame_in_stock (ctx s)).
    + revert HL. unfold CursorOnce, logged_once. open_sys s; auto.
    + destruct (grab_worker_quit (ctx s)); [apply CursorOnce_end; exact HL |].
      revert HL. unfold CursorOnce, logged_once. open_sys s; auto.
  - destruct (is_wpc (pc (wk s)) WPace) eqn:Ep; try discriminate. intros [= <-].
    unfold worker_pace. revert HL. unfold CursorOnce, logged_once. open_sys s. auto.
Qed.

Lemma reachable_CursorOnce u o s : reachable u o s -> CursorOnce s.
Proof.
  intros [tr H].
  assert (G : forall tr s0 s1, Inv s0 -> CursorOnce s0 -> run tr s0 = Some s1 ->
              CursorOnce s1).
  { clear. induction tr as [| l tr IH]; intros s0 s1 HI HC; cbn [run].
    - intros [= <-]. exact HC.
    - destruct (step l s0) as [s2 |] eqn:E; [| discriminate].
      apply IH; [exact (step_Inv l s0 s2 HI E) | exact (step_CursorOnce l s0 s2 HI HC E)]. }
  apply (G tr _ _ (Inv_init u o)); [| exact H].
  reflexivity.
Qed.

(** X12.  However often [paint_mouse_pointer] fails, its error is logged at
    most once in a run; once it has been logged,
    [cursor_error_printed] is set. *)
Theorem cursor_error_logged_once u o s :
  reachable u o s ->
  (cursor_errors (events s) <= 1)%nat /\
  (cursor_errors (events s) = 1%nat -> cursor_error_printed (ctx s) <> 0).
Proof.
  intros R. pose proof (CursorOnce_logged s (reachable_CursorOnce u o s R)) as H.
  unfold logged_once in H. destruct H as [-> | [-> H]].
  - split; [lia | discriminate].
  - split; [lia | intros _; exact H].
Qed.

Lemma cursor_error_logged_once_witness :
  let s := after cursor_fails_twice "desktop" defaults in
  (cursor_errors (events s) <= 1)%nat /\
  (cursor_errors (events s) = 1%nat -> cursor_error_printed (ctx s) <> 0).
Proof.
  apply (cursor_error_logged_once "desktop" defaults).
  exists cursor_fails_twice. vm_compute. reflexivity.
Defined.

(** ** gdigrab_read_packet *)

(** X13.  [gdigrab_read_packet] enters [pthread_cond_wait] exactly when no error
    is recorded, the slot is empty and [AVFMT_FLAG_NONBLOCK] is off; in
    every other case it returns in the same critical section, after a
    broadcast, with one more return value recorded. *)
Theorem read_packet_waits_iff nonblock alloc_ok s s' :
  step (Pull nonblock alloc_ok) s = Some s' ->
  (reader s' = RWait <->
   error_code (ctx s) = 0 /\ frame_in_stock (ctx s) = None /\ nonblock = false) /\
  (reader s' = RWait -> woken_r s' = false /\ pulls s' = pulls s /\ ctx s' = ctx s) /\
  (reader s' <> RWait ->
   reader s' = RIdle /\ woken_w s' = true /\
   List.length (pulls s') = S (List.length (pulls s))).
Proof.
  cbn [step]. destruct (reader s) eqn:Er; try discriminate. intros [= <-].
  unfold read_packet_enter, gdigrab_copy_frame.
  destruct (Z.eqb_spec (error_code (ctx s)) 0) as [E | E]; cbn [negb].
  - destruct (frame_in_stock (ctx s)) as [j |] eqn:Ef.
    + destruct alloc_ok; cbn [negb];
        [destruct (biBitCount (bmi (ctx s)) <=? 8) |];
        revert E Ef; open_sys s; intros E Ef;
        (split; [split; [discriminate | intros (_ & H & _); discriminate H] |]);
        (split; [discriminate | auto]).
    + destruct nonblock; revert E Ef; open_sys s; intros E Ef.
      * split; [split; [discriminate | intros (_ & _ & H); discriminate H] |].
        split; [discriminate | auto].
      * split; [split; auto |]. split; [auto | intros H; contradiction H; reflexivity].
  - revert E; open_sys s; intros E.
    split; [split; [discriminate | intros (H & _); contradiction] |].
    split; [discriminate | auto].
Qed.

Lemma read_packet_waits_iff_witness :
  let s := after (startup desk) "desktop" defaults in
  let s' := after (startup desk ++ [Pull false true]) "desktop" defaults in
  (reader s' = RWait <->
   error_code (ctx s) = 0 /\ frame_in_stock (ctx s) = None /\ false = false) /\
  (reader s' = RWait -> woken_r s' = false /\ pulls s' = pulls s /\ ctx s' = ctx s) /\
  (reader s' <> RWait ->
   reader s' = RIdle /\ woken_w s' = true /\
   List.length (pulls s') = S (List.length (pulls s))).
Proof.
  cbv zeta.
  apply (read_packet_waits_iff false true (after (startup desk) "desktop" defaults)).
  vm_compute. reflexivity.
Defined.

(** X14.  When [av_new_packet] fails, [gdigrab_read_packet] returns
    [AVERROR(ENOMEM)] and leaves the frame in the slot; the next call whose
    allocation succeeds delivers that very frame and empties the slot. *)
Theorem enomem_keeps_the_frame nonblock nonblock' s s1 j :
  error_code (ctx s) = 0 -> frame_in_stock (ctx s) = Some j ->
  step (Pull nonblock false) s = Some s1 ->
  pulls s1 = AVERROR ENOMEM :: pulls s /\
  ctx s1 = ctx s /\ pending s1 = pending s /\ delivered s1 = delivered s /\
  exists s2 p,
    step (Pull nonblock' true) s1 = Some s2 /\
    delivered s2 = p :: delivered s /\ pending s = [frame_of_packet p] /\
    pulls s2 = size p :: pulls s1 /\ frame_in_stock (ctx s2) = None.
Proof.
  intros He Hf. cbn [step]. destruct (reader s) eqn:Er; try discriminate.
  intros [= <-]. unfold read_packet_enter, gdigrab_copy_frame, pending.
  rewrite He, Hf. change (negb (0 =? 0)) with false. cbn [negb]. cbv iota.
  revert Er He Hf. open_sys s. intros -> -> ->.
  split_all; try reflexivity.
  change (negb (0 =? 0)) with false. cbv iota.
  destruct (biBitCount (bmi g) <=? 8); eexists; eexists; ssimpl;
    (split; [reflexivity |]); split_all; reflexivity.
Qed.

Lemma enomem_keeps_the_frame_witness :
  let s := after (startup desk ++ iteration_of Grabbed 2000) "desktop" defaults in
  let s1 := after (startup desk ++ iteration_of Grabbed 2000 ++ [Pull true false])
              "desktop" defaults in
  pulls s1 = AVERROR ENOMEM :: pulls s /\
  ctx s1 = ctx s /\ pending s1 = pending s /\ delivered s1 = delivered s /\
  exists s2 p,
    step (Pull true true) s1 = Some s2 /\
    delivered s2 = p :: delivered s /\ pending s = [frame_of_packet p] /\
    pulls s2 = size p :: pulls s1 /\ frame_in_stock (ctx s2) = None.
Proof.
  cbv zeta.
  apply (enomem_keeps_the_frame true true
           (after (startup desk ++ iteration_of Grabbed 2000) "desktop" defaults) _ 0%nat);
    vm_compute; reflexivity.
Defined.

Lemma Inv_grabbed s :
  Inv s -> pc (wk s) = WGrabbed ->
  exists t r rest, iters s = (t, r) :: rest /\ error_code (ctx s) = 0 /\
    l_time_start (wk s) = t /\
    if grab_ok r
    then exists j, l_frame_in_stock (wk s) = Some j /\
                   dib s j = Some (List.length rest)
    else l_frame_in_stock (wk s) = None.
Proof.
  intros HI Hpc. revert Hpc HI. open_state s.
  intros -> (_ & _ & _ & t & r & rest & Hit & _ & _ & Hec & _ & _ & _ & _ & Hts & Hg).
  exists t, r, rest. split; [exact Hit |]. split; [exact Hec |]. split; [exact Hts |].
  destruct (grab_ok r); [| tauto].
  exists i. tauto.
Qed.

(** X15.  The hand-over.  When the worker, after its grab, gets past the lock
    and the slot is free, it stores the start time of the iteration in
    [time_frame] and its frame pointer in the slot -- the buffer of a
    successful grab, [NULL] after a failed one -- and wakes everybody.  A
    reader that was waiting then gets the packet of that iteration, or,
    after a failed grab, [AVERROR(EIO)] with "no captured image" logged,
    although no error code is recorded. *)
Theorem hand_over_serves_the_reader u o s s1 :
  reachable u o s -> step WorkerLock s = Some s1 -> pc (wk s1) = WPace ->
  exists t r rest,
    iters s = (t, r) :: rest /\
    woken_r s1 = true /\ time_frame (ctx s1) = t /\ error_code (ctx s1) = 0 /\
    pending s1 =
      (if grab_ok r then [mk_frame t (Some (List.length rest))] else []) /\
    (reader s = RWait -> forall alloc_ok, exists s2,
       step (PullWake alloc_ok) s1 = Some s2 /\
       if grab_ok r
       then alloc_ok = true ->
            exists p, delivered s2 = p :: delivered s /\ pts p = t /\
                      pixels p = Some (List.length rest)
       else delivered s2 = delivered s /\
            pulls s2 = AVERROR EIO :: pulls s /\
            In (Log MsgNoCapturedImage) (events s2)).
Proof.
  intros R E Hp. pose proof (reachable_Inv u o s R) as HI. clear R u o.
  cbn [step] in E. destruct (is_wpc (pc (wk s)) WGrabbed) eqn:Ep; try discriminate.
  injection E as <-. apply is_wpc_eq in Ep.
  destruct (Inv_grabbed s HI Ep) as (t & r & rest & Hit & Hec & Hts & Hg).
  exists t, r, rest. split; [exact Hit |]. clear HI Hit Ep.
  revert Hp. unfold worker_lock, worker_hand_over. cbv zeta.
  destruct (negb _ && _);
    [intros Hp; rewrite (proj1 (worker_end_locals _)) in Hp; discriminate Hp |].
  destruct (grab_worker_quit (ctx s));
    [intros Hp; rewrite (proj1 (worker_end_locals _)) in Hp; discriminate Hp |].
  destruct (frame_in_stock (ctx s)) eqn:Ef;
    [revert Ef; open_sys s; intros _ Hp; discriminate Hp |].
  intros _. cbn [step]. unfold read_packet_resume, gdigrab_copy_frame, pending.
  clear Ef. revert Hec Hts Hg. open_sys s. intros -> -> Hg.
  split; [reflexivity |]. split; [reflexivity |]. split; [reflexivity |].
  destruct (grab_ok r).
  - destruct Hg as (j & -> & Hd).
    destruct j as [| j]; ssimpl; rewrite Hd; (split; [reflexivity |]);
      intros ->; intros alloc_ok;
      (destruct alloc_ok; cbn [negb];
       [destruct (biBitCount (bmi g) <=? 8) |]);
      (eexists; split; [reflexivity |]); try discriminate;
      intros _; ssimpl; rewrite ?Hd; eexists;
      (split; [reflexivity | split; reflexivity]).
  - rewrite Hg. ssimpl. split; [reflexivity |].
    intros ->. intros alloc_ok. eexists. split; [reflexivity |]. ssimpl.
    split; [reflexivity |]. split; [reflexivity |].
    apply in_or_app. right. left. reflexivity.
Qed.

Lemma hand_over_serves_the_reader_witness :
  let s := after reader_waits_first "desktop" defaults in
  let s1 := after (reader_waits_first ++ [WorkerLock]) "desktop" defaults in
  exists t r rest,
    iters s = (t, r) :: rest /\
    woken_r s1 = true /\ time_frame (ctx s1) = t /\ error_code (ctx s1) = 0 /\
    pending s1 =
      (if grab_ok r then [mk_frame t (Some (List.length rest))] else []) /\
    (reader s = RWait -> forall alloc_ok, exists s2,
       step (PullWake alloc_ok) s1 = Some s2 /\
       if grab_ok r
       then alloc_ok = true ->
            exists p, delivered s2 = p :: delivered s /\ pts p = t /\
                      pixels p = Some (List.length rest)
       else delivered s2 = delivered s /\
            pulls s2 = AVERROR EIO :: pulls s /\
            In (Log MsgNoCapturedImage) (events s2)).
Proof.
  cbv zeta.
  apply (hand_over_serves_the_reader "desktop" defaults
           (after reader_waits_first "desktop" defaults)).
  - exists reader_waits_first. vm_compute. reflexivity.
  - vm_compute. reflexivity.
  - vm_compute. reflexivity.
Defined.

(** ** Pacing over many iterations *)

Lemma pace_no_wrap T s b t1 t2 :
  small T -> small s -> small b -> small t1 -> small t2 ->
  p_usleep (pace T s b t1 t2) =
    (if 0 <? T - (t1 - s) + b then Some (T - (t1 - s) + b) else None) /\
  p_sleep_balance (pace T s b t1 t2) = Z.max (b + (T - (t2 - s))) (- T).
Proof.
  unfold small. intros HT Hs Hb H1 H2. unfold pace.
  cbn [p_usleep p_sleep_balance].
  rewrite (int64_id (t1 - s)) by (unfold in_int64; lia).
  rewrite (int64_id (T - (t1 - s))) by (unfold in_int64; lia).
  rewrite (int64_id (T - (t1 - s) + b)) by (unfold in_int64; lia).
  rewrite (int64_id (t2 - t1)) by (unfold in_int64; lia).
  rewrite (int64_id (T - (t1 - s) - (t2 - t1))) by (unfold in_int64; lia).
  rewrite (int64_id (b + (T - (t1 - s) - (t2 - t1)))) by (unfold in_int64; lia).
  rewrite (int64_id (- T)) by (unfold in_int64; lia).
  split; [reflexivity |].
  destruct (Z.ltb_spec (b + (T - (t1 - s) - (t2 - t1))) (- T)); lia.
Qed.

(** X16.  For a frame period below 2^32 microseconds, with a clock that
    does not run backwards and an [av_usleep] that does not return before
    the time it was given, one pass of the pacing block keeps the balance
    between [-T] and 0, and the iteration has taken at least [T] plus what
    the balance lost. *)
Theorem pace_balance_bounds T s b t1 t2 :
  T < 2 ^ 32 -> small s -> small t1 -> small t2 ->
  - T <= b <= 0 -> sleeps_enough T s b t1 t2 ->
  let b' := p_sleep_balance (pace T s b t1 t2) in
  - T <= b' <= 0 /\ s + T + b - b' <= t2.
Proof.
  intros HT Hs H1 H2 Hb [Hclock Hsleep]. cbv zeta.
  assert (HsT : small T) by (unfold small in *; lia).
  assert (Hsb : small b) by (unfold small in *; lia).
  destruct (pace_no_wrap T s b t1 t2 HsT Hs Hsb H1 H2) as [Eu Eb].
  unfold av_usleep_usec in Hsleep. rewrite Eu in Hsleep. rewrite Eb.
  destruct (Z.ltb_spec 0 (T - (t1 - s) + b)) as [Hpos | Hneg]; [| lia].
  rewrite Z.mod_small in Hsleep by lia. lia.
Qed.

Lemma pace_balance_bounds_witness :
  let b' := p_sleep_balance (pace 33333 1000000 (-200) 1005000 1033500) in
  - 33333 <= b' <= 0 /\ 1000000 + 33333 + -200 - b' <= 1033500.
Proof.
  apply (pace_balance_bounds 33333 1000000 (-200) 1005000 1033500);
    unfold small, sleeps_enough; try lia.
  vm_compute. split; [split |]; discriminate.
Defined.

(** A frame period of 5000 s: the request of 4999999990 microseconds
    reaches [av_usleep] as 705032694, and a sleep of just that length
    leaves a positive balance -- the bound on the period is needed. *)
Example long_period_sleeps_short :
  let r := pace 5000000000 1000 0 1010 (1010 + 705032694) in
  p_usleep r = Some 4999999990 /\ av_usleep_usec r = Some 705032694 /\
  sleeps_enough 5000000000 1000 0 1010 (1010 + 705032694) /\
  0 < p_sleep_balance r.
Proof.
  vm_compute. repeat split; try reflexivity; discriminate.
Qed.

Lemma pace_loop_bounds T rs : forall s b,
  T < 2 ^ 32 -> small s -> - T <= b <= 0 -> punctual T s b rs ->
  - T <= snd (pace_loop T s b rs) <= 0 /\
  s + Z.of_nat (List.length rs) * T + b - snd (pace_loop T s b rs)
    <= fst (pace_loop T s b rs).
Proof.
  induction rs as [| [t1 t2] rs IH]; intros s b HT Hs Hb; cbn [pace_loop punctual].
  - intros _. cbn [fst snd List.length]. split; [exact Hb | lia].
  - intros (H1 & H2 & Hse & Hp).
    assert (HsT : small T) by (unfold small in *; lia).
    assert (Hsb : small b) by (unfold small in *; lia).
    destruct (pace_no_wrap T s b t1 t2 HsT Hs Hsb H1 H2) as [Eu Eb].
    assert (Hb' : - T <= p_sleep_balance (pace T s b t1 t2) <= 0 /\
                  s + T + b - p_sleep_balance (pace T s b t1 t2) <= t2).
    { destruct Hse as [Hclock Hsleep].
      unfold av_usleep_usec in Hsleep. rewrite Eu in Hsleep. rewrite Eb.
      destruct (Z.ltb_spec 0 (T - (t1 - s) + b)) as [Hpos | Hneg]; [| lia].
      rewrite Z.mod_small in Hsleep by lia. lia. }
    destruct Hb' as [Hb1 Hb2].
    destruct (IH t2 _ HT H2 Hb1 Hp) as (G1 & G2).
    split; [exact G1 |]. rewrite length_cons, Nat2Z.inj_succ. lia.
Qed.

(** X17.  The worker never runs ahead of the frame rate: for a frame period
    below 2^32 microseconds, with a clock that does not run backwards and
    an [av_usleep] that does not return before the time it was given, [n]
    iterations starting with an empty balance take at least [n] frame
    periods. *)
Theorem pace_loop_not_faster T s rs :
  0 <= T < 2 ^ 32 -> small s -> punctual T s 0 rs ->
  s + Z.of_nat (List.length rs) * T <= fst (pace_loop T s 0 rs) /\
  - T <= snd (pace_loop T s 0 rs) <= 0.
Proof.
  intros HT Hs Hp.
  destruct (pace_loop_bounds T rs s 0 ltac:(lia) Hs ltac:(lia) Hp) as (G1 & G2).
  split; [lia | exact G1].
Qed.

Lemma pace_loop_not_faster_witness :
  let rs := [(1005000, 1033500); (1040000, 1066700); (1150000, 1150000)] in
  1000000 + Z.of_nat (List.length rs) * 33333 <= fst (pace_loop 33333 1000000 0 rs) /\
  - 33333 <= snd (pace_loop 33333 1000000 0 rs) <= 0.
Proof.
  cbv zeta.
  apply (pace_loop_not_faster 33333 1000000
           [(1005000, 1033500); (1040000, 1066700); (1150000, 1150000)]);
    unfold small; try lia.
  vm_compute. repeat split; discriminate.
Defined.

(** One pass without wrap-around, for readings of a clock that started at
    0 and a balance of up to two such readings. *)
Lemma pace_no_wrap_wide T s b t1 t2 :
  clock_reading T -> clock_reading s -> clock_reading t1 -> clock_reading t2 ->
  - 2 ^ 61 <= b <= 2 ^ 61 ->
  p_sleep_balance (pace T s b t1 t2) = Z.max (b + (T - (t2 - s))) (- T).
Proof.
  unfold clock_reading. intros HT Hs H1 H2 Hb. unfold pace.
  cbn [p_sleep_balance].
  rewrite (int64_id (t1 - s)) by (unfold in_int64; lia).
  rewrite (int64_id (T - (t1 - s))) by (unfold in_int64; lia).
  rewrite (int64_id (t2 - t1)) by (unfold in_int64; lia).
  rewrite (int64_id (T - (t1 - s) - (t2 - t1))) by (unfold in_int64; lia).
  rewrite (int64_id (b + (T - (t1 - s) - (t2 - t1)))) by (unfold in_int64; lia).
  rewrite (int64_id (- T)) by (unfold in_int64; lia).
  destruct (Z.ltb_spec (b + (T - (t1 - s) - (t2 - t1))) (- T)); lia.
Qed.

Lemma pace_loop_exact T s0 rs : forall s b k,
  0 <= T -> clock_reading s0 -> clock_reading s ->
  0 <= k -> b = k * T - (s - s0) -> - T <= b ->
  (k + Z.of_nat (List.length rs)) * T <= 2 ^ 60 ->
  Forall (fun p => clock_reading (fst p) /\ clock_reading (snd p)) rs ->
  unclamped T s b rs ->
  fst (pace_loop T s b rs) =
    s + Z.of_nat (List.length rs) * T + b - snd (pace_loop T s b rs) /\
  - T <= snd (pace_loop T s b rs).
Proof.
  induction rs as [| [t1 t2] rs IH]; intros s b k HT Hs0 Hs Hk Hb HbT Hn Hrs;
    cbn [pace_loop unclamped].
  - intros _. cbn [fst snd List.length]. split; [lia | exact HbT].
  - intros [Hc Hu].
    apply Forall_cons_iff in Hrs. destruct Hrs as [[H1 H2] Hrs]. cbn [fst snd] in H1, H2.
    rewrite length_cons, Nat2Z.inj_succ in Hn |- *.
    assert (HkT : 0 <= k * T) by nia.
    assert (HnT : 0 <= Z.of_nat (List.length rs) * T) by nia.
    assert (Hsum : k * T + T + Z.of_nat (List.length rs) * T <= 2 ^ 60) by nia.
    assert (HT' : clock_reading T) by (unfold clock_reading; lia).
    assert (Hbw : - 2 ^ 61 <= b <= 2 ^ 61) by (unfold clock_reading in *; lia).
    pose proof (pace_no_wrap_wide T s b t1 t2 HT' Hs H1 H2 Hbw) as Eb.
    rewrite Eb in Hu |- *.
    assert (Em : Z.max (b + (T - (t2 - s))) (- T) = b + (T - (t2 - s))) by lia.
    rewrite Em in Hu |- *.
    assert (Hb1 : b + (T - (t2 - s)) = (k + 1) * T - (t2 - s0)) by lia.
    assert (Hn1 : (k + 1 + Z.of_nat (List.length rs)) * T <= 2 ^ 60) by lia.
    destruct (IH t2 (b + (T - (t2 - s))) (k + 1) HT Hs0 H2 ltac:(lia) Hb1
                Hc Hn1 Hrs Hu) as [G1 G2].
    split; [rewrite G1; lia | exact G2].
Qed.

(** X18.  As long as the balance does not have to be raised to its floor, the
    lost time is made up: [n] iterations that start with an empty balance
    end exactly [n] frame periods after the start, less the final balance,
    that is at most one period late (for readings of a clock that started
    at 0 and runs of up to 2^60 microseconds). *)
Theorem pace_loop_on_schedule T s rs :
  0 <= T -> clock_reading s ->
  Z.of_nat (List.length rs) * T <= 2 ^ 60 ->
  Forall (fun p => clock_reading (fst p) /\ clock_reading (snd p)) rs ->
  unclamped T s 0 rs ->
  fst (pace_loop T s 0 rs) =
    s + Z.of_nat (List.length rs) * T - snd (pace_loop T s 0 rs) /\
  fst (pace_loop T s 0 rs) <= s + (Z.of_nat (List.length rs) + 1) * T.
Proof.
  intros HT Hs Hn Hrs Hu.
  destruct (pace_loop_exact T s rs s 0 0 HT Hs Hs ltac:(lia) ltac:(lia) ltac:(lia)
              ltac:(lia) Hrs Hu) as [G1 G2].
  split; lia.
Qed.

Lemma pace_loop_on_schedule_witness :
  let rs := [(1005000, 1033500); (1040000, 1066700)] in
  fst (pace_loop 33333 1000000 0 rs) =
    1000000 + Z.of_nat (List.length rs) * 33333 - snd (pace_loop 33333 1000000 0 rs) /\
  fst (pace_loop 33333 1000000 0 rs) <=
    1000000 + (Z.of_nat (List.length rs) + 1) * 33333.
Proof.
  cbv zeta.
  apply (pace_loop_on_schedule 33333 1000000 [(1005000, 1033500); (1040000, 1066700)]);
    unfold clock_reading; try lia.
  - vm_compute. discriminate.
  - repeat (apply Forall_cons; [cbn [fst snd]; lia |]). apply Forall_nil.
  - vm_compute. repeat split; discriminate.
Defined.

(** ** The worker paces as [pace_loop] does *)

Lemma pace_loop_snoc T rs : forall s b t1 t2,
  pace_loop T s b (rs ++ [(t1, t2)]) =
  (t2, p_sleep_balance
         (pace T (fst (pace_loop T s b rs)) (snd (pace_loop T s b rs)) t1 t2)).
Proof.
  induction rs as [| [a1 a2] rs IH]; intros s b t1 t2; cbn [app pace_loop fst snd].
  - reflexivity.
  - apply IH.
Qed.

Lemma worker_end_wk s : wk (worker_end s) = set_pc WExited (wk s).
Proof.
  unfold worker_end. destruct (gdigrab_dc_destroy (ctx s)) as [g' ev'].
  open_sys s. reflexivity.
Qed.

Lemma Paced_end now rs s : Paced (Some now) rs (worker_end s).
Proof. unfold Paced. rewrite worker_end_wk. exact I. Qed.

Lemma step_Paced l s s' a :
  Inv s -> Paced (fst a) (snd a) s -> step l s = Some s' ->
  Paced (fst (track a l)) (snd (track a l)) s'.
Proof.
  destruct a as [o rs]. cbn [fst snd]. intros HI HP.
  assert (Hother : match l with
                   | StartLock | StartWake | Pull _ _ | PullWake _ | Close => True
                   | _ => False
                   end -> step l s = Some s' ->
                   Paced (fst (track (o, rs) l)) (snd (track (o, rs) l)) s').
  { intros Hl E. destruct (step_other_threads l s s' Hl E) as [Hw _].
    destruct l; try contradiction; cbn [track fst snd]; unfold Paced in *;
      rewrite Hw; exact HP. }
  destruct l; try (apply Hother; exact I); clear Hother; cbn [step track fst snd].
  - destruct (starter s) eqn:Es; try discriminate. intros [= <-].
    assert (Hpc : pc (wk s) = WNotCreated).
    { destruct HI as (_ & _ & H & _). rewrite Es in H. exact H. }
    unfold worker_start_create. revert Hpc HP. unfold Paced. open_sys s.
    intros ->. destruct o; [contradiction |]. intros [_ ->].
    destruct created; ssimpl; auto.
  - destruct (is_wpc (pc (wk s)) WInit) eqn:Ep; try discriminate. intros [= <-].
    apply is_wpc_eq in Ep.
    assert (Ho : o = None /\ rs = []).
    { revert HP. unfold Paced. rewrite Ep. destruct o; [contradiction | tauto]. }
    destruct Ho as [-> ->]. unfold worker_init.
    destruct (gdigrab_dc_init W (url s) (ctx s)) as [[r g'] ev'].
    destruct (negb (r =? 0)); [apply Paced_end |].
    unfold Paced. open_sys s. auto.
  - destruct (is_wpc (pc (wk s)) WLoop) eqn:Ep; try discriminate. intros [= <-].
    apply is_wpc_eq in Ep. revert HP. unfold Paced. rewrite Ep.
    destruct o as [now |]; [| intros [[H | H] _]; discriminate H].
    unfold worker_grab.
    destruct (grab_worker_quit (ctx s)); [intros _; rewrite worker_end_wk; exact I |].
    cbv zeta. unfold paint_mouse_pointer. clear. open_sys s.
    destruct cursor_failed, r, i as [| i]; ssimpl;
      repeat match goal with
             | |- context [if ?b then _ else _] => destruct b; ssimpl
             end; auto.
  - destruct (is_wpc (pc (wk s)) WGrabbed) eqn:Ep; try discriminate. intros [= <-].
    apply is_wpc_eq in Ep. revert HP. unfold Paced. rewrite Ep.
    destruct o as [now |]; [| intros [[H | H] _]; discriminate H].
    unfold worker_lock, worker_hand_over. cbv zeta.
    destruct (negb _ && _); [intros _; rewrite worker_end_wk; exact I |].
    destruct (grab_worker_quit (ctx s)); [intros _; rewrite worker_end_wk; exact I |].
    destruct (frame_in_stock (ctx s)); clear; open_sys s; auto.
  - destruct (is_wpc (pc (wk s)) WWaitStock && woken_w s) eqn:Ep; try discriminate.
    intros [= <-]. apply andb_true_iff in Ep. destruct Ep as [Ep _].
    apply is_wpc_eq in Ep. revert HP. unfold Paced. rewrite Ep.
    destruct o as [now |]; [| intros [[H | H] _]; discriminate H].
    unfold worker_hand_over.
    destruct (frame_in_stock (ctx s)); [clear; open_sys s; auto |].
    destruct (grab_worker_quit (ctx s)); [intros _; rewrite worker_end_wk; exact I |].
    clear; open_sys s; auto.
  - destruct (is_wpc (pc (wk s)) WPace) eqn:Ep; try discriminate. intros [= <-].
    apply is_wpc_eq in Ep. revert HP. unfold Paced. rewrite Ep.
    destruct o as [now |]; [| intros [[H | H] _]; discriminate H].
    unfold worker_pace. clear. open_sys s. intros [-> ->].
    rewrite pace_loop_snoc. cbn [fst snd]. auto.
Qed.

Lemma track_fold tr : forall o rs,
  fold_left track tr (o, rs) =
  (match o with Some t => Some t | None => start_time tr end,
   rs ++ readings_of tr).
Proof.
  induction tr as [| l tr IH]; intros o rs; cbn [fold_left start_time readings_of].
  - rewrite app_nil_r. destruct o; reflexivity.
  - destruct l; cbn [track fst snd]; rewrite IH; try reflexivity.
    + destruct o; reflexivity.
    + rewrite <- app_assoc. reflexivity.
Qed.

Lemma run_Paced tr : forall s s' a,
  Inv s -> Paced (fst a) (snd a) s -> run tr s = Some s' ->
  Paced (fst (fold_left track tr a)) (snd (fold_left track tr a)) s'.
Proof.
  induction tr as [| l tr IH]; intros s s' a HI HP; cbn [run fold_left].
  - intros [= <-]. exact HP.
  - destruct (step l s) as [s1 |] eqn:E; [| discriminate].
    apply IH; [exact (step_Inv l s s1 HI E) | exact (step_Paced l s s1 a HI HP E)].
Qed.

(** X19.  At the head of the loop the locals [time_end] and [sleep_balance] of
    the worker are what [pace_loop] computes from the reading taken before
    the loop and the readings of the pacing blocks passed so far, with the
    [time_base] that [gdigrab_dc_init] has set. *)
Theorem worker_paces_as_pace_loop tr u o s :
  run tr (init u o) = Some s -> pc (wk s) = WLoop ->
  exists now, start_time tr = Some now /\
    let e := pace_loop (l_time_base (wk s)) now 0 (readings_of tr) in
    l_time_end (wk s) = fst e /\ l_sleep_balance (wk s) = snd e.
Proof.
  intros Hr Hpc.
  pose proof (run_Paced tr (init u o) s (None, []) (Inv_init u o)) as H.
  rewrite track_fold in H. cbn [fst snd app] in H.
  specialize (H (conj (or_introl eq_refl) eq_refl) Hr).
  unfold Paced in H. rewrite Hpc in H.
  destruct (start_time tr) as [now |]; [| destruct H as [[H | H] _]; discriminate H].
  exists now. split; [reflexivity | exact H].
Qed.

Lemma worker_paces_as_pace_loop_witness :
  let tr := startup desk ++ iteration_of Grabbed 2000 ++ [Pull false true] ++ iteration_of Grabbed 35000 in
  let s := after tr "desktop" defaults in
  exists now, start_time tr = Some now /\
    let e := pace_loop (l_time_base (wk s)) now 0 (readings_of tr) in
    l_time_end (wk s) = fst e /\ l_sleep_balance (wk s) = snd e.
Proof.
  cbv zeta.
  apply (worker_paces_as_pace_loop
           (startup desk ++ iteration_of Grabbed 2000 ++ [Pull false true] ++ iteration_of Grabbed 35000)
           "desktop" defaults);
    vm_compute; reflexivity.
Defined.

(** ** Failures after the first frame, and the frames of a run *)

(** X20.  Only the first grab can be fatal.  Once the first grab of a run has
    succeeded, no later failure is ever recorded in [error_code], and the
    worker leaves its loop on a quit request only -- as long as the
    iteration counter [sn] has not wrapped. *)
Theorem later_failures_are_absorbed u o s t r :
  reachable u o s -> first_iter (iters s) = Some (t, r) -> grab_ok r = true ->
  Z.of_nat (List.length (iters s)) <= 2 ^ 31 ->
  error_code (ctx s) = 0 /\
  (pc (wk s) = WExited -> grab_worker_quit (ctx s) = true).
Proof.
  intros R Hf Hr Hn. pose proof (reachable_Inv u o s R) as HI.
  destruct (Inv_exit s HI) as [Hrun Hexit].
  assert (Hx : pc (wk s) = WExited ->
               error_code (ctx s) = 0 /\ grab_worker_quit (ctx s) = true).
  { intros Hpc. destruct (Hexit Hpc) as [(H1 & H2 & _) | (_ & [Hnil | H])];
      [tauto | rewrite Hnil in Hf; discriminate Hf |].
    exfalso. destruct H as (t' & r' & rest & Hit & Hbad & Hsn & _).
    rewrite Hit in Hf, Hn. cbn [List.length] in Hn.
    assert (Hrest : rest = []).
    { destruct rest as [| x rest]; [reflexivity |]. exfalso.
      rewrite int32_id in Hsn; [cbn [List.length] in Hsn; lia |].
      unfold in_int32. cbn [List.length] in *. lia. }
    rewrite Hrest in Hf. cbn [first_iter] in Hf. congruence. }
  split; [| intros Hpc; exact (proj2 (Hx Hpc))].
  destruct (pc (wk s)); try (apply Hrun; discriminate).
  exact (proj1 (Hx eq_refl)).
Qed.

Lemma later_failures_are_absorbed_witness :
  let s := after ten_with_fifth_failing "desktop" defaults in
  error_code (ctx s) = 0 /\
  (pc (wk s) = WExited -> grab_worker_quit (ctx s) = true).
Proof.
  cbv zeta.
  apply (later_failures_are_absorbed "desktop" defaults _ 1000 Grabbed).
  - exists ten_with_fifth_failing. vm_compute. reflexivity.
  - vm_compute. reflexivity.
  - reflexivity.
  - vm_compute. discriminate.
Defined.

(** X21.  The worker drops no frame: between two iterations of a running
    worker, the successful grabs so far are exactly the frame waiting in
    the slot, if any, followed by the delivered packets, in capture
    order, each with the start time of its iteration. *)
Theorem worker_drops_no_frame u o s :
  reachable u o s -> pc (wk s) = WLoop \/ pc (wk s) = WPace ->
  frames_of (iters s) = pending s ++ map frame_of_packet (delivered s) /\
  (List.length (delivered s) + List.length (pending s) =
   List.length (filter (fun x => grab_ok (snd x)) (iters s)))%nat.
Proof.
  intros R Hpc. pose proof (reachable_Inv u o s R) as HI.
  destruct (Inv_between_iterations s HI Hpc) as [Ho Hd].
  destruct (Inv_account s HI) as [Ha _]. rewrite Hd, Ho in Ha. cbn [app] in Ha.
  split; [exact Ha |].
  assert (Hlen : forall l, List.length (frames_of l) =
                           List.length (filter (fun x => grab_ok (snd x)) l)).
  { induction l as [| [t r] l IH]; cbn [frames_of filter snd]; [reflexivity |].
    destruct (grab_ok r); cbn [List.length]; rewrite IH; reflexivity. }
  rewrite <- Hlen, Ha, length_app, length_map. lia.
Qed.

Lemma worker_drops_no_frame_witness :
  let s := after ten_with_fifth_failing "desktop" defaults in
  frames_of (iters s) = pending s ++ map frame_of_packet (delivered s) /\
  (List.length (delivered s) + List.length (pending s) =
   List.length (filter (fun x => grab_ok (snd x)) (iters s)))%nat.
Proof.
  cbv zeta.
  apply (worker_drops_no_frame "desktop" defaults).
  - exists ten_with_fifth_failing. vm_compute. reflexivity.
  - left. vm_compute. reflexivity.
Defined.

(** ** gdigrab_region_wnd_init *)


(** ** gdigrab_worker_start without a thread *)

Lemma calls_app ev ev' : calls (ev ++ ev') = calls ev ++ calls ev'.
Proof. unfold calls. apply filter_app. Qed.

Lemma step_NoWorker l s s' :
  Inv s -> NoWorker s -> step l s = Some s' -> NoWorker s'.
Proof.
  intros HI HN.
  assert (Hslot : pc (wk s) = WNotCreated ->
                  frame_in_stock (ctx s) = None /\ error_code (ctx s) = 0).
  { intros Hpc. revert Hpc HI. clear. open_state s. intros ->. tauto. }
  destruct l; cbn [step].
  - destruct (starter s) eqn:Es; try discriminate. intros [= <-].
    assert (Hpc : pc (wk s) = WNotCreated).
    { destruct HI as (_ & _ & H & _). rewrite Es in H. exact H. }
    specialize (HN Hpc). unfold worker_start_create.
    revert HN. clear. unfold NoWorker. open_sys s. intros (_ & H1 & H2).
    destruct created; ssimpl; [discriminate | auto].
  - destruct (starter s) eqn:Es; try discriminate. intros [= <-].
    assert (Hpc : pc (wk s) <> WNotCreated)
      by (intros Hpc; destruct (HN Hpc) as ([H | H] & _); congruence).
    unfold worker_start_lock. revert Hpc. clear. unfold NoWorker. open_sys s.
    destruct (negb (error_code g =? 0)); ssimpl; intros; contradiction.
  - destruct (starter s) eqn:Es; try discriminate.
    destruct (woken_s s); try discriminate. intros [= <-].
    assert (Hpc : pc (wk s) <> WNotCreated)
      by (intros Hpc; destruct (HN Hpc) as ([H | H] & _); congruence).
    unfold worker_start_resume. revert Hpc. clear. unfold NoWorker. open_sys s.
    intros; contradiction.
  - destruct (is_wpc (pc (wk s)) WInit); try discriminate. intros [= <-].
    unfold worker_init, NoWorker.
    destruct (gdigrab_dc_init W (url s) (ctx s)) as [[r g'] ev'].
    destruct (negb (r =? 0)); [rewrite worker_end_wk |]; open_sys s; discriminate.
  - destruct (is_wpc (pc (wk s)) WLoop); try discriminate. intros [= <-].
    unfold worker_grab, NoWorker.
    destruct (grab_worker_quit (ctx s));
      [rewrite worker_end_wk; open_sys s; discriminate |].
    cbv zeta. unfold paint_mouse_pointer. open_sys s.
    destruct r; ssimpl; discriminate.
  - destruct (is_wpc (pc (wk s)) WGrabbed); try discriminate. intros [= <-].
    unfold worker_lock, worker_hand_over, NoWorker. cbv zeta.
    destruct (negb _ && _); [rewrite worker_end_wk; open_sys s; discriminate |].
    destruct (grab_worker_quit (ctx s));
      [rewrite worker_end_wk; open_sys s; discriminate |].
    destruct (frame_in_stock (ctx s)); open_sys s; discriminate.
  - destruct (is_wpc (pc (wk s)) WWaitStock && woken_w s); try discriminate.
    intros [= <-]. unfold worker_hand_over, NoWorker.
    destruct (frame_in_stock (ctx s)); [open_sys s; discriminate |].
    destruct (grab_worker_quit (ctx s));
      [rewrite worker_end_wk; open_sys s; discriminate |].
    open_sys s; discriminate.
  - destruct (is_wpc (pc (wk s)) WPace); try discriminate. intros [= <-].
    unfold worker_pace, NoWorker. open_sys s. discriminate.
  - destruct (reader s); try discriminate. intros [= <-].
    unfold read_packet_enter.
    assert (G : forall r, NoWorker (read_return r s)).
    { intros r0. revert HN. clear. unfold NoWorker. open_sys s. auto. }
    destruct (negb (error_code (ctx s) =? 0)); [apply G |].
    destruct (frame_in_stock (ctx s)) eqn:Ef.
    + assert (Hpc : pc (wk s) <> WNotCreated)
        by (intros Hpc; destruct (Hslot Hpc); congruence).
      unfold gdigrab_copy_frame. revert Hpc. clear. unfold NoWorker.
      destruct alloc_ok; cbn [negb];
        [destruct (biBitCount (bmi (ctx s)) <=? 8) |];
        open_sys s; intros; contradiction.
    + destruct nonblock; [apply G |].
      revert HN. clear. unfold NoWorker. open_sys s. auto.
  - destruct (reader s); try discriminate.
    destruct (woken_r s); try discriminate. intros [= <-].
    unfold read_packet_resume.
    destruct (frame_in_stock (ctx s)) eqn:Ef.
    + assert (Hpc : pc (wk s) <> WNotCreated)
        by (intros Hpc; destruct (Hslot Hpc); congruence).
      unfold gdigrab_copy_frame. revert Hpc. clear. unfold NoWorker.
      destruct alloc_ok; cbn [negb];
        [destruct (biBitCount (bmi (ctx s)) <=? 8) |];
        open_sys s; intros; contradiction.
    + revert HN. clear. unfold NoWorker. open_sys s.
      intros HN Hpc. destruct (HN Hpc) as (H1 & H2 & H3).
      rewrite calls_app, H2. auto.
  - intros [= <-]. unfold gdigrab_read_close. revert HN. clear.
    unfold NoWorker. open_sys s. auto.
Qed.

Lemma reachable_NoWorker u o s : reachable u o s -> NoWorker s.
Proof.
  intros [tr H].
  assert (G : forall tr s0 s1, Inv s0 -> NoWorker s0 -> run tr s0 = Some s1 ->
              NoWorker s1).
  { clear. induction tr as [| l tr IH]; intros s0 s1 HI HN; cbn [run].
    - intros [= <-]. exact HN.
    - destruct (step l s0) as [s2 |] eqn:E; [| discriminate].
      apply IH; [exact (step_Inv l s0 s2 HI E) | exact (step_NoWorker l s0 s2 HI HN E)]. }
  apply (G tr _ _ (Inv_init u o)); [| exact H].
  intros _. cbn. auto.
Qed.

(** X23.  When [pthread_create] fails, [gdigrab_worker_start] returns
    [AVERROR(EIO)] without waiting, and nothing is ever captured: no Win32
    call is made and no packet delivered, whatever is called afterwards. *)
Theorem thread_creation_failure u o s :
  reachable u o s -> pc (wk s) = WNotCreated -> starter s <> SNotCalled ->
  starter s = SReturned (AVERROR EIO) /\
  calls (events s) = [] /\ delivered s = [].
Proof.
  intros R Hpc Hs. destruct (reachable_NoWorker u o s R Hpc) as ([H | H] & H2 & H3).
  - contradiction.
  - auto.
Qed.

Lemma thread_creation_failure_witness :
  let s := after [Start false; Pull false true; Close; PullWake true]
             "desktop" defaults in
  starter s = SReturned (AVERROR EIO) /\
  calls (events s) = [] /\ delivered s = [].
Proof.
  cbv zeta. apply (thread_creation_failure "desktop" defaults).
  - exists [Start false; Pull false true; Close; PullWake true].
    vm_compute. reflexivity.
  - vm_compute. reflexivity.
  - vm_compute. discriminate.
Defined.

(** * Theorems: libavutil/uprofiler *)

Lemma store_same r v m : store r v m r = v.
Proof. unfold store. rewrite Nat.eqb_refl. reflexivity. Qed.

Lemma store_other r v m a : a <> r -> store r v m a = m a.
Proof. unfold store. intros H. apply Nat.eqb_neq in H. rewrite H. reflexivity. Qed.

(** X24.  [uprofile_register] registers a record once: after a registration
    under a name, registering the same record again, under whatever name,
    changes nothing. *)
Theorem uprofile_register_once r nm nm' p :
  uprofile_register r nm' (uprofile_register r (Some nm) p) =
  uprofile_register r (Some nm) p.
Proof.
  unfold uprofile_register. cbv zeta. destruct (name (mem p r)) eqn:E.
  - rewrite E. reflexivity.
  - cbn [mem]. rewrite store_same. cbn [name]. reflexivity.
Qed.

(** ** The list of records *)

Lemma chain_store m r v : forall l pr,
  ~ In r l -> chain m pr l -> chain (store r v m) pr l.
Proof.
  induction l as [| a l IH]; intros pr Hn; cbn [chain]; [auto |].
  intros [-> Hc]. split; [reflexivity |].
  rewrite store_other by (intros ->; apply Hn; left; reflexivity).
  apply IH; [intros H; apply Hn; right; exact H | exact Hc].
Qed.

Lemma records_chain m : forall l pr fuel,
  chain m pr l -> (List.length l <= fuel)%nat -> records fuel m pr = Some l.
Proof.
  induction l as [| a l IH]; intros pr fuel; cbn [chain List.length].
  - intros -> _. destruct fuel; reflexivity.
  - intros [-> Hc] Hf. destruct fuel as [| fuel]; [lia |]. cbn [records].
    rewrite (IH _ fuel Hc) by lia. reflexivity.
Qed.

Lemma existsb_eqb_In r l : existsb (Nat.eqb r) l = true <-> In r l.
Proof.
  rewrite existsb_exists. split.
  - intros [x [Hin He]]. apply Nat.eqb_eq in He. subst x. exact Hin.
  - intros H. exists r. split; [exact H | apply Nat.eqb_refl].
Qed.

Lemma Listed_register r nm p l :
  Listed p l ->
  Listed (uprofile_register r (Some nm) p)
    (if negb (existsb (Nat.eqb r) l) then r :: l else l).
Proof.
  intros (Hc & Hnd & Hn). unfold uprofile_register. cbv zeta.
  destruct (existsb (Nat.eqb r) l) eqn:Ex; cbn [negb].
  - apply existsb_eqb_In in Ex. apply Hn in Ex.
    destruct (name (mem p r)); [| contradiction]. split; [exact Hc | split; assumption].
  - assert (Hnot : ~ In r l).
    { intros H. apply existsb_eqb_In in H. congruence. }
    destruct (name (mem p r)) eqn:E.
    + exfalso. apply Hnot, Hn. rewrite E. discriminate.
    + unfold Listed. cbn [mem tl_uprofile_record_list chain].
      rewrite store_same. cbn [next]. split; [split; [reflexivity |] |].
      * apply chain_store; assumption.
      * split; [constructor; assumption |].
        intros a. destruct (Nat.eq_dec a r) as [-> | Ha].
        -- rewrite store_same. cbn [name In]. split; [discriminate | auto].
        -- rewrite store_other by exact Ha. rewrite <- Hn. cbn [In].
           split; [intros [H | H]; [congruence | exact H] | auto].
Qed.

(** Updating the counters of a record keeps the list. *)
Lemma Listed_counters p l r t sc ec :
  Listed p l ->
  Listed
    (mk_profile
       (store r (mk_uprofile_record (name (mem p r)) t sc ec (next (mem p r)))
          (mem p))
       (tl_uprofile_record_list p)) l.
Proof.
  intros (Hc & Hnd & Hn). unfold Listed. cbn [mem tl_uprofile_record_list].
  split; [| split; [exact Hnd |]].
  - clear Hnd Hn. revert Hc. generalize (tl_uprofile_record_list p).
    induction l as [| a l IH]; intros pr; cbn [chain]; [auto |].
    intros [-> Hc]. split; [reflexivity |].
    assert (E : next (store r (mk_uprofile_record (name (mem p r)) t sc ec
                                 (next (mem p r))) (mem p) a) = next (mem p a)).
    { destruct (Nat.eq_dec a r) as [-> | Ha];
        [rewrite store_same | rewrite store_other by exact Ha]; reflexivity. }
    rewrite E. apply IH. exact Hc.
  - intros a. rewrite Hn.
    destruct (Nat.eq_dec a r) as [-> | Ha];
      [rewrite store_same | rewrite store_other by exact Ha]; reflexivity.
Qed.

Lemma Listed_apply_op p l o :
  Listed p l ->
  Listed (apply_op p o)
    (if registers o && negb (existsb (Nat.eqb (site o)) l) then site o :: l else l).
Proof.
  intros H. destruct o as [r nm | r pname | r t0 t]; cbn [apply_op registers site andb].
  - apply Listed_register. exact H.
  - unfold PROFILE_START. cbv zeta. apply Listed_counters.
    apply Listed_register. exact H.
  - unfold PROFILE_END. cbv zeta. apply Listed_counters. exact H.
Qed.

Lemma Listed_fold ops : forall p l,
  Listed p l -> Listed (fold_left apply_op ops p) (registered ops l).
Proof.
  induction ops as [| o ops IH]; intros p l H; cbn [fold_left registered]; [exact H |].
  pose proof (Listed_apply_op p l o H) as H'.
  destruct (registers o && negb (existsb (Nat.eqb (site o)) l)); apply IH; exact H'.
Qed.

(** X25.  Whatever a thread does with [uprofile_register], [PROFILE_START] and
    [PROFILE_END], its list holds every record it has registered exactly
    once, newest first, and ends in [NULL]: the loop of
    [uprofile_write_log_std] ends after as many steps as there are
    records and prints one line for each. *)
Theorem report_lists_each_record_once ops :
  let p := apply_ops ops in
  let l := registered ops [] in
  Listed p l /\
  forall fuel, (List.length l <= fuel)%nat ->
    records fuel (mem p) (tl_uprofile_record_list p) = Some l /\
    uprofile_write_log_std fuel p = Some (map (fun r => report_line (mem p r)) l).
Proof.
  cbv zeta. unfold apply_ops.
  assert (H0 : Listed fresh []).
  { unfold Listed, fresh. cbn. split; [reflexivity |].
    split; [constructor | intros r; split; [contradiction | intros H; contradiction H; reflexivity]]. }
  pose proof (Listed_fold ops fresh [] H0) as H. split; [exact H |].
  intros fuel Hf. destruct H as (Hc & _).
  pose proof (records_chain _ _ _ fuel Hc Hf) as E.
  split; [exact E |]. unfold uprofile_write_log_std. rewrite E. reflexivity.
Qed.

Lemma report_lists_each_record_once_witness :
  let ops := [OpStart 3 "a"; OpEnd 3 10 25; OpStart 5 "b"; OpStart 3 "a"] in
  records 2 (mem (apply_ops ops)) (tl_uprofile_record_list (apply_ops ops)) =
    Some [5; 3]%nat.
Proof.
  cbv zeta.
  destruct (report_lists_each_record_once
              [OpStart 3 "a"; OpEnd 3 10 25; OpStart 5 "b"; OpStart 3 "a"])
    as [_ H].
  destruct (H 2%nat) as [E _]; [cbn; lia | exact E].
Defined.

(** ** The counters *)

Lemma int64_add_l a b : int64 (int64 a + b) = int64 (a + b).
Proof.
  unfold int64, wrap. f_equal.
  replace ((a + 2 ^ (64 - 1)) mod 2 ^ 64 - 2 ^ (64 - 1) + b + 2 ^ (64 - 1))
    with ((a + 2 ^ (64 - 1)) mod 2 ^ 64 + b) by lia.
  rewrite Zplus_mod_idemp_l. f_equal. lia.
Qed.

Lemma int64_add_r a b : int64 (a + int64 b) = int64 (a + b).
Proof. rewrite Z.add_comm, int64_add_l. f_equal. lia. Qed.

Lemma int64_sub a b : int64 (int64 a - int64 b) = int64 (a - b).
Proof.
  unfold Z.sub at 1. rewrite int64_add_l.
  unfold int64, wrap. f_equal.
  replace (a + - ((b + 2 ^ (64 - 1)) mod 2 ^ 64 - 2 ^ (64 - 1)) + 2 ^ (64 - 1))
    with (a + 2 ^ (64 - 1) + 2 ^ (64 - 1) - (b + 2 ^ (64 - 1)) mod 2 ^ 64) by lia.
  rewrite Zminus_mod_idemp_r. f_equal. lia.
Qed.

Lemma register_counters r nm p a :
  let c := mem (uprofile_register r nm p) a in
  time c = time (mem p a) /\ start_count c = start_count (mem p a) /\
  end_count c = end_count (mem p a).
Proof.
  cbv zeta. unfold uprofile_register.
  destruct (name (mem p r)); [auto |]. cbn [mem].
  destruct (Nat.eq_dec a r) as [-> | Ha];
    [rewrite store_same | rewrite store_other by exact Ha]; auto.
Qed.

Lemma ticks_app r ops ops' : ticks r (ops ++ ops') = ticks r ops + ticks r ops'.
Proof.
  induction ops as [| o ops IH]; cbn [app ticks]; [reflexivity |].
  destruct o; try exact IH. destruct (Nat.eqb r0 r); lia.
Qed.

Lemma starts_app r ops ops' :
  starts r (ops ++ ops') = (starts r ops + starts r ops')%nat.
Proof. unfold starts. rewrite filter_app, length_app. reflexivity. Qed.

Lemma ends_app r ops ops' :
  ends r (ops ++ ops') = (ends r ops + ends r ops')%nat.
Proof. unfold ends. rewrite filter_app, length_app. reflexivity. Qed.

Lemma counters_fold ops : forall r,
  let c := mem (apply_ops ops) r in
  start_count c = int64 (Z.of_nat (starts r ops)) /\
  end_count c = int64 (Z.of_nat (ends r ops)) /\
  time c = int64 (ticks r ops).
Proof.
  induction ops as [| o ops IH] using rev_ind; intros r; cbv zeta.
  - cbn. auto.
  - unfold apply_ops. rewrite fold_left_app. cbn [fold_left].
    fold (apply_ops ops). rewrite starts_app, ends_app, ticks_app.
    destruct (IH r) as (Hs & He & Ht). cbv zeta in Hs, He, Ht.
    destruct o as [a nm | a pname | a t0 t]; cbn [apply_op].
    + destruct (register_counters a (Some nm) (apply_ops ops) r) as (-> & -> & ->).
      cbn. rewrite !Nat.add_0_r, Z.add_0_r. auto.
    + unfold PROFILE_START. cbv zeta. cbn [mem].
      destruct (register_counters a (Some pname) (apply_ops ops) r) as (Rt & Rs & Re).
      cbv zeta in Rt, Rs, Re.
      unfold starts at 2, ends at 2. cbn [filter ticks List.length].
      destruct (Nat.eq_dec r a) as [-> | Ha].
      * rewrite store_same, Nat.eqb_refl. cbn [start_count end_count time List.length].
        rewrite Rt, Rs, Re, Hs, He, Ht, int64_add_l, Nat.add_0_r, Z.add_0_r.
        split; [f_equal; lia | auto].
      * rewrite store_other by exact Ha.
        assert (E : Nat.eqb a r = false) by (apply Nat.eqb_neq; congruence).
        rewrite E. cbn [List.length].
        rewrite Rt, Rs, Re, Hs, He, Ht, !Nat.add_0_r, Z.add_0_r. auto.
    + unfold PROFILE_END. cbv zeta. cbn [mem].
      unfold starts at 2, ends at 2. cbn [filter ticks List.length].
      destruct (Nat.eq_dec r a) as [-> | Ha].
      * rewrite store_same, Nat.eqb_refl. cbn [start_count end_count time List.length].
        rewrite Hs, He, Ht, int64_add_r, !int64_add_l, Nat.add_0_r.
        split; [reflexivity |]. split; f_equal; lia.
      * rewrite store_other by exact Ha.
        assert (E : Nat.eqb a r = false) by (apply Nat.eqb_neq; congruence).
        rewrite E. cbn [List.length].
        rewrite Hs, He, Ht, !Nat.add_0_r, Z.add_0_r. auto.
Qed.

(** X26.  The counters of a record count: [start_count] is the number of
    [PROFILE_START]s at its site and [end_count] the number of
    [PROFILE_END]s, [time] is the sum of the tick differences measured
    there, and the mismatch column of the report is the number of
    measurements begun and not finished -- all as 64-bit integers. *)
Theorem counters_count ops r :
  let c := mem (apply_ops ops) r in
  start_count c = int64 (Z.of_nat (starts r ops)) /\
  end_count c = int64 (Z.of_nat (ends r ops)) /\
  time c = int64 (ticks r ops) /\
  report_line c =
    (int64 (Z.of_nat (ends r ops)), int64 (ticks r ops),
     int64 (Z.of_nat (starts r ops) - Z.of_nat (ends r ops)), name c).
Proof.
  cbv zeta. destruct (counters_fold ops r) as (Hs & He & Ht). cbv zeta in Hs, He, Ht.
  split; [exact Hs |]. split; [exact He |]. split; [exact Ht |].
  unfold report_line. rewrite Hs, He, Ht, int64_sub. reflexivity.
Qed.

(** ** A name that is [NULL] *)

(** X27.  The test [if (r->name) return] recognises a registered record by its
    name.  A record registered twice under a [NULL] name is therefore
    linked twice: it becomes its own successor, and the loop of
    [uprofile_write_log_std] does not reach [NULL] from it. *)
Theorem register_null_name_twice r p :
  name (mem p r) = None ->
  let p' := uprofile_register r None (uprofile_register r None p) in
  tl_uprofile_record_list p' = Some r /\ next (mem p' r) = Some r /\
  forall fuel, records fuel (mem p') (tl_uprofile_record_list p') = None.
Proof.
  intros E. cbv zeta. unfold uprofile_register. cbv zeta. rewrite E.
  cbn [mem tl_uprofile_record_list]. rewrite store_same. cbn [name mem tl_uprofile_record_list].
  rewrite store_same. cbn [next].
  split; [reflexivity |]. split; [reflexivity |].
  induction fuel as [| fuel IH]; cbn [records]; [reflexivity |].
  rewrite store_same. cbn [next]. rewrite IH. reflexivity.
Qed.

Lemma register_null_name_twice_witness :
  let p' := uprofile_register 7 None (uprofile_register 7 None fresh) in
  tl_uprofile_record_list p' = Some 7%nat /\ next (mem p' 7%nat) = Some 7%nat /\
  forall fuel, records fuel (mem p') (tl_uprofile_record_list p') = None.
Proof.
  apply (register_null_name_twice 7 fresh). reflexivity.
Defined.

(** * Theorems: paint_mouse_pointer *)

Lemma quot_in_int32 a b : in_int32 a -> 0 < b -> in_int32 (Z.quot a b).
Proof.
  unfold in_int32. intros Ha Hb.
  pose proof (Z.quot_rem' a b) as E.
  destruct (Z_le_gt_dec 0 a) as [H | H].
  - pose proof (Z.rem_bound_pos a b H Hb) as Hr.
    pose proof (Z.quot_pos a b H Hb) as Hq.
    revert E Hr Hq. generalize (Z.quot a b) (Z.rem a b). intros q r E Hr Hq.
    assert (q <= b * q) by nia. lia.
  - assert (Hr : 0 <= Z.rem (- a) b < b) by (apply Z.rem_bound_pos; lia).
    rewrite Z.rem_opp_l in Hr by lia.
    assert (Hq : 0 <= Z.quot (- a) b) by (apply Z.quot_pos; lia).
    rewrite Z.quot_opp_l in Hq by lia.
    revert E Hr Hq. generalize (Z.quot a b) (Z.rem a b). intros q r E Hr Hq.
    assert (b * q <= q) by nia. lia.
Qed.

Lemma hidpi_no_wrap p d r :
  in_int32 (p * d) -> 0 < r -> hidpi p d r = Z.quot (p * d) r.
Proof.
  intros Hp Hr. unfold hidpi. rewrite (int32_id (p * d)) by exact Hp.
  apply int32_id. apply quot_in_int32; assumption.
Qed.

Lemma In_icon_error c icon got e :
  In e (icon_error c icon got) <->
  (got = true /\ hbmMask c <> NULL /\ e = EvDeleteObject (hbmMask c)) \/
  (got = true /\ hbmColor c <> NULL /\ e = EvDeleteObject (hbmColor c)) \/
  (icon <> NULL /\ e = EvDestroyCursor icon).
Proof.
  unfold icon_error. rewrite !in_app_iff.
  destruct got; cbn [andb];
    destruct (Z.eqb_spec (hbmMask c) NULL), (Z.eqb_spec (hbmColor c) NULL),
             (Z.eqb_spec icon NULL); cbn [negb In];
    intuition (try congruence; try discriminate; auto).
Qed.

Lemma cursor_pos_desktop W c g :
  let clip := clip_rect g in
  let h := GetDeviceCaps W (source_hdc g) HORZRES in
  let v := GetDeviceCaps W (source_hdc g) VERTRES in
  let dh := GetDeviceCaps W (source_hdc g) DESKTOPHORZRES in
  let dv := GetDeviceCaps W (source_hdc g) DESKTOPVERTRES in
  let x0 := pt_x (ptScreenPos c) - left clip - xHotspot c in
  let y0 := pt_y (ptScreenPos c) - top clip - yHotspot c in
  0 < h -> 0 < v -> in_int32 x0 -> in_int32 y0 ->
  in_int32 (x0 * dh) -> in_int32 (y0 * dv) ->
  cursor_pos W c g None = (Z.quot (x0 * dh) h, Z.quot (y0 * dv) v).
Proof.
  cbv zeta. intros Hh Hv Hx Hy Hxd Hyd. unfold cursor_pos.
  rewrite (int32_id _ Hx), (int32_id _ Hy).
  rewrite hidpi_no_wrap by assumption. rewrite hidpi_no_wrap by assumption.
  reflexivity.
Qed.

(** X28.  Desktop capture, every call succeeding, no 32-bit overflow: the icon
    is drawn at the screen position of the cursor less the origin of the
    clip rectangle and the hot spot, scaled by
    [DESKTOPHORZRES / HORZRES] and [DESKTOPVERTRES / VERTRES] with
    truncation -- and it is drawn exactly when that position lies within
    the clip rectangle, both far edges included.  Without scaling the
    position is the plain difference. *)
Theorem cursor_is_drawn_iff_inside W c g :
  GetCursorInfo c = true -> CURSOR_SHOWING c = true ->
  GetIconInfo c (icon_of c) = true -> hwnd g = NULL ->
  let clip := clip_rect g in
  let h := GetDeviceCaps W (source_hdc g) HORZRES in
  let v := GetDeviceCaps W (source_hdc g) VERTRES in
  let dh := GetDeviceCaps W (source_hdc g) DESKTOPHORZRES in
  let dv := GetDeviceCaps W (source_hdc g) DESKTOPVERTRES in
  let x0 := pt_x (ptScreenPos c) - left clip - xHotspot c in
  let y0 := pt_y (ptScreenPos c) - top clip - yHotspot c in
  0 < h -> 0 < v -> in_int32 x0 -> in_int32 y0 ->
  in_int32 (x0 * dh) -> in_int32 (y0 * dv) ->
  in_int32 (right clip - left clip) -> in_int32 (bottom clip - top clip) ->
  let px := Z.quot (x0 * dh) h in
  let py := Z.quot (y0 * dv) v in
  let ev := snd (paint_mouse_pointer_calls W c g) in
  (In (EvDrawIcon (icon_of c) px py) ev <->
   0 <= px <= right clip - left clip /\ 0 <= py <= bottom clip - top clip) /\
  (forall i a b, In (EvDrawIcon i a b) ev -> i = icon_of c /\ a = px /\ b = py) /\
  (dh = h -> dv = v -> px = x0 /\ py = y0).
Proof.
  intros Hg Hs Hi Hw. cbv zeta. intros Hh Hv Hx Hy Hxd Hyd Hcw Hch.
  pose proof (cursor_pos_desktop W c g Hh Hv Hx Hy Hxd Hyd) as Hpos.
  cbv zeta in Hpos.
  unfold paint_mouse_pointer_calls. rewrite Hg, Hs, Hi, Hw.
  change (NULL =? NULL) with true. cbn [negb andb]. cbv zeta.
  rewrite Hpos. cbn [fst snd]. unfold inside_clip. cbn [fst snd].
  rewrite (int32_id _ Hcw), (int32_id _ Hch).
  set (px := Z.quot _ (GetDeviceCaps W (source_hdc g) HORZRES)).
  set (py := Z.quot _ (GetDeviceCaps W (source_hdc g) VERTRES)).
  assert (Hno : forall l i a b,
            In (EvDrawIcon i a b)
               ([EvGetCursorInfo; EvCopyCursor] ++ l ++ [EvGetIconInfo (icon_of c)]) ->
            (forall i a b, ~ In (EvDrawIcon i a b) l) -> False).
  { intros l i a b Hin Hl. cbn [app In] in Hin.
    destruct Hin as [Hin | [Hin | Hin]]; try discriminate Hin.
    apply in_app_or in Hin. destruct Hin as [Hin | [Hin | []]];
      [exact (Hl _ _ _ Hin) | discriminate Hin]. }
  assert (Hl : forall i a b,
            ~ In (EvDrawIcon i a b)
                (if hCursor c =? NULL then [EvLoadCursor; EvCopyCursor] else [])).
  { intros i a b. destruct (hCursor c =? NULL); cbn [In]; intuition discriminate. }
  assert (Hie : forall got i a b, ~ In (EvDrawIcon i a b) (icon_error c (icon_of c) got)).
  { intros got i a b Hin. apply In_icon_error in Hin.
    destruct Hin as [(_ & _ & H) | [(_ & _ & H) | (_ & H)]]; discriminate H. }
  split; [| split].
  - destruct (Z.leb_spec 0 px), (Z.leb_spec px (right (clip_rect g) - left (clip_rect g))),
             (Z.leb_spec 0 py), (Z.leb_spec py (bottom (clip_rect g) - top (clip_rect g)));
      cbn [andb].
    1: { split; [lia |]. intros _.
         destruct (DrawIcon c (icon_of c) px py);
           [| unfold CURSOR_ERROR; destruct (cursor_error_printed g =? 0)];
           cbn [snd]; rewrite !in_app_iff; cbn [In]; auto 10. }
    all: cbn [snd]; split; [| lia]; intros Hin; exfalso;
      rewrite app_nil_r in Hin; apply in_app_or in Hin;
      destruct Hin as [Hin | Hin];
      [exact (Hno _ _ _ _ Hin Hl) | exact (Hie _ _ _ _ Hin)].
  - intros i a b.
    destruct ((0 <=? px) && (px <=? right (clip_rect g) - left (clip_rect g)) &&
              (0 <=? py) && (py <=? bottom (clip_rect g) - top (clip_rect g))).
    + assert (G : forall tl, (forall i a b, ~ In (EvDrawIcon i a b) tl) ->
                  In (EvDrawIcon i a b)
                     ((([EvGetCursorInfo; EvCopyCursor] ++
                        (if hCursor c =? NULL then [EvLoadCursor; EvCopyCursor] else []) ++
                        [EvGetIconInfo (icon_of c)]) ++ []) ++
                      [EvDrawIcon (icon_of c) px py] ++ tl) ->
                  i = icon_of c /\ a = px /\ b = py).
      { intros tl Htl Hin. rewrite app_nil_r in Hin.
        apply in_app_or in Hin. destruct Hin as [Hin | Hin];
          [exfalso; exact (Hno _ _ _ _ Hin Hl) |].
        cbn [app In] in Hin. destruct Hin as [Hin | Hin];
          [injection Hin as <- <- <-; auto | exfalso; exact (Htl _ _ _ Hin)]. }
      destruct (DrawIcon c (icon_of c) px py); cbn [snd].
      * rewrite <- app_assoc. apply G. apply Hie.
      * unfold CURSOR_ERROR. destruct (cursor_error_printed g =? 0); cbn [snd];
          rewrite <- app_assoc; apply G; intros i' a' b' Hin.
        -- cbn [app In] in Hin. destruct Hin as [Hin | Hin];
             [discriminate Hin | exact (Hie _ _ _ _ Hin)].
        -- exact (Hie _ _ _ _ Hin).
    + cbn [snd]. intros Hin. exfalso. rewrite app_nil_r in Hin.
      apply in_app_or in Hin. destruct Hin as [Hin | Hin];
        [exact (Hno _ _ _ _ Hin Hl) | exact (Hie _ _ _ _ Hin)].
  - intros Edh Edv. subst px py. rewrite Edh, Edv.
    split; apply Z.quot_mul; lia.
Qed.

Lemma cursor_is_drawn_iff_inside_witness :
  let ev := snd (paint_mouse_pointer_calls desk pointer grabbing) in
  (In (EvDrawIcon 55 598 347) ev <->
   0 <= 598 <= 740 - 100 /\ 0 <= 347 <= 530 - 50) /\
  (forall i a b, In (EvDrawIcon i a b) ev -> i = 55 /\ a = 598 /\ b = 347) /\
  (1920 = 1920 -> 1080 = 1080 -> 598 = 700 - 100 - 2 /\ 347 = 400 - 50 - 3).
Proof.
  cbv zeta.
  apply (cursor_is_drawn_iff_inside desk pointer grabbing);
    try reflexivity; vm_compute; (split; [discriminate | reflexivity]).
Defined.

(** X29.  [paint_mouse_pointer] gives back what it has taken whenever it gets
    past the test of [CURSOR_SHOWING]: on every path, error paths
    included, the icon is destroyed if there is one, and the two bitmaps
    of [GetIconInfo] are deleted if it has filled them in -- and nothing
    else is.  When the cursor is hidden it returns right after
    [CopyCursor], without destroying the copy. *)
Theorem paint_mouse_pointer_cleanup W c g :
  GetCursorInfo c = true ->
  let ev := snd (paint_mouse_pointer_calls W c g) in
  (CURSOR_SHOWING c = true ->
   (forall h, In (EvDestroyCursor h) ev <-> h = icon_of c /\ h <> NULL) /\
   (forall h, In (EvDeleteObject h) ev <->
      GetIconInfo c (icon_of c) = true /\ h <> NULL /\
      (h = hbmMask c \/ h = hbmColor c))) /\
  (CURSOR_SHOWING c = false ->
   ev = [EvGetCursorInfo; EvCopyCursor]).
Proof.
  intros Hg. cbv zeta. unfold paint_mouse_pointer_calls. rewrite Hg. cbn [negb].
  split; [| intros ->; reflexivity].
  intros ->. cbn [negb]. cbv zeta.
  assert (Hpre : forall e,
            In e ([EvGetCursorInfo; EvCopyCursor] ++
                  (if hCursor c =? NULL then [EvLoadCursor; EvCopyCursor] else []) ++
                  [EvGetIconInfo (icon_of c)]) ->
            match e with EvDestroyCursor _ | EvDeleteObject _ => False | _ => True end).
  { intros e Hin. destruct (hCursor c =? NULL); cbn [app In] in Hin;
      repeat (destruct Hin as [<- | Hin]; [exact I |]); destruct Hin. }
  assert (Herr : forall m e, In e (snd (CURSOR_ERROR m (cursor_error_printed g))) ->
            match e with EvDestroyCursor _ | EvDeleteObject _ => False | _ => True end).
  { intros m e. unfold CURSOR_ERROR. destruct (cursor_error_printed g =? 0); cbn [snd In];
      [intros [<- | []]; exact I | intros []]. }
  assert (Key : forall pre got,
            (forall e, In e pre ->
               match e with EvDestroyCursor _ | EvDeleteObject _ => False | _ => True end) ->
            got = GetIconInfo c (icon_of c) ->
            (forall h, In (EvDestroyCursor h) (pre ++ icon_error c (icon_of c) got) <->
                       h = icon_of c /\ h <> NULL) /\
            (forall h, In (EvDeleteObject h) (pre ++ icon_error c (icon_of c) got) <->
                       GetIconInfo c (icon_of c) = true /\ h <> NULL /\
                       (h = hbmMask c \/ h = hbmColor c))).
  { intros pre got Hp ->. split; intros h; rewrite in_app_iff, In_icon_error.
    - split.
      + intros [Hin | [(_ & _ & H) | [(_ & _ & H) | (Hn & H)]]]; try discriminate H.
        * destruct (Hp _ Hin).
        * injection H as ->. auto.
      + intros [-> Hn]. right. right. right. auto.
    - split.
      + intros [Hin | [(Hgot & Hn & H) | [(Hgot & Hn & H) | (_ & H)]]]; try discriminate H.
        * destruct (Hp _ Hin).
        * injection H as ->. auto.
        * injection H as ->. auto.
      + intros (Hgot & Hn & [-> | ->]); right; [left | right; left]; auto. }
  destruct (GetIconInfo c (icon_of c)) eqn:Hi; cbn [negb].
  - destruct (negb (hwnd g =? NULL) &&
              match GetWindowRect c (hwnd g) with Some _ => false | None => true end).
    + destruct (CURSOR_ERROR CouldntGetWindowRectangle (cursor_error_printed g))
        as [p e] eqn:Ec. cbn [snd].
      rewrite app_assoc. apply Key; [| reflexivity].
      intros x Hin. apply in_app_or in Hin. destruct Hin as [Hin | Hin].
      * apply in_app_or in Hin. destruct Hin as [Hin | [<- | []]];
          [exact (Hpre _ Hin) | exact I].
      * apply (Herr CouldntGetWindowRectangle). rewrite Ec. exact Hin.
    + assert (Hpre2 : forall e,
                In e (([EvGetCursorInfo; EvCopyCursor] ++
                       (if hCursor c =? NULL then [EvLoadCursor; EvCopyCursor] else []) ++
                       [EvGetIconInfo (icon_of c)]) ++
                      (if hwnd g =? NULL then [] else [EvGetWindowRect])) ->
                match e with EvDestroyCursor _ | EvDeleteObject _ => False | _ => True end).
      { intros x Hin. apply in_app_or in Hin. destruct Hin as [Hin | Hin];
          [exact (Hpre _ Hin) |].
        destruct (hwnd g =? NULL); cbn [In] in Hin; [destruct Hin |].
        destruct Hin as [<- | []]. exact I. }
      destruct (inside_clip g _).
      * destruct (DrawIcon c (icon_of c) _ _).
        -- cbn [snd]. apply Key; [| reflexivity].
           intros x Hin. apply in_app_or in Hin.
           destruct Hin as [Hin | [<- | []]]; [exact (Hpre2 _ Hin) | exact I].
        -- destruct (CURSOR_ERROR CouldntDrawIcon (cursor_error_printed g))
             as [p e] eqn:Ec. cbn [snd].
           rewrite app_assoc. apply Key; [| reflexivity].
           intros x Hin. apply in_app_or in Hin. destruct Hin as [Hin | Hin].
           ++ apply in_app_or in Hin.
              destruct Hin as [Hin | [<- | []]]; [exact (Hpre2 _ Hin) | exact I].
           ++ apply (Herr CouldntDrawIcon). rewrite Ec. exact Hin.
      * cbn [snd]. apply Key; [exact Hpre2 | reflexivity].
  - destruct (CURSOR_ERROR CouldNotGetIconInfo (cursor_error_printed g))
      as [p e] eqn:Ec. cbn [snd].
    rewrite app_assoc. apply Key; [| reflexivity].
    intros x Hin. apply in_app_or in Hin. destruct Hin as [Hin | Hin];
      [exact (Hpre _ Hin) |].
    apply (Herr CouldNotGetIconInfo). rewrite Ec. exact Hin.
Qed.

Lemma paint_mouse_pointer_cleanup_witness :
  let ev := snd (paint_mouse_pointer_calls desk pointer grabbing) in
  (CURSOR_SHOWING pointer = true ->
   (forall h, In (EvDestroyCursor h) ev <-> h = icon_of pointer /\ h <> NULL) /\
   (forall h, In (EvDeleteObject h) ev <->
      GetIconInfo pointer (icon_of pointer) = true /\ h <> NULL /\
      (h = hbmMask pointer \/ h = hbmColor pointer))) /\
  (CURSOR_SHOWING pointer = false ->
   ev = [EvGetCursorInfo; EvCopyCursor]).
Proof.
  apply (paint_mouse_pointer_cleanup desk pointer grabbing). reflexivity.
Defined.

Lemma icon_error_no_error c icon got :
  filter is_cursor_error (icon_error c icon got) = [].
Proof.
  unfold icon_error.
  destruct (got && negb (hbmMask c =? NULL)), (got && negb (hbmColor c =? NULL)),
           (negb (icon =? NULL)); reflexivity.
Qed.

Lemma set_cursor_error_printed_same g :
  set_cursor_error_printed (cursor_error_printed g) g = g.
Proof. destruct g. reflexivity. Qed.

(** What a failing path of [paint_mouse_pointer] leaves. *)
Lemma cursor_fail_path m g pre rest :
  filter is_cursor_error pre = [] -> filter is_cursor_error rest = [] ->
  let r := (let '(p, e) := CURSOR_ERROR m (cursor_error_printed g) in
            (set_cursor_error_printed p g, pre ++ e ++ rest)) in
  List.length (filter is_cursor_error (snd r)) =
    (if cursor_error_printed g =? 0 then 1%nat else 0%nat) /\
  fst r = (if cursor_error_printed g =? 0 then set_cursor_error_printed 1 g else g).
Proof.
  intros Hp Hr. cbv zeta. unfold CURSOR_ERROR.
  destruct (cursor_error_printed g =? 0); cbn [fst snd];
    rewrite !filter_app, Hp, Hr; cbn [app filter is_cursor_error List.length].
  - auto.
  - rewrite set_cursor_error_printed_same. auto.
Qed.

Lemma cursor_good_path (g : gdigrab) (ev : list cursor_event) :
  filter is_cursor_error ev = [] ->
  List.length (filter is_cursor_error (snd (g, ev))) = 0%nat /\ fst (g, ev) = g.
Proof. intros H. cbn [fst snd]. rewrite H. auto. Qed.

(** X30.  One call of [paint_mouse_pointer] logs an error exactly when one of
    its Win32 calls fails and no cursor error has been logged before, and
    then sets [cursor_error_printed]; it changes nothing else in the
    struct.  The transition [paint_mouse_pointer] of the worker does the
    same to the struct and to the number of cursor errors logged. *)
Theorem cursor_error_once_per_call W c g :
  let g' := fst (paint_mouse_pointer_calls W c g) in
  let ev := snd (paint_mouse_pointer_calls W c g) in
  let failed := cursor_call_fails W c g in
  let logs := failed && (cursor_error_printed g =? 0) in
  List.length (filter is_cursor_error ev) = (if logs then 1%nat else 0%nat) /\
  g' = (if logs then set_cursor_error_printed 1 g else g) /\
  forall s, ctx s = g ->
    ctx (paint_mouse_pointer failed s) = g' /\
    cursor_errors (events (paint_mouse_pointer failed s)) =
      (cursor_errors (events s) + List.length (filter is_cursor_error ev))%nat.
Proof.
  cbv zeta.
  assert (Main :
    List.length (filter is_cursor_error (snd (paint_mouse_pointer_calls W c g))) =
      (if cursor_call_fails W c g && (cursor_error_printed g =? 0) then 1%nat else 0%nat) /\
    fst (paint_mouse_pointer_calls W c g) =
      (if cursor_call_fails W c g && (cursor_error_printed g =? 0)
       then set_cursor_error_printed 1 g else g)).
  { unfold paint_mouse_pointer_calls, cursor_call_fails. cbv zeta.
    set (pre := [EvGetCursorInfo; EvCopyCursor] ++
                (if hCursor c =? NULL then [EvLoadCursor; EvCopyCursor] else []) ++
                [EvGetIconInfo (icon_of c)]).
    set (wnd := if hwnd g =? NULL then [] else [EvGetWindowRect]).
    assert (Hpre : filter is_cursor_error pre = [])
      by (subst pre; destruct (hCursor c =? NULL); reflexivity).
    assert (Hw : filter is_cursor_error wnd = [])
      by (subst wnd; destruct (hwnd g =? NULL); reflexivity).
    clearbody pre wnd.
    destruct (GetCursorInfo c); cbn [negb orb andb];
      [| apply (cursor_fail_path CouldntGetCursorInfo g [EvGetCursorInfo] []); reflexivity].
    destruct (CURSOR_SHOWING c); cbn [negb orb andb];
      [| apply cursor_good_path; reflexivity].
    destruct (GetIconInfo c (icon_of c)); cbn [negb orb andb];
      [| apply cursor_fail_path; [exact Hpre | apply icon_error_no_error]].
    destruct (negb (hwnd g =? NULL) &&
              match GetWindowRect c (hwnd g) with Some _ => false | None => true end);
      cbn [negb orb andb].
    { apply cursor_fail_path; [| apply icon_error_no_error].
      rewrite filter_app, Hpre. reflexivity. }
    destruct (inside_clip g _); cbn [negb orb andb].
    - destruct (DrawIcon c (icon_of c) _ _); cbn [negb orb andb].
      + apply cursor_good_path.
        rewrite !filter_app, Hpre, Hw, icon_error_no_error. reflexivity.
      + apply cursor_fail_path; [| apply icon_error_no_error].
        rewrite !filter_app, Hpre, Hw. reflexivity.
    - apply cursor_good_path.
      rewrite !filter_app, Hpre, Hw, icon_error_no_error. reflexivity. }
  destruct Main as [M1 M2]. split; [exact M1 |]. split; [exact M2 |].
  intros s Hs. rewrite M1, M2. unfold paint_mouse_pointer.
  destruct s as [u0 g0 d0 d1 w ww rd wr st ws ev it off dr del pl].
  cbn [ctx] in Hs. subst g0. ssimpl.
  destruct (cursor_call_fails W c g && (cursor_error_printed g =? 0)); ssimpl;
    (split; [reflexivity |]); rewrite !cursor_errors_app; cbn; lia.
Qed.
